(** * AInterviewer: the interview session controller and its collaborators

    A shallow embedding of [src/main.py] and of the modules it drives
    ([entrevista_logger.py], [llm_conversacion.py], [whisper_stt.py]),
    followed by the properties of the session that the specification
    states.

    Conventions of the embedding.
    - A Python [str] is the [string] of its UTF-8 bytes; a file is the
      [string] of its bytes, and the file system is a finite map from
      paths to contents.  It holds the files that the program opens
      itself, which are text files: the prompt and the records of the
      logger.  The audio files that the libraries of the recorder and of
      the synthesizer write under [temp/] are not in it.
    - A call that may raise returns a [resultado]: [Ret v] or [Lanza e].
    - What the program reads from the outside world (the clock, the
      microphone, the network, the keyboard) is an explicit input of the
      function that reads it. *)

From Stdlib Require Import Ascii String NArith ZArith Lia Bool.
From stdpp Require Import base option list strings gmap.

Local Open Scope nat_scope.
Set Warnings "-register-all".

(** ** Python strings as UTF-8 bytes *)

Module Str.

Definition cod (c : ascii) : N := N_of_ascii c.

(** [len s = 0], i.e. [not s]. *)
Definition vacia (s : string) : bool :=
  match s with EmptyString => true | String _ _ => false end.

Fixpoint drop (n : nat) (s : string) : string :=
  match n, s with
  | S n', String _ r => drop n' r
  | _, _ => s
  end.

(** [str.lower] on the ASCII letters.  Bytes of multi-byte characters are
    left as they are, which decides [m in s.lower()] like Python for the
    ASCII markers of this program. *)
Definition lower_char (c : ascii) : ascii :=
  if ((65 <=? cod c) && (cod c <=? 90))%N then ascii_of_N (cod c + 32) else c.

Fixpoint lower (s : string) : string :=
  match s with
  | EmptyString => EmptyString
  | String c r => String (lower_char c) (lower r)
  end.

(** [sub in s] for strings. *)
Fixpoint contiene (sub s : string) : bool :=
  String.prefix sub s ||
  match s with
  | EmptyString => false
  | String _ r => contiene sub r
  end.

(** White space in the sense of [str.isspace], on the UTF-8 encoding:
    one byte (TAB..CR, FS..US, space), two bytes (U+0085, U+00A0), three
    bytes (U+1680, U+2000..U+200A, U+2028, U+2029, U+202F, U+205F,
    U+3000). *)
Definition esp1 (c : ascii) : bool :=
  ((9 <=? cod c) && (cod c <=? 13) || (28 <=? cod c) && (cod c <=? 32))%N.

Definition esp2 (c1 c2 : ascii) : bool :=
  ((cod c1 =? 194) && ((cod c2 =? 133) || (cod c2 =? 160)))%N.

Definition esp3 (c1 c2 c3 : ascii) : bool :=
  ((cod c1 =? 225) && (cod c2 =? 154) && (cod c3 =? 128)
   || (cod c1 =? 226) && (cod c2 =? 128)
      && ((128 <=? cod c3) && (cod c3 <=? 138)
          || (cod c3 =? 168) || (cod c3 =? 169) || (cod c3 =? 175))
   || (cod c1 =? 226) && (cod c2 =? 129) && (cod c3 =? 159)
   || (cod c1 =? 227) && (cod c2 =? 128) && (cod c3 =? 128))%N.

Fixpoint lstrip (s : string) : string :=
  match s with
  | EmptyString => s
  | String c1 r1 =>
    if esp1 c1 then lstrip r1 else
    match r1 with
    | EmptyString => s
    | String c2 r2 =>
      if esp2 c1 c2 then lstrip r2 else
      match r2 with
      | EmptyString => s
      | String c3 r3 => if esp3 c1 c2 c3 then lstrip r3 else s
      end
    end
  end.

(** The same scan on the reversed string: the bytes of a character come
    last byte first. *)
Fixpoint lstrip_rev (s : string) : string :=
  match s with
  | EmptyString => s
  | String c1 r1 =>
    if esp1 c1 then lstrip_rev r1 else
    match r1 with
    | EmptyString => s
    | String c2 r2 =>
      if esp2 c2 c1 then lstrip_rev r2 else
      match r2 with
      | EmptyString => s
      | String c3 r3 => if esp3 c3 c2 c1 then lstrip_rev r3 else s
      end
    end
  end.

Definition rstrip (s : string) : string :=
  String.rev (lstrip_rev (String.rev s)).

Definition strip (s : string) : string := rstrip (lstrip s).

(** [s.replace(old, new)] for a non-empty [old]: the occurrences are
    replaced from left to right and do not overlap.  [salta] counts the
    bytes of the occurrence in progress that are still to be dropped. *)
Fixpoint replace_go (old new : string) (salta : nat) (s : string) : string :=
  match s with
  | EmptyString => EmptyString
  | String c r =>
    match salta with
    | S k => replace_go old new k r
    | O =>
      if String.prefix old s
      then new +:+ replace_go old new (String.length old - 1) r
      else String c (replace_go old new 0 r)
    end
  end.

Definition replace (old new s : string) : string := replace_go old new 0 s.

(** The first character of a non-empty string, [s[0]]: a lead byte and
    the continuation bytes (10xxxxxx) after it. *)
Fixpoint continuacion (s : string) : string :=
  match s with
  | String c r =>
    if ((128 <=? cod c) && (cod c <=? 191))%N then String c (continuacion r)
    else EmptyString
  | EmptyString => EmptyString
  end.

Definition primer_caracter (s : string) : option string :=
  match s with
  | EmptyString => None
  | String c r => Some (String c (continuacion r))
  end.

(** Decimal digits of [n], at least [ancho] of them (["%0<ancho>d"]). *)
Definition digito (n : nat) : ascii := ascii_of_nat (48 + n mod 10).

Fixpoint decimal_go (comb : nat) (n : nat) (acc : string) : string :=
  match comb with
  | O => acc
  | S k =>
    let acc' := String (digito n) acc in
    if n <? 10 then acc' else decimal_go k (n / 10) acc'
  end.

Definition decimal (n : nat) : string := decimal_go (S n) n EmptyString.

Fixpoint ceros (k : nat) : string :=
  match k with O => EmptyString | S k' => String "0" (ceros k') end.

Definition rellena (ancho n : nat) : string :=
  let d := decimal n in ceros (ancho - String.length d) +:+ d.

End Str.

(** ** Exceptions and results *)

(** The exception classes that occur in the program.  [KeyboardInterrupt]
    and [SystemExit] derive from [BaseException] only: [except Exception]
    lets them through, a bare [except:] catches them. *)
Inductive excepcion : Type :=
| KeyboardInterrupt
| SystemExit
| EOFError
| OSError
| FileNotFoundError
| JSONDecodeError
| ValueError
| TypeError
| KeyError
| IndexError
| AttributeError
| ConnectionError
| HTTPError.

Definition es_Exception (e : excepcion) : bool :=
  match e with
  | KeyboardInterrupt | SystemExit => false
  | _ => true
  end.

Inductive resultado (A : Type) : Type :=
| Ret (a : A)
| Lanza (e : excepcion).
Arguments Ret {A} a.
Arguments Lanza {A} e.

(** Sequencing, written [x ← r; k]: an exception of [r] skips [k]. *)
#[global] Instance resultado_ret : MRet resultado := fun _ a => Ret a.
#[global] Instance resultado_bind : MBind resultado := fun _ _ k r =>
  match r with
  | Ret a => k a
  | Lanza e => Lanza e
  end.

(** [try: cuerpo / except (clases): manejador], the general form. *)
Definition try_except {A} (atrapa : excepcion -> bool) (cuerpo : resultado A)
    (manejador : excepcion -> resultado A) : resultado A :=
  match cuerpo with
  | Ret a => Ret a
  | Lanza e => if atrapa e then manejador e else Lanza e
  end.

(** [except Exception:]. *)
Definition try_except_Exception {A} := @try_except A es_Exception.

(** A bare [except:]: every exception is caught. *)
Definition try_except_todo {A} := @try_except A (fun _ => true).

(** ** Python values, and the [json] module on them *)

Module Py.

(** The values that [json] reads and writes.  A number is kept as the text
    of its literal: the program never computes with one. *)
Inductive valor : Type :=
| Nulo
| Booleano (b : bool)
| Numero (lit : string)
| Cadena (s : string)
| Lista (l : list valor)
| Dicc (m : list (string * valor)).

(** [d[k] = v] on a dict kept in insertion order. *)
Fixpoint dicc_poner (k : string) (v : valor) (m : list (string * valor))
    : list (string * valor) :=
  match m with
  | [] => [(k, v)]
  | (k', v') :: m' =>
    if String.eqb k k' then (k, v) :: m' else (k', v') :: dicc_poner k v m'
  end.

(** [dict(pairs)]. *)
Definition dicc_de_pares (ps : list (string * valor)) : list (string * valor) :=
  fold_left (fun m p => dicc_poner (fst p) (snd p) m) ps [].

Fixpoint dicc_buscar (k : string) (m : list (string * valor)) : option valor :=
  match m with
  | [] => None
  | (k', v) :: m' => if String.eqb k k' then Some v else dicc_buscar k m'
  end.

(** [k in x] for a string [k]. *)
Definition contiene (k : string) (x : valor) : resultado bool :=
  match x with
  | Dicc m => Ret (match dicc_buscar k m with Some _ => true | None => false end)
  | Lista l =>
    Ret (existsb (fun y => match y with Cadena s => String.eqb k s | _ => false end) l)
  | Cadena s => Ret (Str.contiene k s)
  | Nulo | Booleano _ | Numero _ => Lanza TypeError
  end.

(** [x[k]] for a string [k]. *)
Definition indice_str (x : valor) (k : string) : resultado valor :=
  match x with
  | Dicc m =>
    match dicc_buscar k m with
    | Some v => Ret v
    | None => Lanza KeyError
    end
  | _ => Lanza TypeError
  end.

(** [x[0]].  The keys of a dict read from JSON are strings, so [0] is
    never one of them. *)
Definition indice_0 (x : valor) : resultado valor :=
  match x with
  | Lista [] => Lanza IndexError
  | Lista (y :: _) => Ret y
  | Cadena s =>
    match Str.primer_caracter s with
    | Some c => Ret (Cadena c)
    | None => Lanza IndexError
    end
  | Dicc _ => Lanza KeyError
  | Nulo | Booleano _ | Numero _ => Lanza TypeError
  end.

(** [len(x) > 0]. *)
Definition no_vacio (x : valor) : resultado bool :=
  match x with
  | Lista l => Ret (match l with [] => false | _ :: _ => true end)
  | Dicc m => Ret (match m with [] => false | _ :: _ => true end)
  | Cadena s => Ret (negb (Str.vacia s))
  | Nulo | Booleano _ | Numero _ => Lanza TypeError
  end.

(** [x.strip()]: only a [str] has the method. *)
Definition metodo_strip (x : valor) : resultado string :=
  match x with
  | Cadena s => Ret (Str.strip s)
  | _ => Lanza AttributeError
  end.

End Py.

(** ** The [json] module: [json.dump(x, f, ensure_ascii=False, indent=2)]
    and [json.load(f)] *)

Module Json.
Import Py.

Definition car (n : nat) : ascii := ascii_of_nat n.
Definition comilla : ascii := car 34.
Definition barra : ascii := car 92.
Definition uno (c : ascii) : string := String c EmptyString.

(** *** Writing *)

Definition hex (n : N) : ascii :=
  if (n <? 10)%N then ascii_of_N (48 + n) else ascii_of_N (87 + n).

(** The replacement of one character inside a string literal: the quote,
    the backslash and the control characters are escaped, every other
    byte is written as it is ([ensure_ascii=False]). *)
Definition escapar_car (c : ascii) : string :=
  let n := Str.cod c in
  if (n =? 34)%N then String barra (uno comilla)
  else if (n =? 92)%N then String barra (uno barra)
  else if (n =? 10)%N then String barra "n"
  else if (n =? 13)%N then String barra "r"
  else if (n =? 9)%N then String barra "t"
  else if (n =? 12)%N then String barra "f"
  else if (n =? 8)%N then String barra "b"
  else if (n <? 32)%N
    then String barra (String "u" (String "0" (String "0"
           (String (hex (n / 16)) (uno (hex (n mod 16)))))))
  else uno c.

Fixpoint escapar (s : string) : string :=
  match s with
  | EmptyString => EmptyString
  | String c r => escapar_car c +:+ escapar r
  end.

Definition codificar_cadena (s : string) : string :=
  String comilla (escapar s +:+ uno comilla).

Fixpoint espacios (k : nat) : string :=
  match k with O => EmptyString | S k' => String " " (espacios k') end.

(** A line break and the indentation of [nivel]: two spaces a level. *)
Definition salto (nivel : nat) : string := String (car 10) (espacios (2 * nivel)).

(** The encoder at nesting depth [nivel]: items are separated by a comma
    and a line break, a key from its value by a colon and a space; an
    empty list or dict is written closed on the spot. *)
Fixpoint volcar (nivel : nat) (x : valor) : string :=
  match x with
  | Nulo => "null"
  | Booleano true => "true"
  | Booleano false => "false"
  | Numero lit => lit
  | Cadena s => codificar_cadena s
  | Lista [] => "[]"
  | Lista (y :: l) =>
    "[" +:+ salto (S nivel) +:+ volcar (S nivel) y +:+
    (fix resto (l : list valor) : string :=
       match l with
       | [] => salto nivel +:+ "]"
       | z :: l' => "," +:+ salto (S nivel) +:+ volcar (S nivel) z +:+ resto l'
       end) l
  | Dicc [] => "{}"
  | Dicc ((k, y) :: m) =>
    "{" +:+ salto (S nivel) +:+ codificar_cadena k +:+ ": " +:+ volcar (S nivel) y +:+
    (fix resto (m : list (string * valor)) : string :=
       match m with
       | [] => salto nivel +:+ "}"
       | (k', z) :: m' =>
         "," +:+ salto (S nivel) +:+ codificar_cadena k' +:+ ": " +:+
         volcar (S nivel) z +:+ resto m'
       end) m
  end.

(** [json.dumps(x, ensure_ascii=False, indent=2)]. *)
Definition dumps (x : valor) : string := volcar 0 x.

(** *** Reading *)

Definition es_blanco (c : ascii) : bool :=
  let n := Str.cod c in ((n =? 32) || (n =? 9) || (n =? 10) || (n =? 13))%N.

Fixpoint saltar_blancos (s : string) : string :=
  match s with
  | String c r => if es_blanco c then saltar_blancos r else s
  | EmptyString => s
  end.

Definition valor_hex (c : ascii) : option N :=
  let n := Str.cod c in
  if ((48 <=? n) && (n <=? 57))%N then Some (n - 48)%N
  else if ((97 <=? n) && (n <=? 102))%N then Some (n - 87)%N
  else if ((65 <=? n) && (n <=? 70))%N then Some (n - 55)%N
  else None.

Definition hex4 (a b c d : ascii) : option N :=
  match valor_hex a, valor_hex b, valor_hex c, valor_hex d with
  | Some x, Some y, Some z, Some w => Some (((x * 16 + y) * 16 + z) * 16 + w)%N
  | _, _, _, _ => None
  end.

(** The UTF-8 bytes of the code point [u]. *)
Definition utf8 (u : N) : string :=
  let b (n : N) := ascii_of_N n in
  if (u <? 128)%N then uno (b u)
  else if (u <? 2048)%N then
    String (b (192 + u / 64)%N) (uno (b (128 + u mod 64)%N))
  else if (u <? 65536)%N then
    String (b (224 + u / 4096)%N)
      (String (b (128 + (u / 64) mod 64)%N) (uno (b (128 + u mod 64)%N)))
  else
    String (b (240 + u / 262144)%N)
      (String (b (128 + (u / 4096) mod 64)%N)
         (String (b (128 + (u / 64) mod 64)%N) (uno (b (128 + u mod 64)%N)))).

Definition sustituto_alto (u : N) : bool := ((55296 <=? u) && (u <=? 56319))%N.
Definition sustituto_bajo (u : N) : bool := ((56320 <=? u) && (u <=? 57343))%N.
Definition par_sustituto (u u2 : N) : N :=
  (65536 + (u - 55296) * 1024 + (u2 - 56320))%N.

Definition anteponer (p : string) (o : option (string * string))
    : option (string * string) :=
  match o with
  | Some (t, r) => Some (p +:+ t, r)
  | None => None
  end.

(** The characters one backslash escape stands for. *)
Definition escape_simple (e : ascii) : option ascii :=
  let n := Str.cod e in
  if (n =? 34)%N then Some comilla
  else if (n =? 92)%N then Some barra
  else if (n =? 47)%N then Some "/"%char
  else if (n =? 98)%N then Some (car 8)
  else if (n =? 102)%N then Some (car 12)
  else if (n =? 110)%N then Some (car 10)
  else if (n =? 114)%N then Some (car 13)
  else if (n =? 116)%N then Some (car 9)
  else None.

(** The string literal whose opening quote has just been read: its
    content and the text after its closing quote.  A raw control
    character, an unknown escape or the end of the text is an error.  A
    [\u] escape of a high surrogate followed by one of a low surrogate is
    one character. *)
Fixpoint leer_cadena (s : string) : option (string * string) :=
  match s with
  | EmptyString => None
  | String c r =>
    if (Str.cod c =? 34)%N then Some (EmptyString, r)
    else if (Str.cod c =? 92)%N then
      match r with
      | EmptyString => None
      | String e r1 =>
        if (Str.cod e =? 117)%N then
          match r1 with
          | String h1 (String h2 (String h3 (String h4 r2))) =>
            match hex4 h1 h2 h3 h4 with
            | None => None
            | Some u =>
              if sustituto_alto u then
                match r2 with
                | String b1 (String b2 r3) =>
                  if ((Str.cod b1 =? 92) && (Str.cod b2 =? 117))%N then
                    match r3 with
                    | String g1 (String g2 (String g3 (String g4 r4))) =>
                      match hex4 g1 g2 g3 g4 with
                      | None => None
                      | Some u2 =>
                        if sustituto_bajo u2
                        then anteponer (utf8 (par_sustituto u u2)) (leer_cadena r4)
                        else anteponer (utf8 u) (leer_cadena r2)
                      end
                    | _ => None
                    end
                  else anteponer (utf8 u) (leer_cadena r2)
                | _ => anteponer (utf8 u) (leer_cadena r2)
                end
              else anteponer (utf8 u) (leer_cadena r2)
            end
          | _ => None
          end
        else
          match escape_simple e with
          | Some x => anteponer (uno x) (leer_cadena r1)
          | None => None
          end
      end
    else if (Str.cod c <? 32)%N then None
    else anteponer (uno c) (leer_cadena r)
  end.

Definition es_digito (c : ascii) : bool :=
  ((48 <=? Str.cod c) && (Str.cod c <=? 57))%N.

(** The longest run of digits at the head of [s], and what follows. *)
Fixpoint leer_digitos (s : string) : string * string :=
  match s with
  | String c r =>
    if es_digito c
    then let '(d, r') := leer_digitos r in (String c d, r')
    else (EmptyString, s)
  | EmptyString => (EmptyString, s)
  end.

(** The integer part: [0], or a non-zero digit and more digits. *)
Definition leer_entero (s : string) : option (string * string) :=
  match s with
  | String c r =>
    if (Str.cod c =? 48)%N then Some (uno c, r)
    else if es_digito c
    then let '(d, r') := leer_digitos r in Some (String c d, r')
    else None
  | EmptyString => None
  end.

(** [.digits], when at least one digit follows the point. *)
Definition leer_fraccion (s : string) : string * string :=
  match s with
  | String c r =>
    if (Str.cod c =? 46)%N then
      match leer_digitos r with
      | (String d ds, r') => (String c (String d ds), r')
      | (EmptyString, _) => (EmptyString, s)
      end
    else (EmptyString, s)
  | EmptyString => (EmptyString, s)
  end.

(** [e], an optional sign and digits, when at least one digit is there. *)
Definition leer_exponente (s : string) : string * string :=
  match s with
  | String c r =>
    if ((Str.cod c =? 101) || (Str.cod c =? 69))%N then
      let '(signo, r1) :=
        match r with
        | String g r' =>
          if ((Str.cod g =? 43) || (Str.cod g =? 45))%N then (uno g, r')
          else (EmptyString, r)
        | EmptyString => (EmptyString, r)
        end in
      match leer_digitos r1 with
      | (String d ds, r2) => (String c (signo +:+ String d ds), r2)
      | (EmptyString, _) => (EmptyString, s)
      end
    else (EmptyString, s)
  | EmptyString => (EmptyString, s)
  end.

(** A number literal at the head of [s]. *)
Definition leer_numero (s : string) : option (string * string) :=
  let '(menos, r0) :=
    match s with
    | String c r => if (Str.cod c =? 45)%N then (uno c, r) else (EmptyString, s)
    | EmptyString => (EmptyString, s)
    end in
  match leer_entero r0 with
  | None => None
  | Some (ent, r1) =>
    let '(fr, r2) := leer_fraccion r1 in
    let '(ex, r3) := leer_exponente r2 in
    Some (menos +:+ ent +:+ fr +:+ ex, r3)
  end.

Definition palabra (w : string) (x : valor) (s : string) : option (valor * string) :=
  if String.prefix w s then Some (x, Str.drop (String.length w) s) else None.

(** What is neither a string, an object nor an array: the three names, a
    number, or one of the constants Python also accepts. *)
Definition leer_atomo (s : string) : option (valor * string) :=
  match palabra "null" Nulo s with
  | Some a => Some a
  | None =>
  match palabra "true" (Booleano true) s with
  | Some a => Some a
  | None =>
  match palabra "false" (Booleano false) s with
  | Some a => Some a
  | None =>
  match leer_numero s with
  | Some (lit, r) => Some (Numero lit, r)
  | None =>
  match palabra "NaN" (Numero "NaN") s with
  | Some a => Some a
  | None =>
  match palabra "Infinity" (Numero "Infinity") s with
  | Some a => Some a
  | None => palabra "-Infinity" (Numero "-Infinity") s
  end end end end end end.

(** The members of an object, from just inside the quote of the first
    key to the closing brace.  [valor_] reads one value and [miembros]
    the members after a comma. *)
Definition cuerpo_miembros
    (valor_ : string -> option (valor * string))
    (miembros : string -> option (list (string * valor) * string))
    (s : string) : option (list (string * valor) * string) :=
  match leer_cadena s with
  | None => None
  | Some (clave, r) =>
    match saltar_blancos r with
    | String p r1 =>
      if (Str.cod p =? 58)%N then
        match valor_ (saltar_blancos r1) with
        | None => None
        | Some (x, r2) =>
          match saltar_blancos r2 with
          | String d r3 =>
            if (Str.cod d =? 125)%N then Some ([(clave, x)], r3)
            else if (Str.cod d =? 44)%N then
              match saltar_blancos r3 with
              | String q r4 =>
                if (Str.cod q =? 34)%N then
                  match miembros r4 with
                  | Some (ps, r5) => Some ((clave, x) :: ps, r5)
                  | None => None
                  end
                else None
              | EmptyString => None
              end
            else None
          | EmptyString => None
          end
        end
      else None
    | EmptyString => None
    end
  end.

(** The items of an array, from the first one to the closing bracket. *)
Definition cuerpo_elementos
    (valor_ : string -> option (valor * string))
    (elementos : string -> option (list valor * string))
    (s : string) : option (list valor * string) :=
  match valor_ s with
  | None => None
  | Some (x, r) =>
    match saltar_blancos r with
    | String d r' =>
      if (Str.cod d =? 93)%N then Some ([x], r')
      else if (Str.cod d =? 44)%N then
        match elementos (saltar_blancos r') with
        | Some (l, r'') => Some (x :: l, r'')
        | None => None
        end
      else None
    | EmptyString => None
    end
  end.

(** An object, after its opening brace. *)
Definition leer_objeto
    (miembros : string -> option (list (string * valor) * string))
    (r : string) : option (valor * string) :=
  match saltar_blancos r with
  | String d r' =>
    if (Str.cod d =? 125)%N then Some (Dicc [], r')
    else if (Str.cod d =? 34)%N then
      match miembros r' with
      | Some (ps, r'') => Some (Dicc (dicc_de_pares ps), r'')
      | None => None
      end
    else None
  | EmptyString => None
  end.

(** An array, after its opening bracket. *)
Definition leer_lista
    (elementos : string -> option (list valor * string))
    (r : string) : option (valor * string) :=
  match saltar_blancos r with
  | String d r' =>
    if (Str.cod d =? 93)%N then Some (Lista [], r')
    else
      match elementos (String d r') with
      | Some (l, r'') => Some (Lista l, r'')
      | None => None
      end
  | EmptyString => None
  end.

(** The value that starts at the head of the text. *)
Definition cuerpo_valor
    (elementos : string -> option (list valor * string))
    (miembros : string -> option (list (string * valor) * string))
    (s : string) : option (valor * string) :=
  match s with
  | EmptyString => None
  | String c r =>
    if (Str.cod c =? 34)%N then
      match leer_cadena r with
      | Some (t, r') => Some (Cadena t, r')
      | None => None
      end
    else if (Str.cod c =? 123)%N then leer_objeto miembros r
    else if (Str.cod c =? 91)%N then leer_lista elementos r
    else leer_atomo s
  end.

(** The scanner.  [comb] bounds the number of nested calls; the length of
    the text is always enough. *)
Fixpoint leer_valor (comb : nat) (s : string) : option (valor * string) :=
  match comb with
  | O => None
  | S k => cuerpo_valor (leer_elementos k) (leer_miembros k) s
  end
with leer_elementos (comb : nat) (s : string) : option (list valor * string) :=
  match comb with
  | O => None
  | S k => cuerpo_elementos (leer_valor k) (leer_elementos k) s
  end
with leer_miembros (comb : nat) (s : string)
    : option (list (string * valor) * string) :=
  match comb with
  | O => None
  | S k => cuerpo_miembros (leer_valor k) (leer_miembros k) s
  end.

(** [json.loads]: one value, with white space around it and nothing
    else.  [None] is [JSONDecodeError]. *)
Definition loads (s : string) : option valor :=
  match leer_valor (S (String.length s)) (saltar_blancos s) with
  | Some (x, r) =>
    match saltar_blancos r with
    | EmptyString => Some x
    | String _ _ => None
    end
  | None => None
  end.

End Json.

(** ** The clock: [datetime.datetime.now()] *)

Module Datetime.

Record t : Type := mk {
  year : nat; month : nat; day : nat;
  hour : nat; minute : nat; second : nat;
  microsecond : nat
}.

(** [d.isoformat()]: the microseconds are written when they are not 0. *)
Definition isoformat (d : t) : string :=
  Str.rellena 4 (year d) +:+ "-" +:+ Str.rellena 2 (month d) +:+ "-" +:+
  Str.rellena 2 (day d) +:+ "T" +:+
  Str.rellena 2 (hour d) +:+ ":" +:+ Str.rellena 2 (minute d) +:+ ":" +:+
  Str.rellena 2 (second d) +:+
  (if microsecond d =? 0 then EmptyString
   else "." +:+ Str.rellena 6 (microsecond d)).

(** [d.strftime("%Y%m%d_%H%M%S")]. *)
Definition strftime_Ymd_HMS (d : t) : string :=
  Str.rellena 4 (year d) +:+ Str.rellena 2 (month d) +:+ Str.rellena 2 (day d) +:+
  "_" +:+
  Str.rellena 2 (hour d) +:+ Str.rellena 2 (minute d) +:+ Str.rellena 2 (second d).

End Datetime.

(** [os.path.join(a, b)] (POSIX). *)
Definition path_join (a b : string) : string :=
  if String.prefix "/" b then b
  else if Str.vacia a || String.prefix "/" (String.rev a) then a +:+ b
  else a +:+ "/" +:+ b.

(** ** The conversation *)

(** One turn, the dict [{"rol": ..., "texto": ...}]. *)
Record mensaje : Type := Mensaje { rol : string; texto : string }.

Definition entrevistador (t : string) : mensaje := Mensaje "entrevistador" t.
Definition candidato (t : string) : mensaje := Mensaje "candidato" t.

(** The turn and the conversation as the Python values they are. *)
Definition py_de_mensaje (m : mensaje) : Py.valor :=
  Py.Dicc [("rol", Py.Cadena (rol m)); ("texto", Py.Cadena (texto m))].

Definition py_de_conversacion (c : list mensaje) : Py.valor :=
  Py.Lista (map py_de_mensaje c).

(** The file system: a file is there with its content, or it is not.
    Directories are not modelled: [os.makedirs(..., exist_ok=True)] has
    made them, and writing a file succeeds. *)
Abbreviation archivos := (gmap string string).

(** ** [modules/entrevista_logger.py] *)

Module EntrevistaLogger.

Record t : Type := mk { directorio : string; archivo_salida : string }.

(** [EntrevistaLogger(directorio)], with the reading of the clock. *)
Definition init (ahora : Datetime.t) (directorio : string) : t :=
  {| directorio := directorio;
     archivo_salida :=
       path_join directorio
         ("entrevista_" +:+ Datetime.strftime_Ymd_HMS ahora +:+ ".json") |}.

(** The dict that is written: the time of the call and the turns. *)
Definition datos (ahora : Datetime.t) (conversacion : list mensaje) : Py.valor :=
  Py.Dicc [("timestamp", Py.Cadena (Datetime.isoformat ahora));
           ("conversacion", py_de_conversacion conversacion)].

(** [self.guardar_conversacion(conversacion)]: the file is opened with
    mode ['w'], so what it held is replaced.  Returns the new file system
    and the path. *)
Definition guardar_conversacion (self : t) (ahora : Datetime.t)
    (conversacion : list mensaje) (fs : archivos) : archivos * string :=
  (<[archivo_salida self := Json.dumps (datos ahora conversacion)]> fs,
   archivo_salida self).

(** [datos.get("conversacion", [])]: only a dict has [get]. *)
Definition get_conversacion (datos : Py.valor) : resultado Py.valor :=
  match datos with
  | Py.Dicc m => Ret (default (Py.Lista []) (Py.dicc_buscar "conversacion" m))
  | _ => Lanza AttributeError
  end.

(** [self.cargar_conversacion(archivo)].  The file is opened as text:
    what [fs] holds for a path is read as that text.  A file that the
    logger has written is such a text; of another file the statements
    ask that its bytes be UTF-8, since the decoding error of a file that
    is not is none of the two that the [except] clause names. *)
Definition cargar_conversacion (self : t) (archivo : option string)
    (fs : archivos) : resultado Py.valor :=
  let archivo := default (archivo_salida self) archivo in
  try_except
    (fun e => match e with FileNotFoundError | JSONDecodeError => true | _ => false end)
    (contenido ← match fs !! archivo with
                 | Some c => Ret c
                 | None => Lanza FileNotFoundError
                 end;
     datos ← match Json.loads contenido with
             | Some d => Ret d
             | None => Lanza JSONDecodeError
             end;
     get_conversacion datos)
    (fun _ => Ret (Py.Lista [])).

End EntrevistaLogger.

(** ** [modules/llm_conversacion.py] *)

Module LlmConversacion.

(** One chat message of the request. *)
Record mensaje_api : Type := MensajeApi { role : string; content : string }.

(** What [requests.post(self.url, headers=self.headers, json=payload)]
    sends. *)
Record solicitud : Type := Solicitud {
  url : string;
  headers : list (string * string);
  model : string;
  messages : list mensaje_api;
  max_tokens : nat;
  temperature : string
}.

(** What comes back: the status, and the outcome of [response.json()]. *)
Record respuesta_http : Type := RespuestaHttp {
  status_code : nat;
  json : resultado Py.valor
}.

(** [response.raise_for_status()] and [response.ok]. *)
Definition raise_for_status (r : respuesta_http) : resultado unit :=
  if (400 <=? status_code r) && (status_code r <? 600) then Lanza HTTPError
  else Ret tt.

Definition ok (r : respuesta_http) : bool :=
  match raise_for_status r with Ret _ => true | Lanza _ => false end.

(** The outside world of the module: the environment variable read at
    import time, and the network. *)
Record entorno : Type := Entorno {
  OPENROUTER_API_KEY : option string;
  post : solicitud -> resultado respuesta_http
}.

Definition modelo_por_defecto : string := "meta-llama/llama-3.3-8b-instruct:free".

(** The table of short names, [modelo_mapping]. *)
Definition modelo_mapping (modelo : string) : string :=
  if String.eqb modelo "meta-llama" then modelo_por_defecto else modelo.

Record OpenRouterConversacion : Type := mk {
  api_key : string;
  modelo : string;
  self_url : string;
  self_headers : list (string * string)
}.

(** [OpenRouterConversacion(modelo)]. *)
Definition init (env : entorno) (modelo : string)
    : resultado OpenRouterConversacion :=
  match OPENROUTER_API_KEY env with
  | None | Some EmptyString => Lanza ValueError
  | Some clave =>
    Ret {| api_key := clave;
           modelo := modelo_mapping modelo;
           self_url := "https://openrouter.ai/api/v1/chat/completions";
           self_headers :=
             [("Content-Type", "application/json");
              ("Authorization", "Bearer " +:+ clave);
              ("HTTP-Referer", "https://entrevistador-app.com");
              ("X-Title", "Entrevistador-LLM")] |}
  end.

Definition instruccion_final : string :=
  "Genera la siguiente pregunta del entrevistador basada en la conversación anterior. Solo devuelve la pregunta sin explicaciones adicionales o prefijos.".

Definition rol_api (rol : string) : string :=
  if String.eqb rol "entrevistador" then "assistant" else "user".

(** The list [mensajes] of the method (lines 68 to 79). *)
Definition formatear_mensajes (conversacion : list mensaje) (prompt_base : string)
    : list mensaje_api :=
  [MensajeApi "system" prompt_base]
  ++ map (fun m => MensajeApi (rol_api (rol m)) (texto m)) conversacion
  ++ [MensajeApi "user" instruccion_final].

Definition payload (self : OpenRouterConversacion) (conversacion : list mensaje)
    (prompt_base : string) : solicitud :=
  {| url := self_url self;
     headers := self_headers self;
     model := modelo self;
     messages := formatear_mensajes conversacion prompt_base;
     max_tokens := 250;
     temperature := "0.7" |}.

(** The two questions the method falls back on, and the one of the
    module-level function. *)
Definition respaldo_estructura : string :=
  "¿Podrías contarme más sobre tus habilidades técnicas?".
Definition respaldo_excepcion : string :=
  "¿Cómo relacionarías tu experiencia previa con este puesto específicamente?".
Definition respaldo_funcion : string :=
  "Interesante. ¿Puedes contarme más sobre tu experiencia en ese aspecto?".

(** [isinstance(x, dict)], [isinstance(x, str)]. *)
Definition es_dict (x : Py.valor) : bool :=
  match x with Py.Dicc _ => true | _ => false end.
Definition es_str (x : Py.valor) : bool :=
  match x with Py.Cadena _ => true | _ => false end.

(** The body of the inner [try] (lines 96 to 101): the detail of an
    error reply. *)
Definition detalle_error (response : respuesta_http) : resultado Py.valor :=
  let por_defecto := Py.Cadena "Detalles no disponibles" in
  error_json ← json response;
  hay ← Py.contiene "error" error_json;
  if hay : bool then
    err ← Py.indice_str error_json "error";
    con_mensaje ← (if es_dict err then Py.contiene "message" err else Ret false);
    if con_mensaje : bool then
      err' ← Py.indice_str error_json "error";
      Py.indice_str err' "message"
    else if es_str err then Py.indice_str error_json "error"
    else Ret por_defecto
  else Ret por_defecto.

(** The clean-up of the model's answer (lines 114 to 116). *)
Definition limpiar (contenido : string) : string :=
  Str.strip (Str.replace "Entrevistador:" EmptyString (Str.strip contenido)).

(** Lines 112 to 124, on the decoded reply. *)
Definition extraer_pregunta (resultado_ : Py.valor) : resultado string :=
  hay_choices ← Py.contiene "choices" resultado_;
  con_choices ← (if hay_choices : bool
                 then choices ← Py.indice_str resultado_ "choices";
                      Py.no_vacio choices
                 else Ret false);
  if con_choices : bool then
    choices ← Py.indice_str resultado_ "choices";
    primero ← Py.indice_0 choices;
    hay_message ← Py.contiene "message" primero;
    con_content ← (if hay_message : bool
                   then message ← Py.indice_str primero "message";
                        Py.contiene "content" message
                   else Ret false);
    if con_content : bool then
      message ← Py.indice_str primero "message";
      contenido ← Py.indice_str message "content";
      sin_bordes ← Py.metodo_strip contenido;
      Ret (Str.strip (Str.replace "Entrevistador:" EmptyString sin_bordes))
    else Ret respaldo_estructura
  else Ret respaldo_estructura.

(** [self.generar_pregunta(conversacion, prompt_base)]. *)
Definition metodo_generar_pregunta (self : OpenRouterConversacion) (env : entorno)
    (conversacion : list mensaje) (prompt_base : string) : resultado string :=
  let solicitud := payload self conversacion prompt_base in
  try_except_Exception
    (response ← post env solicitud;
     _ ← (if negb (ok response) then
            _ ← try_except_todo (detalle_error response)
                  (fun _ => Ret (Py.Cadena "Detalles no disponibles"));
            raise_for_status response
          else Ret tt);
     resultado_ ← json response;
     extraer_pregunta resultado_)
    (fun _ => Ret respaldo_excepcion).

(** Lines 149 to 158: [nombre_modelo or "meta-llama/..."], then the table
    of short names. *)
Definition modelo_especifico (nombre_modelo : option string) : string :=
  modelo_mapping
    match nombre_modelo with
    | None | Some EmptyString => modelo_por_defecto
    | Some n => n
    end.

(** The module-level [generar_pregunta(conversacion, prompt_base,
    nombre_modelo)]. *)
Definition generar_pregunta (env : entorno) (conversacion : list mensaje)
    (prompt_base : string) (nombre_modelo : option string) : resultado string :=
  try_except_Exception
    (modelo ← init env (modelo_especifico nombre_modelo);
     metodo_generar_pregunta modelo env conversacion prompt_base)
    (fun _ => Ret respaldo_funcion).

End LlmConversacion.

(** ** [modules/whisper_stt.py] *)

Module WhisperStt.

(** The outcomes of the calls [grabar_y_transcribir] makes, in order:
    [os.makedirs], [grabar_audio], [write], [WhisperTranscriptor(...)],
    [transcribir_archivo], [os.remove]. *)
Record entorno : Type := Entorno {
  makedirs : resultado unit;
  grabar_audio : resultado unit;
  write : resultado unit;
  cargar_modelo : resultado unit;
  transcribir_archivo : resultado string;
  remove : resultado unit
}.

(** [grabar_y_transcribir()].  The removal of the temporary file sits in
    a [try] with a bare [except: pass]. *)
Definition grabar_y_transcribir (env : entorno) : resultado string :=
  _ ← makedirs env;
  _ ← grabar_audio env;
  _ ← write env;
  _ ← cargar_modelo env;
  texto ← transcribir_archivo env;
  _ ← try_except_todo (remove env) (fun _ => Ret tt);
  Ret texto.

End WhisperStt.

(** ** [main.py]: the session *)

Module Main.

(** What the session does that can be observed from outside, in order. *)
Inductive accion : Type :=
| Imprime (color texto : string)
| Habla (texto : string)
| Graba
| Guarda (archivo : string) (conversacion : list mensaje)
| Genera (conversacion : list mensaje).

(** What is fixed when the loop starts: the two arguments of
    [ejecutar_entrevista], the logger and the prompt read from disk. *)
Record sesion : Type := Sesion {
  usar_tts : bool;
  modelo_llm : string;
  logger : EntrevistaLogger.t;
  prompt_base : string
}.

(** What changes: the list [conversacion], the files, and the record of
    the actions so far.  The files are those that the program opens
    itself, the prompt and the records of the logger.  The audio files
    that the recorder and the synthesizer leave under [temp/] are part
    of what the actions [Graba] and [Habla] do outside, like the sound,
    and are not kept here: no statement below is about them. *)
Record estado : Type := Estado {
  conversacion : list mensaje;
  fs : archivos;
  traza : list accion
}.

(** The statement about to run, with the local variables that are still
    to be read: [respuesta] and [nueva_pregunta]. *)
Inductive punto : Type :=
| L82_input
| L85_print
| L86_grabar
| L88_if (respuesta : string)
| L89_print
| L93_print (respuesta : string)
| L96_append (respuesta : string)
| L102_guardar
| L105_generar
| L108_if (nueva_pregunta : string)
| L109_print (nueva_pregunta : string)
| L110_tts (nueva_pregunta : string)
| L112_append (nueva_pregunta : string)
| L116_guardar
| L117_print
| L118_break
| L121_print (nueva_pregunta : string)
| L123_tts (nueva_pregunta : string)
| L127_append (nueva_pregunta : string)
| L134_print
| L137_guardar
| L138_print
| Fin
| NoCapturada (e : excepcion).

(** What the outside world answers to the statement that runs. *)
Inductive evento : Type :=
| Sigue
| Enter
| FinDeEntrada
| Microfono (env : WhisperStt.entorno)
| Reloj (ahora : Datetime.t)
| Red (env : LlmConversacion.entorno)
| CtrlC
| CtrlC_al_escribir (ahora : Datetime.t) (escritos : nat).

(** The statements of the [try] block (lines 80 to 130). *)
Definition en_try (p : punto) : bool :=
  match p with
  | L134_print | L137_guardar | L138_print | Fin | NoCapturada _ => false
  | _ => true
  end.

(** The statements of the handler (lines 134 to 138). *)
Definition en_except (p : punto) : bool :=
  match p with
  | L134_print | L137_guardar | L138_print => true
  | _ => false
  end.

Definition nl : string := String (Json.car 10) EmptyString.

Definition pregunta_inicial : string :=
  "Hola, bienvenido a esta entrevista. ¿Podrías presentarte brevemente y contarme sobre tu experiencia profesional?".

(** The test of line 108. *)
Definition debe_terminar (nueva_pregunta : string) : bool :=
  Str.contiene "gracias por tu tiempo" (Str.lower nueva_pregunta)
  || Str.contiene "finalizar" (Str.lower nueva_pregunta).

Definition anota (a : accion) (st : estado) : estado :=
  {| conversacion := conversacion st; fs := fs st; traza := traza st ++ [a] |}.

Definition append (m : mensaje) (st : estado) : estado :=
  {| conversacion := conversacion st ++ [m]; fs := fs st; traza := traza st |}.

(** [logger.guardar_conversacion(conversacion)]. *)
Definition guardar (ses : sesion) (ahora : Datetime.t) (st : estado) : estado :=
  {| conversacion := conversacion st;
     fs := (EntrevistaLogger.guardar_conversacion (logger ses) ahora
              (conversacion st) (fs st)).1;
     traza := traza st
              ++ [Guarda (EntrevistaLogger.archivo_salida (logger ses))
                    (conversacion st)] |}.

(** The same call cut short by an interrupt: the file has been truncated
    and holds the first [escritos] bytes of the new content. *)
Definition guardar_cortado (ses : sesion) (ahora : Datetime.t) (escritos : nat)
    (st : estado) : estado :=
  {| conversacion := conversacion st;
     fs := <[EntrevistaLogger.archivo_salida (logger ses) :=
               String.substring 0 escritos
                 (Json.dumps (EntrevistaLogger.datos ahora (conversacion st)))]>
             (fs st);
     traza := traza st |}.

(** [texto_a_voz(texto)] under [if usar_tts:].  The function catches
    every [Exception] itself and returns [None].  The audio file that it
    leaves, [temp/audio_salida.wav], goes with the action [Habla]. *)
Definition texto_a_voz (ses : sesion) (texto : string) (st : estado) : estado :=
  if usar_tts ses then anota (Habla texto) st else st.

(** An exception that leaves a statement of the [try] block:
    [KeyboardInterrupt] enters the handler, any other ends the program. *)
Definition lanzada (e : excepcion) : punto :=
  match e with
  | KeyboardInterrupt => L134_print
  | _ => NoCapturada e
  end.

(** One statement of the loop or of the handler. *)
Definition paso (ses : sesion) (p : punto) (st : estado) (ev : evento)
    : option (punto * estado) :=
  match ev with
  | CtrlC =>
    if en_try p then Some (L134_print, st)
    else if en_except p then Some (NoCapturada KeyboardInterrupt, st)
    else None
  | CtrlC_al_escribir ahora n =>
    match p with
    | L102_guardar | L116_guardar => Some (L134_print, guardar_cortado ses ahora n st)
    | L137_guardar =>
      Some (NoCapturada KeyboardInterrupt, guardar_cortado ses ahora n st)
    | _ => None
    end
  | _ =>
    match p, ev with
    | L82_input, Enter =>
      Some (L85_print,
            anota (Imprime "yellow" (nl +:+ "[Presiona ENTER para responder...]")) st)
    | L82_input, FinDeEntrada =>
      Some (NoCapturada EOFError,
            anota (Imprime "yellow" (nl +:+ "[Presiona ENTER para responder...]")) st)
    | L85_print, Sigue =>
      Some (L86_grabar, anota (Imprime "yellow" (nl +:+ "[Grabando tu respuesta...]")) st)
    | L86_grabar, Microfono env =>
      match WhisperStt.grabar_y_transcribir env with
      | Ret respuesta => Some (L88_if respuesta, anota Graba st)
      | Lanza e => Some (lanzada e, anota Graba st)
      end
    | L88_if respuesta, Sigue =>
      if Str.vacia (Str.strip respuesta) then Some (L89_print, st)
      else Some (L93_print respuesta, st)
    | L89_print, Sigue =>
      Some (L82_input,
            anota (Imprime "red"
                     (nl +:+ "[No se detectó ninguna respuesta. Intenta de nuevo.]")) st)
    | L93_print respuesta, Sigue =>
      Some (L96_append respuesta,
            anota (Imprime "blue" (nl +:+ "[Tú]: " +:+ respuesta)) st)
    | L96_append respuesta, Sigue =>
      Some (L102_guardar, append (candidato respuesta) st)
    | L102_guardar, Reloj ahora => Some (L105_generar, guardar ses ahora st)
    | L105_generar, Red env =>
      match LlmConversacion.generar_pregunta env (conversacion st)
              (prompt_base ses) (Some (modelo_llm ses)) with
      | Ret nueva_pregunta =>
        Some (L108_if nueva_pregunta, anota (Genera (conversacion st)) st)
      | Lanza e => Some (lanzada e, anota (Genera (conversacion st)) st)
      end
    | L108_if nueva_pregunta, Sigue =>
      if debe_terminar nueva_pregunta then Some (L109_print nueva_pregunta, st)
      else Some (L121_print nueva_pregunta, st)
    | L109_print nueva_pregunta, Sigue =>
      Some (L110_tts nueva_pregunta,
            anota (Imprime "green" (nl +:+ "[Entrevistador]: " +:+ nueva_pregunta)) st)
    | L110_tts nueva_pregunta, Sigue =>
      Some (L112_append nueva_pregunta, texto_a_voz ses nueva_pregunta st)
    | L112_append nueva_pregunta, Sigue =>
      Some (L116_guardar, append (entrevistador nueva_pregunta) st)
    | L116_guardar, Reloj ahora => Some (L117_print, guardar ses ahora st)
    | L117_print, Sigue =>
      Some (L118_break,
            anota (Imprime "yellow" (nl +:+ "[INFO] La entrevista ha finalizado.")) st)
    | L118_break, Sigue => Some (Fin, st)
    | L121_print nueva_pregunta, Sigue =>
      Some (L123_tts nueva_pregunta,
            anota (Imprime "green" (nl +:+ "[Entrevistador]: " +:+ nueva_pregunta)) st)
    | L123_tts nueva_pregunta, Sigue =>
      Some (L127_append nueva_pregunta, texto_a_voz ses nueva_pregunta st)
    | L127_append nueva_pregunta, Sigue =>
      Some (L82_input, append (entrevistador nueva_pregunta) st)
    | L134_print, Sigue =>
      Some (L137_guardar,
            anota (Imprime "yellow"
                     (nl +:+ nl +:+ "[INFO] Entrevista finalizada por el usuario.")) st)
    | L137_guardar, Reloj ahora => Some (L138_print, guardar ses ahora st)
    | L138_print, Sigue =>
      Some (Fin,
            anota (Imprime "yellow"
                     (nl +:+ "[INFO] Transcripción guardada en: "
                      +:+ EntrevistaLogger.archivo_salida (logger ses))) st)
    | _, _ => None
    end
  end.

(** The statements run one after the other, each with the answer of the
    outside world it needs; [None] when an answer does not fit the
    statement, or comes after the end. *)
Fixpoint ejecutar (ses : sesion) (p : punto) (st : estado) (evs : list evento)
    : option (punto * estado) :=
  match evs with
  | [] => Some (p, st)
  | ev :: evs' =>
    match paso ses p st ev with
    | Some (p', st') => ejecutar ses p' st' evs'
    | None => None
    end
  end.

(** Lines 51 to 77 of [ejecutar_entrevista(usar_tts, modelo_llm)]: the
    logger is made, the prompt is read, the opening question is shown and
    appended.  The session then stands at the top of the loop. *)
Definition iniciar (usar_tts : bool) (modelo_llm : string) (ahora : Datetime.t)
    (fs : archivos) : resultado (sesion * estado) :=
  let logger := EntrevistaLogger.init ahora "transcripts" in
  prompt_base ← match fs !! "data/prompt_base.txt" with
                | Some c => Ret c
                | None => Lanza FileNotFoundError
                end;
  let ses := Sesion usar_tts modelo_llm logger prompt_base in
  let st := Estado [] fs [] in
  let st := anota (Imprime "green" (nl +:+ "[Entrevistador]: " +:+ pregunta_inicial)) st in
  let st := texto_a_voz ses pregunta_inicial st in
  let st := append (entrevistador pregunta_inicial) st in
  Ret (ses, st).

(** [ejecutar_entrevista(usar_tts, modelo_llm)]: the session from its
    first statement.  An exception of the first lines is not caught. *)
Definition ejecutar_entrevista (usar_tts : bool) (modelo_llm : string)
    (ahora : Datetime.t) (fs : archivos) (evs : list evento)
    : resultado (option (punto * estado)) :=
  '(ses, st) ← iniciar usar_tts modelo_llm ahora fs;
  Ret (ejecutar ses L82_input st evs).

End Main.

(** ** Notions used in the statements *)

(** What [Json.volcar] writes after the first item of a list: the other
    items and the closing bracket. *)
Fixpoint cola_lista (nivel : nat) (l : list Py.valor) : string :=
  match l with
  | [] => Json.salto nivel +:+ "]"
  | z :: l' =>
    "," +:+ Json.salto (S nivel) +:+ Json.volcar (S nivel) z +:+ cola_lista nivel l'
  end.

(** The text of the model's answer in a reply of the expected shape,
    [{"choices": [{"message": {"content": <str>}}, ...]}]. *)
Definition contenido_de (x : Py.valor) : option string :=
  match x with
  | Py.Dicc m =>
    match Py.dicc_buscar "choices" m with
    | Some (Py.Lista (Py.Dicc m1 :: _)) =>
      match Py.dicc_buscar "message" m1 with
      | Some (Py.Dicc m2) =>
        match Py.dicc_buscar "content" m2 with
        | Some (Py.Cadena s) => Some s
        | _ => None
        end
      | _ => None
      end
    | _ => None
    end
  | _ => None
  end.

(** A failure below the reply: the request raises, or the status is an
    error status. *)
Inductive fallo_transporte (env : LlmConversacion.entorno)
    (sol : LlmConversacion.solicitud) : Prop :=
| Fallo_post (e : excepcion) :
    LlmConversacion.post env sol = Lanza e -> es_Exception e = true ->
    fallo_transporte env sol
| Fallo_estado (r : LlmConversacion.respuesta_http) :
    LlmConversacion.post env sol = Ret r -> LlmConversacion.ok r = false ->
    fallo_transporte env sol.

(** A failure of the reply itself: its body is not JSON, or the JSON has
    not the expected shape. *)
Inductive fallo_estructura (env : LlmConversacion.entorno)
    (sol : LlmConversacion.solicitud) : Prop :=
| Fallo_cuerpo (r : LlmConversacion.respuesta_http) (e : excepcion) :
    LlmConversacion.post env sol = Ret r -> LlmConversacion.ok r = true ->
    LlmConversacion.json r = Lanza e -> es_Exception e = true ->
    fallo_estructura env sol
| Fallo_forma (r : LlmConversacion.respuesta_http) (x : Py.valor) :
    LlmConversacion.post env sol = Ret r -> LlmConversacion.ok r = true ->
    LlmConversacion.json r = Ret x -> contenido_de x = None ->
    fallo_estructura env sol.


(** The outside world raises no [KeyboardInterrupt] and no [SystemExit]
    into the calls of the generator. *)
Definition sin_interrupciones (env : LlmConversacion.entorno) : Prop :=
  (forall sol e, LlmConversacion.post env sol = Lanza e -> es_Exception e = true)
  /\ (forall sol r e, LlmConversacion.post env sol = Ret r ->
       LlmConversacion.json r = Lanza e -> es_Exception e = true).

(** The UTF-8 encoding of one white-space character. *)
Definition es_espacio (t : string) : bool :=
  match t with
  | String c1 EmptyString => Str.esp1 c1
  | String c1 (String c2 EmptyString) => Str.esp2 c1 c2
  | String c1 (String c2 (String c3 EmptyString)) => Str.esp3 c1 c2 c3
  | _ => false
  end.

Definition juntar (ts : list string) : string :=
  fold_right String.append EmptyString ts.

(** A text that is empty or made of white space only. *)
Definition solo_espacios (r : string) : Prop :=
  exists ts, Forall (fun t => es_espacio t = true) ts /\ r = juntar ts.



(** The roles of the turns are interviewer, candidate, interviewer, ... *)
Fixpoint alterna_desde (toca_entrevistador : bool) (c : list mensaje) : bool :=
  match c with
  | [] => true
  | m :: c' =>
    String.eqb (rol m) (if toca_entrevistador then "entrevistador" else "candidato")
    && alterna_desde (negb toca_entrevistador) c'
  end.

Definition alterna (c : list mensaje) : bool := alterna_desde true c.

Definition comienza_con_entrevistador (c : list mensaje) : Prop :=
  exists t c', c = entrevistador t :: c'.

(** The roles alternate, but for two interviewer turns in a row at the
    very end of a session that is over. *)
Definition alterna_salvo_final (terminada : bool) (c : list mensaje) : Prop :=
  alterna c = true
  \/ (terminada = true
      /\ exists c0 q1 q2,
           c = c0 ++ [entrevistador q1; entrevistador q2]
           /\ alterna (c0 ++ [entrevistador q1]) = true).

Definition terminada (p : Main.punto) : bool :=
  match p with Main.Fin => true | _ => false end.


Definition es_guarda (a : Main.accion) : bool :=
  match a with Main.Guarda _ _ => true | _ => false end.


(** A microphone that works and hears [r]. *)
Definition oye (r : string) : WhisperStt.entorno :=
  WhisperStt.Entorno (Ret tt) (Ret tt) (Ret tt) (Ret tt) (Ret r) (Ret tt).

(** The answers of the outside world during one turn of the loop in
    which the candidate is heard: ENTER, the recording, and the
    statements in between. *)
Definition vuelta_en_blanco (env : WhisperStt.entorno) : list Main.evento :=
  [Main.Enter; Main.Sigue; Main.Microfono env; Main.Sigue; Main.Sigue].


(** Whose turn is the last of the conversation when the statement [p] is
    about to run: the interviewer's ([Some true]), the candidate's
    ([Some false]), or either one (in the handler and after the end). *)
Definition ultimo_turno (p : Main.punto) : option bool :=
  match p with
  | Main.L82_input | Main.L85_print | Main.L86_grabar | Main.L88_if _
  | Main.L89_print | Main.L93_print _ | Main.L96_append _
  | Main.L116_guardar | Main.L117_print | Main.L118_break => Some true
  | Main.L102_guardar | Main.L105_generar | Main.L108_if _
  | Main.L109_print _ | Main.L110_tts _ | Main.L112_append _
  | Main.L121_print _ | Main.L123_tts _ | Main.L127_append _ => Some false
  | _ => None
  end.

Definition invariante (p : Main.punto) (c : list mensaje) : Prop :=
  alterna c = true
  /\ comienza_con_entrevistador c
  /\ match ultimo_turno p with
     | Some b => Nat.odd (length c) = b
     | None => True
     end.

(** A network that checks what it is sent: it answers [r] to a request
    whose list of messages is [ms], and refuses the connection to any
    other request. *)
#[global] Instance mensaje_api_eq_dec : EqDecision LlmConversacion.mensaje_api.
Proof. solve_decision. Defined.

Definition red_que_exige (ms : list LlmConversacion.mensaje_api)
    (r : LlmConversacion.respuesta_http) (sol : LlmConversacion.solicitud)
    : resultado LlmConversacion.respuesta_http :=
  if decide (LlmConversacion.messages sol = ms) then Ret r
  else Lanza ConnectionError.

(** The list of messages that the specification describes for a
    conversation and a system instruction. *)
Definition mensajes_esperados (c : list mensaje) (prompt : string)
    : list LlmConversacion.mensaje_api :=
  LlmConversacion.MensajeApi "system" prompt
  :: map (fun m =>
            LlmConversacion.MensajeApi
              (if String.eqb (rol m) "entrevistador" then "assistant" else "user")
              (texto m)) c
  ++ [LlmConversacion.MensajeApi "user"
        "Genera la siguiente pregunta del entrevistador basada en la conversación anterior. Solo devuelve la pregunta sin explicaciones adicionales o prefijos."].

(** ** The rest of the modules *)

From stdpp Require Import sorting.

(** *** More of Python's [str] and of its objects *)

Module StrMas.

(** One more byte at the end of the word in progress. *)
Definition alargar (pal : option string) (c : ascii) : option string :=
  match pal with
  | Some w => Some (w +:+ String c EmptyString)
  | None => Some (String c EmptyString)
  end.

(** The word in progress, when there is one, is over. *)
Definition cerrar (pal : option string) (resto : list string) : list string :=
  match pal with
  | Some w => w :: resto
  | None => resto
  end.

(** [s.split()]: the words between runs of white space, in the sense of
    [Str.esp1], [Str.esp2] and [Str.esp3]. *)
Fixpoint split_go (pal : option string) (s : string) : list string :=
  match s with
  | EmptyString => cerrar pal []
  | String c1 r1 =>
    if Str.esp1 c1 then cerrar pal (split_go None r1) else
    match r1 with
    | EmptyString => split_go (alargar pal c1) r1
    | String c2 r2 =>
      if Str.esp2 c1 c2 then cerrar pal (split_go None r2) else
      match r2 with
      | EmptyString => split_go (alargar pal c1) r1
      | String c3 r3 =>
        if Str.esp3 c1 c2 c3 then cerrar pal (split_go None r3)
        else split_go (alargar pal c1) r1
      end
    end
  end.

Definition split (s : string) : list string := split_go None s.

(** [sep.join(l)]. *)
Fixpoint join (sep : string) (l : list string) : string :=
  match l with
  | [] => EmptyString
  | [x] => x
  | x :: l' => x +:+ sep +:+ join sep l'
  end.

(** [s.startswith(p)] and [s.endswith(p)]. *)
Definition startswith (s p : string) : bool := String.prefix p s.
Definition endswith (s p : string) : bool :=
  String.prefix (String.rev p) (String.rev s).

(** A number literal that stands for zero: a sign, zeros and a point
    before the exponent, and nothing else. *)
Fixpoint mantisa_cero (lit : string) : bool :=
  match lit with
  | EmptyString => true
  | String c r =>
    let n := Str.cod c in
    if ((n =? 101) || (n =? 69))%N then true
    else ((n =? 48) || (n =? 45) || (n =? 46))%N && mantisa_cero r
  end.

(** The truth value of an object, [bool(x)]. *)
Definition verdadero (x : Py.valor) : bool :=
  match x with
  | Py.Nulo => false
  | Py.Booleano b => b
  | Py.Numero lit => negb (mantisa_cero lit)
  | Py.Cadena s => negb (Str.vacia s)
  | Py.Lista l => match l with [] => false | _ :: _ => true end
  | Py.Dicc m => match m with [] => false | _ :: _ => true end
  end.

(** [x == s] for a string [s]. *)
Definition igual_str (x : Py.valor) (s : string) : bool :=
  match x with
  | Py.Cadena t => String.eqb t s
  | _ => false
  end.

(** [int(s)] for a string of decimal digits, from the value [acc] of the
    digits read so far. *)
Fixpoint entero_go (acc : nat) (s : string) : nat :=
  match s with
  | EmptyString => acc
  | String c r => entero_go (acc * 10 + (nat_of_ascii c - 48)) r
  end.

End StrMas.

(** *** [listar_entrevistas] and [generar_resumen] of
    [modules/entrevista_logger.py] *)

Module Resumen.

(** [self.listar_entrevistas()], with the outcome of
    [os.listdir(self.directorio)]. *)
Definition listar_entrevistas (self : EntrevistaLogger.t)
    (listdir : resultado (list string)) : resultado (list string) :=
  try_except_Exception
    (entradas ← listdir;
     Ret (merge_sort String.le
            (filter (fun f => Is_true (StrMas.startswith f "entrevista_"
                                       && StrMas.endswith f ".json"))
               entradas)))
    (fun _ => Ret []).

(** [sum(1 for m in conversacion if m["rol"] == rol)]. *)
Fixpoint contar_rol (rol : string) (l : list Py.valor) : resultado nat :=
  match l with
  | [] => Ret 0
  | m :: l' =>
    r ← Py.indice_str m "rol";
    n ← contar_rol rol l';
    Ret (if StrMas.igual_str r rol then S n else n)
  end.

(** The items of [(m["texto"] for m in conversacion if m["rol"] == rol)],
    in order. *)
Fixpoint textos_rol (rol : string) (l : list Py.valor) : resultado (list Py.valor) :=
  match l with
  | [] => Ret []
  | m :: l' =>
    r ← Py.indice_str m "rol";
    if StrMas.igual_str r rol then
      t ← Py.indice_str m "texto";
      ts ← textos_rol rol l';
      Ret (t :: ts)
    else textos_rol rol l'
  end.

(** [" ".join(items)]: every item has to be a [str]. *)
Fixpoint cadenas (items : list Py.valor) : resultado (list string) :=
  match items with
  | [] => Ret []
  | Py.Cadena s :: items' => ss ← cadenas items'; Ret (s :: ss)
  | _ :: _ => Lanza TypeError
  end.

Definition texto_rol (rol : string) (l : list Py.valor) : resultado string :=
  items ← textos_rol rol l;
  ss ← cadenas items;
  Ret (StrMas.join " " ss).

(** The dict that [generar_resumen] returns.  The estimated duration is
    the float [len(conversacion) * 0.5]: its double, the number of half
    minutes, is kept. *)
Record resumen : Type := mk {
  turnos_totales : nat;
  turnos_entrevistador : nat;
  turnos_candidato : nat;
  palabras_entrevistador : nat;
  palabras_candidato : nat;
  duracion_estimada_medios_minutos : nat;
  primera_pregunta : Py.valor;
  ultima_interaccion : Py.valor
}.

Inductive respuesta : Type :=
| Error (error : string)
| Resumen (r : resumen).

(** Lines 107 to 130, on a list. *)
Definition resumir (l : list Py.valor) : resultado respuesta :=
  te ← contar_rol "entrevistador" l;
  tc ← contar_rol "candidato" l;
  texto_e ← texto_rol "entrevistador" l;
  texto_c ← texto_rol "candidato" l;
  primera ← (m ← Py.indice_0 (Py.Lista l); Py.indice_str m "texto");
  ultima ← (match last l with
            | Some m => Py.indice_str m "texto"
            | None => Lanza IndexError
            end);
  Ret (Resumen {| turnos_totales := length l;
                  turnos_entrevistador := te;
                  turnos_candidato := tc;
                  palabras_entrevistador := length (StrMas.split texto_e);
                  palabras_candidato := length (StrMas.split texto_c);
                  duracion_estimada_medios_minutos := length l;
                  primera_pregunta := primera;
                  ultima_interaccion := ultima |}).

(** [self.generar_resumen(archivo)].  What is loaded may be any JSON
    value: the items of a dict are its keys and those of a string its
    characters, strings on which [m["rol"]] raises [TypeError]; a number
    or [True] cannot be iterated at all. *)
Definition generar_resumen (self : EntrevistaLogger.t) (archivo : option string)
    (fs : archivos) : resultado respuesta :=
  conversacion ← EntrevistaLogger.cargar_conversacion self archivo fs;
  if negb (StrMas.verdadero conversacion)
  then Ret (Error "No se encontró conversación para resumir")
  else
    match conversacion with
    | Py.Lista l => resumir l
    | _ => Lanza TypeError
    end.

End Resumen.

(** *** [grabar_audio] of [modules/whisper_stt.py] *)

Module Audio.
Section GrabarAudio.

(** A sample, and the test [abs(x) < umbral_silencio] on it. *)
Context {muestra : Type}.
Variable silenciosa : muestra -> bool.

(** [l[:j]], for an index that may be negative. *)
Definition hasta (j : Z) (l : list muestra) : list muestra :=
  if (j <? 0)%Z then take (Z.to_nat (Z.of_nat (length l) + j)) l
  else take (Z.to_nat j) l.

(** The loop of lines 65 to 75, from the index [i] on, with [faltan]
    indices to go and the counter of silent samples. *)
Fixpoint bucle (muestras_silencio : nat) (grabacion : list muestra)
    (i contador faltan : nat) : list muestra :=
  match faltan with
  | O => grabacion
  | S faltan' =>
    let contador :=
      match grabacion !! i with
      | Some x => if silenciosa x then S contador else 0
      | None => 0
      end in
    if muestras_silencio <=? contador
    then hasta (Z.of_nat i - Z.of_nat muestras_silencio) grabacion
    else bucle muestras_silencio grabacion (S i) contador faltan'
  end.

(** [grabar_audio(duracion_max, fs)], on the samples that [sd.rec] has
    recorded. *)
Definition grabar_audio (duracion_max fs : nat) (grabacion : list muestra)
    : list muestra :=
  bucle (2 * fs) grabacion 0 0 (duracion_max * fs).

End GrabarAudio.
End Audio.

(** *** [texto_a_voz] of [modules/coqui_tts.py] *)

Module CoquiTts.

(** The outcomes of the calls [texto_a_voz] makes, in order:
    [os.makedirs], [CoquiSintetizador()], [sintetizador.sintetizar],
    and for the playback [sf.read], [sd.play], [sd.wait]. *)
Record entorno : Type := Entorno {
  makedirs : resultado unit;
  crear_sintetizador : resultado unit;
  sintetizar : resultado unit;
  sf_read : resultado unit;
  sd_play : resultado unit;
  sd_wait : resultado unit
}.

(** [texto_a_voz(texto, reproducir)]: the path of the audio file, or
    [None]. *)
Definition texto_a_voz (env : entorno) (texto : string) (reproducir : bool)
    : resultado (option string) :=
  try_except_Exception
    (_ ← makedirs env;
     let archivo_salida := path_join "temp" "audio_salida.wav" in
     _ ← crear_sintetizador env;
     _ ← sintetizar env;
     _ ← (if reproducir
          then try_except_Exception
                 (_ ← sf_read env; _ ← sd_play env; sd_wait env)
                 (fun _ => Ret tt)
          else Ret tt);
     Ret (Some archivo_salida))
    (fun _ => Ret None).

End CoquiTts.

(** *** Notions for the statements about the rest *)

(** The statements before which the file of the session holds the record
    of the whole conversation. *)
Definition todo_guardado (p : Main.punto) : bool :=
  match p with
  | Main.L105_generar | Main.L108_if _ | Main.L109_print _ | Main.L110_tts _
  | Main.L112_append _ | Main.L121_print _ | Main.L123_tts _
  | Main.L127_append _ | Main.L117_print | Main.L118_break
  | Main.L138_print | Main.Fin => true
  | _ => false
  end.

Definition es_habla (a : Main.accion) : bool :=
  match a with Main.Habla _ => true | _ => false end.

(** The sample at [j] resets the counter of the loop: it is not silent,
    or there is no sample there. *)
Definition activa {muestra : Type} (silenciosa : muestra -> bool)
    (grabacion : list muestra) (j : nat) : bool :=
  match grabacion !! j with
  | Some x => negb (silenciosa x)
  | None => true
  end.

(** The file of the session holds the record of the whole conversation,
    written at some time. *)
Definition guardada (ses : Main.sesion) (st : Main.estado) : Prop :=
  exists t,
    Main.fs st !! EntrevistaLogger.archivo_salida (Main.logger ses)
    = Some (Json.dumps (EntrevistaLogger.datos t (Main.conversacion st))).

(** A call returns; a call raises nothing but an [Exception]. *)
Definition devuelve {A : Type} (r : resultado A) : bool :=
  match r with Ret _ => true | Lanza _ => false end.

Definition sin_escape {A : Type} (r : resultado A) : bool :=
  match r with Ret _ => true | Lanza e => es_Exception e end.

(** A date and time of day for which [strftime] writes four digits of
    year and two of every other field. *)
Definition fecha_valida (d : Datetime.t) : Prop :=
  1000 <= Datetime.year d < 10 ^ 4
  /\ 1 <= Datetime.month d <= 12
  /\ 1 <= Datetime.day d <= 31
  /\ Datetime.hour d < 24
  /\ Datetime.minute d < 60
  /\ Datetime.second d < 60.

(** *** Files that were not written by the logger *)

(** The bytes that the codec [utf-8] decodes, as [open(archivo, 'r',
    encoding='utf-8')] asks of what it reads: no byte out of place, no
    overlong form, no surrogate, nothing above U+10FFFF. *)
Module Utf8.

Definition entre (a b : N) (c : ascii) : bool :=
  ((a <=? Str.cod c) && (Str.cod c <=? b))%N.

Definition continuacion (c : ascii) : bool := entre 128 191 c.

(** The second byte of a sequence of three and of one of four, after
    the first byte [n]. *)
Definition segundo_de_tres (n : N) (c : ascii) : bool :=
  if (n =? 224)%N then entre 160 191 c
  else if (n =? 237)%N then entre 128 159 c
  else continuacion c.

Definition segundo_de_cuatro (n : N) (c : ascii) : bool :=
  if (n =? 240)%N then entre 144 191 c
  else if (n =? 244)%N then entre 128 143 c
  else continuacion c.

Fixpoint valido (s : string) : bool :=
  match s with
  | EmptyString => true
  | String b0 r =>
    let n := Str.cod b0 in
    if (n <? 128)%N then valido r
    else if ((194 <=? n) && (n <=? 223))%N then
      match r with
      | String b1 r1 => continuacion b1 && valido r1
      | _ => false
      end
    else if ((224 <=? n) && (n <=? 239))%N then
      match r with
      | String b1 (String b2 r2) =>
        segundo_de_tres n b1 && continuacion b2 && valido r2
      | _ => false
      end
    else if ((240 <=? n) && (n <=? 244))%N then
      match r with
      | String b1 (String b2 (String b3 r3)) =>
        segundo_de_cuatro n b1 && continuacion b2 && continuacion b3 && valido r3
      | _ => false
      end
    else false
  end.

End Utf8.

(** The opening brackets and braces of a text: no value in it is nested
    deeper. *)
Fixpoint aperturas (s : string) : nat :=
  match s with
  | EmptyString => 0
  | String c r =>
    if ((Str.cod c =? 91) || (Str.cod c =? 123))%N then S (aperturas r)
    else aperturas r
  end.

(** The longest run of decimal digits of a text, after a run of
    [racha] digits: no integer literal in it has more digits. *)
Fixpoint racha_de_digitos (racha : nat) (s : string) : nat :=
  match s with
  | EmptyString => racha
  | String c r =>
    if Json.es_digito c then racha_de_digitos (S racha) r
    else Nat.max racha (racha_de_digitos 0 r)
  end.

(** A file that [open(..., encoding='utf-8')] and [json.load] go through
    with no other error than [JSONDecodeError]: its bytes are UTF-8, so
    that no [UnicodeDecodeError] is raised; it opens at most a hundred
    lists and objects, far from the limit of recursion of the
    interpreter, a thousand calls, so that no [RecursionError] is
    raised; and it has no run of more than 4300 digits, the limit of
    [int], so that no [ValueError] is raised. *)
Definition legible (contenido : string) : Prop :=
  Utf8.valido contenido = true
  /\ aperturas contenido <= 100
  /\ racha_de_digitos 0 contenido <= 4300.

(** * Properties *)

(** ** Strings *)

Lemma append_cons (x : ascii) (a b : string) :
  String x a +:+ b = String x (a +:+ b).
Proof. reflexivity. Qed.

Lemma append_nil_l (b : string) : EmptyString +:+ b = b.
Proof. reflexivity. Qed.

Lemma append_assoc (a b c : string) : (a +:+ b) +:+ c = a +:+ (b +:+ c).
Proof.
  induction a as [|x a IH]; [reflexivity|].
  rewrite !append_cons, IH. reflexivity.
Qed.

Lemma append_nil_r (a : string) : a +:+ EmptyString = a.
Proof.
  induction a as [|x a IH]; [reflexivity|].
  rewrite append_cons, IH. reflexivity.
Qed.

Lemma length_append (a b : string) :
  String.length (a +:+ b) = String.length a + String.length b.
Proof.
  induction a as [|x a IH]; [reflexivity|].
  rewrite append_cons. cbn [String.length]. rewrite IH. reflexivity.
Qed.

(** Appends are put to the right and literals in front are turned into
    [String c _], the shape the scanner matches on. *)
Ltac norm_str :=
  repeat first [rewrite append_assoc | rewrite append_cons | rewrite append_nil_l].

(** ** Reading back what [json.dump] wrote *)

Module JsonProps.
Import Py Json.

Lemma leer_cadena_escapar_car (c : ascii) (t : string) :
  leer_cadena (escapar_car c +:+ t) = anteponer (uno c) (leer_cadena t).
Proof.
  destruct c as [[] [] [] [] [] [] [] []]; reflexivity.
Qed.

Lemma leer_cadena_escapar (s r : string) :
  leer_cadena (escapar s +:+ String comilla r) = Some (s, r).
Proof.
  induction s as [|c s IH]; cbn [escapar].
  - reflexivity.
  - rewrite append_assoc, leer_cadena_escapar_car, IH. reflexivity.
Qed.

Lemma saltar_blancos_espacios (k : nat) (t : string) :
  saltar_blancos (espacios k +:+ t) = saltar_blancos t.
Proof. induction k as [|k IH]; [reflexivity | exact IH]. Qed.

Lemma saltar_blancos_salto (n : nat) (t : string) :
  saltar_blancos (salto n +:+ t) = saltar_blancos t.
Proof. exact (saltar_blancos_espacios (2 * n) t). Qed.

Lemma saltar_blancos_cons (c : ascii) (t : string) :
  es_blanco c = false -> saltar_blancos (String c t) = String c t.
Proof. intros H. cbn [saltar_blancos]. rewrite H. reflexivity. Qed.

(** A string literal, whatever follows it. *)
Lemma leer_valor_cadena (k : nat) (s t : string) :
  leer_valor (S k) (codificar_cadena s +:+ t) = Some (Cadena s, t).
Proof.
  unfold codificar_cadena, uno. norm_str.
  transitivity (match leer_cadena (escapar s +:+ String comilla t) with
                | Some (u, r') => Some (Cadena u, r')
                | None => None
                end); [reflexivity|].
  rewrite leer_cadena_escapar. reflexivity.
Qed.

(** One member [key: string], followed by a comma and more members. *)
Lemma cuerpo_miembros_coma V M (clave s t r4 : string) n ps r5 :
  (forall u, V (codificar_cadena s +:+ u) = Some (Cadena s, u)) ->
  t = String "," (salto n +:+ String comilla r4) ->
  M r4 = Some (ps, r5) ->
  cuerpo_miembros V M
    (escapar clave +:+
     String comilla (String ":" (String " " (codificar_cadena s +:+ t))))
  = Some ((clave, Cadena s) :: ps, r5).
Proof.
  intros HV -> HM. unfold cuerpo_miembros.
  rewrite leer_cadena_escapar. norm_str.
  rewrite saltar_blancos_cons by reflexivity.
  replace (saltar_blancos (String " " (codificar_cadena s +:+
             String "," (salto n +:+ String comilla r4))))
    with (codificar_cadena s +:+ String "," (salto n +:+ String comilla r4))
    by reflexivity.
  change ((Str.cod ":" =? 58)%N) with true. cbv iota.
  rewrite HV.
  rewrite saltar_blancos_cons by reflexivity.
  change ((Str.cod "," =? 125)%N) with false.
  change ((Str.cod "," =? 44)%N) with true. cbv iota.
  rewrite saltar_blancos_salto, saltar_blancos_cons by reflexivity.
  change ((Str.cod comilla =? 34)%N) with true. cbv iota.
  rewrite HM. reflexivity.
Qed.

(** The last member [key: value], followed by the closing brace. *)
Lemma cuerpo_miembros_fin V M (clave vtxt : string) x n r :
  (forall u, V (vtxt +:+ u) = Some (x, u)) ->
  (forall u, saltar_blancos (vtxt +:+ u) = vtxt +:+ u) ->
  cuerpo_miembros V M
    (escapar clave +:+
     String comilla (String ":" (String " " (vtxt +:+ salto n +:+ String "}" r))))
  = Some ([(clave, x)], r).
Proof.
  intros HV Hv. unfold cuerpo_miembros.
  rewrite leer_cadena_escapar. norm_str.
  rewrite saltar_blancos_cons by reflexivity.
  change ((Str.cod ":" =? 58)%N) with true. cbv iota.
  replace (saltar_blancos (String " " (vtxt +:+ salto n +:+ String "}" r)))
    with (saltar_blancos (vtxt +:+ salto n +:+ String "}" r)) by reflexivity.
  rewrite Hv, HV, saltar_blancos_salto, saltar_blancos_cons by reflexivity.
  reflexivity.
Qed.

Lemma saltar_blancos_cadena (s u : string) :
  saltar_blancos (codificar_cadena s +:+ u) = codificar_cadena s +:+ u.
Proof. unfold codificar_cadena. norm_str. apply saltar_blancos_cons. reflexivity. Qed.

Lemma volcar_mensaje (n : nat) (m : mensaje) :
  volcar n (py_de_mensaje m)
  = "{" +:+ salto (S n) +:+ codificar_cadena "rol" +:+ ": " +:+
    codificar_cadena (rol m) +:+ "," +:+ salto (S n) +:+
    codificar_cadena "texto" +:+ ": " +:+ codificar_cadena (texto m) +:+
    salto n +:+ "}".
Proof. reflexivity. Qed.

Lemma leer_valor_llave (k : nat) (r : string) :
  leer_valor (S k) (String "{" r) = leer_objeto (leer_miembros k) r.
Proof. reflexivity. Qed.

Lemma leer_valor_corchete (k : nat) (r : string) :
  leer_valor (S k) (String "[" r) = leer_lista (leer_elementos k) r.
Proof. reflexivity. Qed.

Lemma leer_objeto_miembros M (n : nat) (r' : string) :
  leer_objeto M (salto n +:+ String comilla r')
  = match M r' with
    | Some (ps, r'') => Some (Dicc (dicc_de_pares ps), r'')
    | None => None
    end.
Proof.
  unfold leer_objeto.
  rewrite saltar_blancos_salto, saltar_blancos_cons by reflexivity.
  reflexivity.
Qed.

(** One turn, whatever follows it. *)
Lemma leer_valor_mensaje (f n : nat) (m : mensaje) (R : string) :
  4 <= f ->
  leer_valor f (volcar n (py_de_mensaje m) +:+ R) = Some (py_de_mensaje m, R).
Proof.
  intros Hf. destruct f as [|[|[|[|k]]]]; try lia.
  rewrite volcar_mensaje. unfold codificar_cadena at 1 3. unfold uno. norm_str.
  rewrite leer_valor_llave, leer_objeto_miembros.
  change (leer_miembros (S (S (S k)))) with
    (cuerpo_miembros (leer_valor (S (S k))) (leer_miembros (S (S k)))).
  erewrite (cuerpo_miembros_coma _ _ _ _ _ _ _ [("texto", Cadena (texto m))] R);
    [reflexivity | | reflexivity | ].
  - intros u. apply leer_valor_cadena.
  - change (leer_miembros (S (S k))) with
      (cuerpo_miembros (leer_valor (S k)) (leer_miembros (S k))).
    apply cuerpo_miembros_fin.
    + intros u. apply leer_valor_cadena.
    + intros u. apply saltar_blancos_cadena.
Qed.

Lemma saltar_blancos_mensaje (n : nat) (m : mensaje) (u : string) :
  saltar_blancos (volcar n (py_de_mensaje m) +:+ u)
  = volcar n (py_de_mensaje m) +:+ u.
Proof. rewrite volcar_mensaje. norm_str. apply saltar_blancos_cons. reflexivity. Qed.

Lemma mensaje_cabeza (n : nat) (m : mensaje) (u : string) :
  exists r', volcar n (py_de_mensaje m) +:+ u = String "{" r'.
Proof. rewrite volcar_mensaje. norm_str. eexists. reflexivity. Qed.

(** The turns of a list from the first to the closing bracket. *)
Lemma leer_elementos_conversacion (ms : list mensaje) :
  forall (m : mensaje) (n f : nat) (R : string),
  length ms + 5 <= f ->
  leer_elementos f
    (volcar (S n) (py_de_mensaje m) +:+ cola_lista n (map py_de_mensaje ms) +:+ R)
  = Some (map py_de_mensaje (m :: ms), R).
Proof.
  induction ms as [|m' ms IH]; intros m n f R Hf;
    (destruct f as [|f]; [cbn [length] in Hf; lia|]);
    change (leer_elementos (S f)) with
      (cuerpo_elementos (leer_valor f) (leer_elementos f));
    unfold cuerpo_elementos; cbn [length] in Hf;
    rewrite leer_valor_mensaje by lia; cbn [map cola_lista]; norm_str.
  - rewrite saltar_blancos_salto, saltar_blancos_cons by reflexivity.
    reflexivity.
  - rewrite saltar_blancos_cons by reflexivity.
    change ((Str.cod "," =? 93)%N) with false.
    change ((Str.cod "," =? 44)%N) with true. cbv iota.
    rewrite saltar_blancos_salto, saltar_blancos_mensaje.
    rewrite IH by lia. reflexivity.
Qed.

Lemma volcar_conversacion_cons (n : nat) (m : mensaje) (ms : list mensaje) :
  volcar n (py_de_conversacion (m :: ms))
  = "[" +:+ salto (S n) +:+ volcar (S n) (py_de_mensaje m) +:+
    cola_lista n (map py_de_mensaje ms).
Proof.
  unfold py_de_conversacion. cbn [map].
  generalize (map py_de_mensaje ms). intros l.
  change (volcar n (Lista (py_de_mensaje m :: l))) with
    ("[" +:+ salto (S n) +:+ volcar (S n) (py_de_mensaje m) +:+
     (fix resto (l : list valor) : string :=
        match l with
        | [] => salto n +:+ "]"
        | z :: l' => "," +:+ salto (S n) +:+ volcar (S n) z +:+ resto l'
        end) l).
  do 3 f_equal. induction l as [|z l IH]; [reflexivity|].
  cbn [cola_lista]. rewrite <- IH. reflexivity.
Qed.

(** The list of turns, whatever follows it. *)
Lemma leer_valor_conversacion (c : list mensaje) (n f : nat) (R : string) :
  length c + 5 <= f ->
  leer_valor f (volcar n (py_de_conversacion c) +:+ R)
  = Some (py_de_conversacion c, R).
Proof.
  intros Hf. destruct f as [|f]; [lia|].
  destruct c as [|m ms].
  - reflexivity.
  - rewrite volcar_conversacion_cons. norm_str.
    rewrite leer_valor_corchete. unfold leer_lista.
    rewrite saltar_blancos_salto, saltar_blancos_mensaje.
    destruct (mensaje_cabeza (S n) m (cola_lista n (map py_de_mensaje ms) +:+ R))
      as [r' Hr'].
    rewrite Hr'. cbv iota.
    change ((Str.cod "{" =? 93)%N) with false. cbv iota.
    rewrite <- Hr'. cbn [length] in Hf.
    rewrite leer_elementos_conversacion by lia. reflexivity.
Qed.

Lemma saltar_blancos_conversacion (c : list mensaje) (n : nat) (u : string) :
  saltar_blancos (volcar n (py_de_conversacion c) +:+ u)
  = volcar n (py_de_conversacion c) +:+ u.
Proof.
  destruct c as [|m ms]; [reflexivity|].
  rewrite volcar_conversacion_cons. norm_str.
  apply saltar_blancos_cons. reflexivity.
Qed.

Lemma volcar_datos (ahora : Datetime.t) (c : list mensaje) :
  dumps (EntrevistaLogger.datos ahora c)
  = "{" +:+ salto 1 +:+ codificar_cadena "timestamp" +:+ ": " +:+
    codificar_cadena (Datetime.isoformat ahora) +:+ "," +:+ salto 1 +:+
    codificar_cadena "conversacion" +:+ ": " +:+
    volcar 1 (py_de_conversacion c) +:+ salto 0 +:+ "}".
Proof. reflexivity. Qed.

(** The whole record, whatever follows it. *)
Lemma leer_valor_datos (ahora : Datetime.t) (c : list mensaje) (f : nat) (R : string) :
  length c + 8 <= f ->
  leer_valor f (dumps (EntrevistaLogger.datos ahora c) +:+ R)
  = Some (EntrevistaLogger.datos ahora c, R).
Proof.
  intros Hf. destruct f as [|[|[|k]]]; try lia.
  rewrite volcar_datos. unfold codificar_cadena at 1 3. unfold uno. norm_str.
  rewrite leer_valor_llave, leer_objeto_miembros.
  change (leer_miembros (S (S k))) with
    (cuerpo_miembros (leer_valor (S k)) (leer_miembros (S k))).
  erewrite (cuerpo_miembros_coma _ _ _ _ _ _ _
              [("conversacion", py_de_conversacion c)] R);
    [reflexivity | | reflexivity | ].
  - intros u. apply leer_valor_cadena.
  - change (leer_miembros (S k)) with
      (cuerpo_miembros (leer_valor k) (leer_miembros k)).
    apply cuerpo_miembros_fin.
    + intros u. apply leer_valor_conversacion. lia.
    + intros u. apply saltar_blancos_conversacion.
Qed.

Lemma length_cola_lista (n : nat) (l : list valor) :
  length l <= String.length (cola_lista n l).
Proof.
  induction l as [|z l IH]; cbn [cola_lista length]; [lia|].
  rewrite !length_append. cbn [String.length]. lia.
Qed.

Lemma length_volcar_conversacion (n : nat) (c : list mensaje) :
  length c <= String.length (volcar n (py_de_conversacion c)).
Proof.
  destruct c as [|m ms]; [cbn [length]; lia|].
  rewrite volcar_conversacion_cons, !length_append.
  pose proof (length_cola_lista n (map py_de_mensaje ms)) as H.
  rewrite length_map in H. cbn [String.length length]. lia.
Qed.

Lemma length_dumps_datos (ahora : Datetime.t) (c : list mensaje) :
  length c + 8 <= String.length (dumps (EntrevistaLogger.datos ahora c)).
Proof.
  rewrite volcar_datos, !length_append.
  pose proof (length_volcar_conversacion 1 c) as H.
  unfold codificar_cadena. cbn [String.length]. lia.
Qed.

(** [json.loads] gives back the record that [json.dumps] wrote. *)
Lemma loads_dumps_datos (ahora : Datetime.t) (c : list mensaje) :
  loads (dumps (EntrevistaLogger.datos ahora c)) = Some (EntrevistaLogger.datos ahora c).
Proof.
  unfold loads.
  assert (Hs : saltar_blancos (dumps (EntrevistaLogger.datos ahora c))
               = dumps (EntrevistaLogger.datos ahora c)).
  { rewrite volcar_datos. norm_str. apply saltar_blancos_cons. reflexivity. }
  rewrite Hs.
  rewrite <- (append_nil_r (dumps (EntrevistaLogger.datos ahora c))) at 2.
  rewrite leer_valor_datos; [reflexivity|].
  pose proof (length_dumps_datos ahora c). lia.
Qed.

End JsonProps.

(** ** The logger *)

Lemma py_de_conversacion_inj (c c' : list mensaje) :
  py_de_conversacion c = py_de_conversacion c' -> c = c'.
Proof.
  unfold py_de_conversacion. intros [= H]. revert c' H.
  induction c as [|[r t] c IH]; intros [|[r' t'] c'] H; try discriminate.
  - reflexivity.
  - cbn [map] in H. injection H as -> -> H. f_equal. apply IH, H.
Qed.

(** What a call leaves in the file of the session, and in the others. *)
Lemma guardar_conversacion_lookup (self : EntrevistaLogger.t) (ahora : Datetime.t)
    (c : list mensaje) (fs : archivos) :
  (EntrevistaLogger.guardar_conversacion self ahora c fs).1
    !! EntrevistaLogger.archivo_salida self
  = Some (Json.dumps (EntrevistaLogger.datos ahora c)).
Proof. unfold EntrevistaLogger.guardar_conversacion. cbn [fst]. apply lookup_insert_eq. Qed.

(** Loading a file that holds a record of the logger. *)
Lemma cargar_conversacion_dumps (self : EntrevistaLogger.t) (ahora : Datetime.t)
    (c : list mensaje) (fs : archivos) (ruta : string) :
  fs !! ruta = Some (Json.dumps (EntrevistaLogger.datos ahora c)) ->
  EntrevistaLogger.cargar_conversacion self (Some ruta) fs = Ret (py_de_conversacion c).
Proof.
  intros H. pose proof (JsonProps.loads_dumps_datos ahora c) as Hl.
  unfold EntrevistaLogger.cargar_conversacion. cbv zeta.
  change (default (EntrevistaLogger.archivo_salida self) (Some ruta)) with ruta.
  revert H Hl. generalize (Json.dumps (EntrevistaLogger.datos ahora c)).
  intros txt H Hl. rewrite H. cbn [mbind resultado_bind]. rewrite Hl. reflexivity.
Qed.

(** C10.  For every conversation, a list of turns with a role and a text:
    after [guardar_conversacion] has written it, [cargar_conversacion],
    on the logger's own file or on the path that was returned, gives back
    that conversation as the Python value it is; and two conversations
    that are equal as Python values are the same list of turns. *)
Theorem C10_guardar_luego_cargar (self : EntrevistaLogger.t) (ahora : Datetime.t)
    (c : list mensaje) (fs : archivos) :
  let escrito := EntrevistaLogger.guardar_conversacion self ahora c fs in
  EntrevistaLogger.cargar_conversacion self None escrito.1
    = Ret (py_de_conversacion c)
  /\ EntrevistaLogger.cargar_conversacion self (Some escrito.2) escrito.1
    = Ret (py_de_conversacion c)
  /\ (forall c' : list mensaje,
        Ret (py_de_conversacion c')
          = EntrevistaLogger.cargar_conversacion self None escrito.1 <-> c' = c).
Proof.
  intros escrito.
  assert (H : EntrevistaLogger.cargar_conversacion self
                (Some (EntrevistaLogger.archivo_salida self)) escrito.1
              = Ret (py_de_conversacion c)).
  { apply (cargar_conversacion_dumps self ahora), guardar_conversacion_lookup. }
  assert (H0 : EntrevistaLogger.cargar_conversacion self None escrito.1
               = Ret (py_de_conversacion c)) by exact H.
  split; [exact H0 | split; [exact H |]].
  intros c'. rewrite H0. split.
  - intros E. apply py_de_conversacion_inj. congruence.
  - intros ->. reflexivity.
Qed.

(** C1, as the specification states it, fails: the record carries the time
    of the call, so two calls at different times write different bytes.
    Here the second call comes one second after the first. *)
Lemma C1_contraejemplo :
  let self := EntrevistaLogger.init (Datetime.mk 2026 11 3 9 5 0 0) "transcripts" in
  let c := [entrevistador "Hola"; candidato "Soy Ana"] in
  let fs1 := (EntrevistaLogger.guardar_conversacion self
                (Datetime.mk 2026 11 3 9 6 10 0) c ∅).1 in
  let fs2 := (EntrevistaLogger.guardar_conversacion self
                (Datetime.mk 2026 11 3 9 6 11 0) c fs1).1 in
  fs1 !! EntrevistaLogger.archivo_salida self
  <> fs2 !! EntrevistaLogger.archivo_salida self.
Proof.
  intros self c fs1 fs2. unfold fs1, fs2.
  rewrite !guardar_conversacion_lookup. intros H.
  apply (f_equal (from_option (String.eqb (Json.dumps (EntrevistaLogger.datos
           (Datetime.mk 2026 11 3 9 6 10 0) c))) false)) in H.
  vm_compute in H. discriminate H.
Qed.

(** C1, amended.  Two calls of [guardar_conversacion] in a row with the
    same conversation: the file of the session then holds exactly the
    record of the second call (its content is replaced, nothing is
    appended), no other file changes, the two contents are the same bytes
    exactly when the two calls read the same time, and both hold the same
    conversation. *)
Theorem C1_guardar_dos_veces (self : EntrevistaLogger.t) (t1 t2 : Datetime.t)
    (c : list mensaje) (fs : archivos) :
  let ruta := EntrevistaLogger.archivo_salida self in
  let fs1 := (EntrevistaLogger.guardar_conversacion self t1 c fs).1 in
  let fs2 := (EntrevistaLogger.guardar_conversacion self t2 c fs1).1 in
  fs2 !! ruta = Some (Json.dumps (EntrevistaLogger.datos t2 c))
  /\ fs2 = <[ruta := Json.dumps (EntrevistaLogger.datos t2 c)]> fs
  /\ (fs1 !! ruta = fs2 !! ruta <-> Datetime.isoformat t1 = Datetime.isoformat t2)
  /\ EntrevistaLogger.cargar_conversacion self None fs1
     = EntrevistaLogger.cargar_conversacion self None fs2.
Proof.
  intros ruta fs1 fs2.
  assert (H1 : fs1 !! ruta = Some (Json.dumps (EntrevistaLogger.datos t1 c)))
    by apply guardar_conversacion_lookup.
  assert (H2 : fs2 !! ruta = Some (Json.dumps (EntrevistaLogger.datos t2 c)))
    by apply guardar_conversacion_lookup.
  split; [exact H2 | split; [| split]].
  - unfold fs2, fs1, EntrevistaLogger.guardar_conversacion. cbn [fst].
    apply insert_insert_eq.
  - rewrite H1, H2. split.
    + intros E.
      assert (E' : Json.loads (Json.dumps (EntrevistaLogger.datos t1 c))
                   = Json.loads (Json.dumps (EntrevistaLogger.datos t2 c)))
        by congruence.
      rewrite !JsonProps.loads_dumps_datos in E'.
      unfold EntrevistaLogger.datos in E'. congruence.
    + intros E. unfold EntrevistaLogger.datos. rewrite E. reflexivity.
  - change (EntrevistaLogger.cargar_conversacion self None fs1) with
      (EntrevistaLogger.cargar_conversacion self (Some ruta) fs1).
    change (EntrevistaLogger.cargar_conversacion self None fs2) with
      (EntrevistaLogger.cargar_conversacion self (Some ruta) fs2).
    rewrite (cargar_conversacion_dumps self t1 c fs1 ruta H1).
    rewrite (cargar_conversacion_dumps self t2 c fs2 ruta H2). reflexivity.
Qed.

(** ** The question generator *)

Module LlmProps.
Import LlmConversacion.

Ltac paso_caso :=
  match goal with
  | |- context [match Py.dicc_buscar ?k ?m with _ => _ end] =>
    destruct (Py.dicc_buscar k m) as [[]|] eqn:?
  | |- context [match Str.primer_caracter ?s with _ => _ end] =>
    destruct (Str.primer_caracter s) eqn:?
  | |- context [if Str.contiene ?k ?s then _ else _] =>
    destruct (Str.contiene k s) eqn:?
  | |- context [if existsb ?f ?l then _ else _] =>
    destruct (existsb f l) eqn:?
  | |- context [Str.vacia ?s] =>
    destruct (Str.vacia s) eqn:?
  | |- context [match ?l with [] => _ | _ :: _ => _ end] =>
    is_var l; destruct l as [|[] ?]
  end.

Ltac reduce_py :=
  cbn [mbind resultado_bind mret resultado_ret Py.contiene Py.indice_str
       Py.indice_0 Py.no_vacio Py.metodo_strip negb].

Lemma extraer_pregunta_casos (x : Py.valor) :
  match contenido_de x with
  | Some s => extraer_pregunta x = Ret (limpiar s)
  | None =>
    extraer_pregunta x = Ret respaldo_estructura
    \/ exists e, extraer_pregunta x = Lanza e /\ es_Exception e = true
  end.
Proof.
  unfold extraer_pregunta, contenido_de, limpiar.
  destruct x; reduce_py;
    repeat (paso_caso; reduce_py);
    first [ reflexivity
          | left; reflexivity
          | right; eexists; split; reflexivity ].
Qed.

Lemma try_except_todo_ret {A} (cuerpo : resultado A) (a : A) :
  exists a', try_except_todo cuerpo (fun _ => Ret a) = Ret a'.
Proof. destruct cuerpo; eexists; reflexivity. Qed.

Section Metodo.
Variable self : OpenRouterConversacion.
Variable env : entorno.
Variable conversacion : list mensaje.
Variable prompt_base : string.

Let sol := payload self conversacion prompt_base.
Let metodo := metodo_generar_pregunta self env conversacion prompt_base.

Lemma metodo_post_lanza (e : excepcion) :
  post env sol = Lanza e ->
  metodo = if es_Exception e then Ret respaldo_excepcion else Lanza e.
Proof.
  intros H. unfold metodo, metodo_generar_pregunta. fold sol. rewrite H.
  reflexivity.
Qed.

Lemma metodo_estado (r : respuesta_http) :
  post env sol = Ret r -> ok r = false -> metodo = Ret respaldo_excepcion.
Proof.
  intros H Hok. unfold metodo, metodo_generar_pregunta. fold sol. rewrite H.
  cbn [mbind resultado_bind]. rewrite Hok. cbn [negb].
  destruct (try_except_todo_ret (detalle_error r)
              (Py.Cadena "Detalles no disponibles")) as [d ->].
  cbn [mbind resultado_bind].
  unfold ok in Hok. destruct (raise_for_status r) as [[]|e] eqn:E; [discriminate|].
  unfold raise_for_status in E.
  destruct ((400 <=? status_code r) && (status_code r <? 600)); [|discriminate].
  injection E as <-. reflexivity.
Qed.

Lemma metodo_json_lanza (r : respuesta_http) (e : excepcion) :
  post env sol = Ret r -> ok r = true -> json r = Lanza e ->
  metodo = if es_Exception e then Ret respaldo_excepcion else Lanza e.
Proof.
  intros H Hok Hj. unfold metodo, metodo_generar_pregunta. fold sol. rewrite H.
  cbn [mbind resultado_bind]. rewrite Hok, Hj. reflexivity.
Qed.

Lemma metodo_json_ret (r : respuesta_http) (x : Py.valor) :
  post env sol = Ret r -> ok r = true -> json r = Ret x ->
  match contenido_de x with
  | Some s => metodo = Ret (limpiar s)
  | None => metodo = Ret respaldo_estructura \/ metodo = Ret respaldo_excepcion
  end.
Proof.
  intros H Hok Hj. unfold metodo, metodo_generar_pregunta. fold sol. rewrite H.
  cbn [mbind resultado_bind]. rewrite Hok, Hj. cbn [negb mbind resultado_bind].
  pose proof (extraer_pregunta_casos x) as Hx.
  destruct (contenido_de x) as [s|].
  - rewrite Hx. reflexivity.
  - destruct Hx as [-> | (e & -> & He)]; [left; reflexivity|].
    right. unfold try_except_Exception, try_except. rewrite He. reflexivity.
Qed.

End Metodo.

(** The three fall-back questions are not empty. *)
Lemma respaldos_no_vacios :
  respaldo_excepcion <> EmptyString /\ respaldo_estructura <> EmptyString
  /\ respaldo_funcion <> EmptyString.
Proof. repeat split; discriminate. Qed.

(** With a client, the function answers what the method answers: the
    method has caught every [Exception] itself. *)
Lemma generar_pregunta_con_cliente (env : entorno) (c : list mensaje)
    (prompt : string) (nombre : option string) (self : OpenRouterConversacion)
    (q : string) :
  init env (modelo_especifico nombre) = Ret self ->
  metodo_generar_pregunta self env c prompt = Ret q ->
  generar_pregunta env c prompt nombre = Ret q.
Proof.
  intros Hi Hm. unfold generar_pregunta. rewrite Hi.
  cbn [mbind resultado_bind]. rewrite Hm. reflexivity.
Qed.

Lemma generar_pregunta_sin_cliente (env : entorno) (c : list mensaje)
    (prompt : string) (nombre : option string) (e : excepcion) :
  init env (modelo_especifico nombre) = Lanza e ->
  generar_pregunta env c prompt nombre = Ret respaldo_funcion.
Proof.
  intros Hi. unfold generar_pregunta. rewrite Hi.
  unfold init in Hi. destruct (OPENROUTER_API_KEY env) as [[|]|];
    try discriminate; injection Hi as <-; reflexivity.
Qed.


End LlmProps.

(** ** White space and closing phrases *)

Module StrProps.
Import Str.

Lemma esp2_no_esp1 (c1 c2 : ascii) : esp2 c1 c2 = true -> esp1 c1 = false.
Proof.
  unfold esp2, esp1. intros H. apply andb_true_iff in H as [H _].
  apply N.eqb_eq in H. rewrite H. reflexivity.
Qed.

Lemma esp3_cabeza (c1 c2 c3 : ascii) :
  esp3 c1 c2 c3 = true -> esp1 c1 = false /\ esp2 c1 c2 = false.
Proof.
  unfold esp3, esp2, esp1. intros H.
  assert (Hc : (cod c1 = 225 \/ cod c1 = 226 \/ cod c1 = 227)%N).
  { repeat (apply orb_true_iff in H as [H|H]);
      repeat (apply andb_true_iff in H as [H ?]);
      apply N.eqb_eq in H; auto. }
  destruct Hc as [-> | [-> | ->]]; split; reflexivity.
Qed.

Lemma lstrip_espacio (t r : string) :
  es_espacio t = true -> lstrip (t +:+ r) = lstrip r.
Proof.
  destruct t as [|c1 [|c2 [|c3 [|]]]]; intros H; try discriminate;
    cbn [es_espacio] in H; norm_str; cbn [lstrip].
  - rewrite H. reflexivity.
  - rewrite (esp2_no_esp1 _ _ H), H. reflexivity.
  - destruct (esp3_cabeza _ _ _ H) as [-> ->]. rewrite H. reflexivity.
Qed.

(** What the test of line 88 finds in a text of white space. *)
Lemma strip_solo_espacios (r : string) :
  solo_espacios r -> vacia (strip r) = true.
Proof.
  intros (ts & Hts & ->).
  assert (H : lstrip (juntar ts) = EmptyString).
  { induction Hts as [|t ts Ht _ IH]; [reflexivity|].
    cbn [juntar fold_right]. rewrite lstrip_espacio by exact Ht. exact IH. }
  unfold strip. rewrite H. reflexivity.
Qed.


Lemma prefix_append (a b : string) : String.prefix a (a +:+ b) = true.
Proof.
  induction a as [|x a IH]; [destruct b; reflexivity|].
  rewrite append_cons. cbn [String.prefix].
  destruct (ascii_dec x x); [exact IH | contradiction].
Qed.



End StrProps.

(** ** The session *)

Module MainProps.
Import Main.

Lemma ejecutar_app (ses : sesion) (evs1 evs2 : list evento) :
  forall p st,
  ejecutar ses p st (evs1 ++ evs2)
  = match ejecutar ses p st evs1 with
    | Some (p', st') => ejecutar ses p' st' evs2
    | None => None
    end.
Proof.
  induction evs1 as [|ev evs1 IH]; intros p st; [reflexivity|].
  cbn [ejecutar app]. destruct (paso ses p st ev) as [[p' st']|]; [apply IH | reflexivity].
Qed.

(** One turn of the loop in which nothing but white space is heard. *)
Lemma vuelta_en_blanco_ejecutar (ses : sesion) (st : estado)
    (env : WhisperStt.entorno) (r : string) :
  WhisperStt.grabar_y_transcribir env = Ret r ->
  Str.vacia (Str.strip r) = true ->
  ejecutar ses L82_input st (vuelta_en_blanco env)
  = Some (L82_input,
          anota (Imprime "red"
                   (nl +:+ "[No se detectó ninguna respuesta. Intenta de nuevo.]"))
            (anota Graba
               (anota (Imprime "yellow" (nl +:+ "[Grabando tu respuesta...]"))
                  (anota (Imprime "yellow" (nl +:+ "[Presiona ENTER para responder...]"))
                     st)))).
Proof.
  intros Hg Hv. unfold vuelta_en_blanco. cbn [ejecutar paso en_try].
  rewrite Hg. cbn [ejecutar paso]. rewrite Hv. reflexivity.
Qed.






Ltac casos_paso H :=
  repeat match type of H with
         | context [lanzada ?e] => is_var e; destruct e; cbn [lanzada] in H
         | context [match ?x with _ => _ end] => destruct x
         | context [if ?x then _ else _] => destruct x
         end.



(** A [KeyboardInterrupt] that reaches the handler of line 132: the
    conversation is written as it is, and the session is over. *)
Lemma interrupcion_atendida (ses : sesion) (p : punto) (st : estado)
    (ahora : Datetime.t) :
  en_try p = true ->
  exists st',
    ejecutar ses p st [CtrlC; Sigue; Reloj ahora; Sigue] = Some (Fin, st')
    /\ conversacion st' = conversacion st
    /\ fs st' = <[EntrevistaLogger.archivo_salida (logger ses) :=
                    Json.dumps (EntrevistaLogger.datos ahora (conversacion st))]>
                  (fs st).
Proof.
  intros Hp. cbn [ejecutar paso]. rewrite Hp.
  eexists. split; [reflexivity|]. split; reflexivity.
Qed.

(** The same when the interrupt cuts a write of the logger short: the
    handler writes the whole record over what was left. *)
Lemma interrupcion_al_escribir (ses : sesion) (p : punto) (st : estado)
    (antes ahora : Datetime.t) (n : nat) :
  p = L102_guardar \/ p = L116_guardar ->
  exists st',
    ejecutar ses p st [CtrlC_al_escribir antes n; Sigue; Reloj ahora; Sigue]
      = Some (Fin, st')
    /\ conversacion st' = conversacion st
    /\ fs st' = <[EntrevistaLogger.archivo_salida (logger ses) :=
                    Json.dumps (EntrevistaLogger.datos ahora (conversacion st))]>
                  (fs st).
Proof.
  intros [-> | ->]; (eexists; split; [reflexivity|]; split; [reflexivity|]);
    cbn [fs guardar guardar_cortado anota conversacion
         EntrevistaLogger.guardar_conversacion fst];
    apply insert_insert_eq.
Qed.

Lemma alterna_desde_snoc (c : list mensaje) (m : mensaje) :
  forall b : bool,
  alterna_desde b (c ++ [m])
  = alterna_desde b c
    && String.eqb (rol m)
         (if xorb b (Nat.odd (length c)) then "entrevistador" else "candidato").
Proof.
  induction c as [|x c IH]; intros b.
  - cbn [app alterna_desde length Nat.odd Nat.even]. rewrite xorb_false_r.
    apply andb_comm.
  - cbn [app alterna_desde length]. rewrite IH, Nat.odd_succ, <- Nat.negb_odd.
    rewrite <- andb_assoc. do 3 f_equal.
    destruct b, (Nat.odd (length c)); reflexivity.
Qed.

Lemma invariante_append (c : list mensaje) (t : string) (b : bool) :
  alterna c = true -> comienza_con_entrevistador c -> Nat.odd (length c) = b ->
  let m := if b then candidato t else entrevistador t in
  alterna (c ++ [m]) = true
  /\ comienza_con_entrevistador (c ++ [m])
  /\ Nat.odd (length (c ++ [m])) = negb b.
Proof.
  intros Ha Hc Hb m. split; [|split].
  - unfold alterna in *. rewrite alterna_desde_snoc, Ha, Hb.
    unfold m. destruct b; reflexivity.
  - destruct Hc as (t0 & c0 & ->). exists t0, (c0 ++ [m]). reflexivity.
  - rewrite length_app. cbn [length]. rewrite Nat.add_1_r, Nat.odd_succ, <- Nat.negb_odd.
    rewrite Hb. reflexivity.
Qed.

(** Every statement keeps the order of the turns. *)
Lemma paso_invariante (ses : sesion) (p p' : punto) (st st' : estado) (ev : evento) :
  invariante p (conversacion st) ->
  paso ses p st ev = Some (p', st') ->
  invariante p' (conversacion st').
Proof.
  intros (Ha & Hc & Hu) H.
  destruct p; destruct ev; cbn [paso en_try en_except] in H;
    try discriminate H; casos_paso H;
    try discriminate H; injection H as <- <-;
    cbn [ultimo_turno] in Hu;
    try (unfold texto_a_voz; destruct (usar_tts ses));
    cbn [conversacion anota append guardar guardar_cortado];
    first [ split; [exact Ha | split; [exact Hc | first [exact Hu | exact I]]]
          | apply (invariante_append _ _ true Ha Hc Hu)
          | apply (invariante_append _ _ false Ha Hc Hu) ].
Qed.

Lemma ejecutar_invariante (ses : sesion) (evs : list evento) :
  forall (p p' : punto) (st st' : estado),
  invariante p (conversacion st) ->
  ejecutar ses p st evs = Some (p', st') ->
  invariante p' (conversacion st').
Proof.
  induction evs as [|ev evs IH]; intros p p' st st' Hi H.
  - injection H as <- <-. exact Hi.
  - cbn [ejecutar] in H.
    destruct (paso ses p st ev) as [[p1 st1]|] eqn:E; [|discriminate].
    eapply IH; [|exact H]. eapply paso_invariante; [exact Hi | exact E].
Qed.

Lemma iniciar_invariante (usar_tts : bool) (modelo_llm : string)
    (ahora : Datetime.t) (fs0 : archivos) (ses : sesion) (st0 : estado) :
  iniciar usar_tts modelo_llm ahora fs0 = Ret (ses, st0) ->
  conversacion st0 = [entrevistador pregunta_inicial].
Proof.
  unfold iniciar. destruct (fs0 !! "data/prompt_base.txt"); [|discriminate].
  cbn [mbind resultado_bind]. intros [= <- <-].
  unfold texto_a_voz. cbn [Main.usar_tts]. destruct usar_tts; reflexivity.
Qed.

End MainProps.

(** C3.  Whatever the number of turns of the loop in a row in which the
    text that is heard is empty or white space only: the session is back
    at the top of the loop, waiting for ENTER, with the conversation as
    it was, and [guardar_conversacion] has not been called. *)
Theorem C3_capturas_en_blanco (ses : Main.sesion) (st : Main.estado)
    (envs : list WhisperStt.entorno) :
  Forall (fun env => exists r, WhisperStt.grabar_y_transcribir env = Ret r
                               /\ solo_espacios r) envs ->
  exists st',
    Main.ejecutar ses Main.L82_input st (concat (map vuelta_en_blanco envs))
      = Some (Main.L82_input, st')
    /\ Main.conversacion st' = Main.conversacion st
    /\ exists extra, Main.traza st' = Main.traza st ++ extra
                     /\ forallb (fun a => negb (es_guarda a)) extra = true.
Proof.
  intros H. revert st. induction H as [|env envs (r & Hg & Hr) _ IH]; intros st.
  - exists st. repeat split. exists []. rewrite app_nil_r. split; reflexivity.
  - cbn [map concat]. rewrite MainProps.ejecutar_app.
    rewrite (MainProps.vuelta_en_blanco_ejecutar ses st env r Hg
               (StrProps.strip_solo_espacios r Hr)).
    match goal with |- context [Main.ejecutar ses _ ?s _] =>
      destruct (IH s) as (st' & He & Hc & extra & Ht & Hx) end.
    exists st'. split; [exact He|]. split; [exact Hc|].
    exists ([Main.Imprime "yellow" (Main.nl +:+ "[Presiona ENTER para responder...]");
             Main.Imprime "yellow" (Main.nl +:+ "[Grabando tu respuesta...]");
             Main.Graba;
             Main.Imprime "red"
               (Main.nl +:+ "[No se detectó ninguna respuesta. Intenta de nuevo.]")]
            ++ extra).
    split.
    + rewrite Ht. cbn [Main.traza Main.anota]. rewrite <- !app_assoc. reflexivity.
    + cbn [app forallb es_guarda negb andb]. exact Hx.
Qed.



(** The hypothesis of C3 holds of a microphone that hears three spaces,
    then nothing. *)
Lemma C3_testigo :
  exists st',
    Main.ejecutar
      (Main.Sesion false "gpt"
         (EntrevistaLogger.init (Datetime.mk 2026 11 3 9 5 0 0) "transcripts")
         "Eres un entrevistador.")
      Main.L82_input
      (Main.Estado [entrevistador Main.pregunta_inicial] ∅ [])
      (concat (map vuelta_en_blanco [oye "   "; oye EmptyString]))
      = Some (Main.L82_input, st')
    /\ Main.conversacion st' = [entrevistador Main.pregunta_inicial].
Proof.
  destruct (C3_capturas_en_blanco
              (Main.Sesion false "gpt"
                 (EntrevistaLogger.init (Datetime.mk 2026 11 3 9 5 0 0) "transcripts")
                 "Eres un entrevistador.")
              (Main.Estado [entrevistador Main.pregunta_inicial] ∅ [])
              [oye "   "; oye EmptyString])
    as (st' & He & Hc & _).
  - repeat constructor.
    + exists "   ". split; [reflexivity|].
      exists [" "; " "; " "]. split; [repeat constructor | reflexivity].
    + exists EmptyString. split; [reflexivity|].
      exists []. split; [constructor | reflexivity].
  - exists st'. split; [exact He | exact Hc].
Defined.



(** C6.  At every point that a session reaches from the top of its loop:
    the conversation begins with an interviewer turn and its turns
    alternate, interviewer, candidate, interviewer, and so on.  The
    exception that the specification allows at the end of the session is
    never used: the closing question too comes after a candidate turn. *)
Theorem C6_turnos_alternan (usar_tts : bool) (modelo_llm : string)
    (ahora : Datetime.t) (fs0 : archivos) (ses : Main.sesion) (st0 : Main.estado)
    (evs : list Main.evento) (p : Main.punto) (st : Main.estado) :
  Main.iniciar usar_tts modelo_llm ahora fs0 = Ret (ses, st0) ->
  Main.ejecutar ses Main.L82_input st0 evs = Some (p, st) ->
  comienza_con_entrevistador (Main.conversacion st)
  /\ alterna (Main.conversacion st) = true
  /\ alterna_salvo_final (terminada p) (Main.conversacion st).
Proof.
  intros Hi He.
  apply MainProps.iniciar_invariante in Hi.
  assert (H0 : invariante Main.L82_input (Main.conversacion st0)).
  { rewrite Hi. split; [reflexivity | split; [|reflexivity]].
    exists Main.pregunta_inicial, []. reflexivity. }
  destruct (MainProps.ejecutar_invariante ses evs _ _ _ _ H0 He) as (Ha & Hc & _).
  split; [exact Hc | split; [exact Ha | left; exact Ha]].
Qed.

(** The hypotheses of C6 hold of a session in which one answer has been
    heard and appended. *)
Lemma C6_testigo :
  let fs0 : archivos := {["data/prompt_base.txt" := "Eres un entrevistador."]} in
  let ahora := Datetime.mk 2026 11 3 9 5 0 0 in
  let ses := Main.Sesion false "gpt" (EntrevistaLogger.init ahora "transcripts")
               "Eres un entrevistador." in
  let st0 := Main.append (entrevistador Main.pregunta_inicial)
               (Main.anota
                  (Main.Imprime "green"
                     (Main.nl +:+ "[Entrevistador]: " +:+ Main.pregunta_inicial))
                  (Main.Estado [] fs0 [])) in
  let st := Main.append (candidato "Soy Ana")
              (Main.anota (Main.Imprime "blue" (Main.nl +:+ "[Tú]: " +:+ "Soy Ana"))
                 (Main.anota Main.Graba
                    (Main.anota
                       (Main.Imprime "yellow" (Main.nl +:+ "[Grabando tu respuesta...]"))
                       (Main.anota
                          (Main.Imprime "yellow"
                             (Main.nl +:+ "[Presiona ENTER para responder...]"))
                          st0)))) in
  alterna (Main.conversacion st) = true.
Proof.
  intros fs0 ahora ses st0 st.
  refine (proj1 (proj2
            (C6_turnos_alternan false "gpt" ahora fs0 ses st0
               [Main.Enter; Main.Sigue; Main.Microfono (oye "Soy Ana");
                Main.Sigue; Main.Sigue; Main.Sigue]
               Main.L102_guardar st _ _))).
  - reflexivity.
  - reflexivity.
Defined.


(** C7, at the input on which the code fails.  [grabar_y_transcribir]
    removes its temporary file under a bare [except: pass]: a Ctrl+C that
    arrives during [os.remove] is caught there, the function returns the
    text, and the session goes on with the test of line 88; the handler
    of line 132 does not run, nothing is written, and the session is not
    over.  The bare [except:] of the generator (line 102) does the same
    to a Ctrl+C that arrives while the body of an error reply is decoded:
    the fall-back question is returned.  Where the interrupt does reach
    the handler, the claim holds ([MainProps.interrupcion_atendida]). *)
Theorem C7_interrupcion_tragada (ses : Main.sesion) (st : Main.estado)
    (r : string) (clave : ascii) (clave' : string) (estado_http : nat) :
  let microfono :=
    WhisperStt.Entorno (Ret tt) (Ret tt) (Ret tt) (Ret tt) (Ret r)
      (Lanza KeyboardInterrupt) in
  let red :=
    LlmConversacion.Entorno (Some (String clave clave'))
      (fun _ => Ret (LlmConversacion.RespuestaHttp (400 + estado_http mod 200)
                       (Lanza KeyboardInterrupt))) in
  WhisperStt.grabar_y_transcribir microfono = Ret r
  /\ Main.paso ses Main.L86_grabar st (Main.Microfono microfono)
     = Some (Main.L88_if r, Main.anota Main.Graba st)
  /\ Main.paso ses Main.L105_generar st (Main.Red red)
     = Some (Main.L108_if LlmConversacion.respaldo_excepcion,
             Main.anota (Main.Genera (Main.conversacion st)) st).
Proof.
  intros microfono red. split; [reflexivity | split; [reflexivity|]].
  cbn [Main.paso].
  assert (H : LlmConversacion.generar_pregunta red (Main.conversacion st)
                (Main.prompt_base ses) (Some (Main.modelo_llm ses))
              = Ret LlmConversacion.respaldo_excepcion).
  { eapply LlmProps.generar_pregunta_con_cliente; [reflexivity|].
    eapply LlmProps.metodo_estado; [reflexivity|].
    unfold LlmConversacion.ok, LlmConversacion.raise_for_status.
    cbn [LlmConversacion.status_code].
    pose proof (Nat.mod_upper_bound estado_http 200 ltac:(lia)) as Hm.
    destruct (400 <=? 400 + estado_http mod 200) eqn:E1;
      destruct (400 + estado_http mod 200 <? 600) eqn:E2; try reflexivity;
      first [apply Nat.leb_gt in E1 | apply Nat.ltb_ge in E2]; lia. }
  rewrite H. reflexivity.
Qed.



(** C2, as the specification states it, fails: a reply of the expected
    shape whose content is empty, or is nothing but the prefix that the
    function removes, makes the function return the empty string. *)
Lemma C2_contraejemplo :
  let respuesta (contenido : string) :=
    Py.Dicc [("choices",
              Py.Lista [Py.Dicc [("message",
                                  Py.Dicc [("role", Py.Cadena "assistant");
                                           ("content", Py.Cadena contenido)])]])] in
  let env (contenido : string) :=
    LlmConversacion.Entorno (Some "k")
      (fun _ => Ret (LlmConversacion.RespuestaHttp 200 (Ret (respuesta contenido)))) in
  LlmConversacion.generar_pregunta (env EmptyString)
    [entrevistador "Hola"; candidato "Soy Ana"] "Eres un entrevistador." None
  = Ret EmptyString
  /\ LlmConversacion.generar_pregunta (env " Entrevistador: ")
       [entrevistador "Hola"; candidato "Soy Ana"] "Eres un entrevistador." None
     = Ret EmptyString.
Proof. split; vm_compute; reflexivity. Qed.

(** C2, amended.  When the outside world raises nothing but [Exception]s
    into it, [generar_pregunta] returns a text and raises nothing.  With
    a client: on a failure of the transport it returns the fall-back
    question of the [except] clause, on a failure of the shape of the
    reply that one or the fall-back question of line 124.  Without an API
    key it returns the third fall-back question.  The text is empty only
    when the reply has the expected shape and its content is empty once
    cleaned. *)
Theorem C2_generar_pregunta_devuelve (env : LlmConversacion.entorno)
    (c : list mensaje) (prompt : string) (nombre : option string) :
  sin_interrupciones env ->
  exists q,
    LlmConversacion.generar_pregunta env c prompt nombre = Ret q
    /\ (forall self,
          LlmConversacion.init env (LlmConversacion.modelo_especifico nombre)
            = Ret self ->
          (fallo_transporte env (LlmConversacion.payload self c prompt) ->
           q = LlmConversacion.respaldo_excepcion)
          /\ (fallo_estructura env (LlmConversacion.payload self c prompt) ->
              q = LlmConversacion.respaldo_excepcion
              \/ q = LlmConversacion.respaldo_estructura))
    /\ (forall e,
          LlmConversacion.init env (LlmConversacion.modelo_especifico nombre)
            = Lanza e ->
          q = LlmConversacion.respaldo_funcion)
    /\ (q = EmptyString ->
        exists self r x s,
          LlmConversacion.init env (LlmConversacion.modelo_especifico nombre)
            = Ret self
          /\ LlmConversacion.post env (LlmConversacion.payload self c prompt) = Ret r
          /\ LlmConversacion.ok r = true
          /\ LlmConversacion.json r = Ret x
          /\ contenido_de x = Some s
          /\ LlmConversacion.limpiar s = EmptyString).
Proof.
  intros [Hpost Hjson].
  destruct (LlmConversacion.init env (LlmConversacion.modelo_especifico nombre))
    as [self|e0] eqn:Hi.
  2:{ exists LlmConversacion.respaldo_funcion.
      split; [eapply LlmProps.generar_pregunta_sin_cliente, Hi|].
      split; [intros ? [=] | split; [reflexivity | discriminate]]. }
  set (sol := LlmConversacion.payload self c prompt).
  assert (Hcaso :
    exists q,
      LlmConversacion.metodo_generar_pregunta self env c prompt = Ret q
      /\ (fallo_transporte env sol -> q = LlmConversacion.respaldo_excepcion)
      /\ (fallo_estructura env sol ->
          q = LlmConversacion.respaldo_excepcion
          \/ q = LlmConversacion.respaldo_estructura)
      /\ (q = EmptyString ->
          exists r x s,
            LlmConversacion.post env sol = Ret r /\ LlmConversacion.ok r = true
            /\ LlmConversacion.json r = Ret x /\ contenido_de x = Some s
            /\ LlmConversacion.limpiar s = EmptyString)).
  { destruct (LlmConversacion.post env sol) as [r|e] eqn:Hp.
    2:{ exists LlmConversacion.respaldo_excepcion.
        rewrite (LlmProps.metodo_post_lanza _ _ _ _ e Hp), (Hpost _ _ Hp).
        repeat split; auto; discriminate. }
    destruct (LlmConversacion.ok r) eqn:Hok.
    2:{ exists LlmConversacion.respaldo_excepcion.
        rewrite (LlmProps.metodo_estado _ _ _ _ r Hp Hok).
        repeat split; auto; discriminate. }
    destruct (LlmConversacion.json r) as [x|e] eqn:Hj.
    2:{ exists LlmConversacion.respaldo_excepcion.
        rewrite (LlmProps.metodo_json_lanza _ _ _ _ r e Hp Hok Hj),
          (Hjson _ _ _ Hp Hj).
        repeat split; auto; discriminate. }
    pose proof (LlmProps.metodo_json_ret _ _ _ _ r x Hp Hok Hj) as Hm.
    destruct (contenido_de x) as [s|] eqn:Hx.
    - exists (LlmConversacion.limpiar s). split; [exact Hm|]. split; [|split].
      + intros [e Hp' _ | r' Hp' Hok']; rewrite Hp in Hp'; [discriminate|].
        injection Hp' as <-. congruence.
      + intros [r' e Hp' _ Hj' _ | r' x' Hp' _ Hj' Hx']; rewrite Hp in Hp';
          injection Hp' as <-; congruence.
      + intros Hq. exists r, x, s. auto.
    - destruct Hm as [Hm | Hm]; eexists; (split; [exact Hm|]);
        (split; [|split; [auto | discriminate]]);
        intros [e Hp' _ | r' Hp' Hok']; rewrite Hp in Hp'; try discriminate;
        injection Hp' as <-; congruence. }
  destruct Hcaso as (q & Hm & Ht & He & Hv).
  exists q. split; [apply (LlmProps.generar_pregunta_con_cliente _ _ _ _ self q Hi Hm)|].
  split; [|split].
  - intros self' [= <-]. split; assumption.
  - intros e [=].
  - intros Hq. destruct (Hv Hq) as (r & x & s & H). exists self, r, x, s. auto.
Qed.

(** The hypothesis of C2 holds of a network that is down. *)
Lemma C2_testigo :
  sin_interrupciones
    (LlmConversacion.Entorno (Some "k") (fun _ => Lanza ConnectionError))
  /\ exists q,
       LlmConversacion.generar_pregunta
         (LlmConversacion.Entorno (Some "k") (fun _ => Lanza ConnectionError))
         [entrevistador "Hola"; candidato "Soy Ana"] "Eres un entrevistador." None
       = Ret q.
Proof.
  assert (H : sin_interrupciones
                (LlmConversacion.Entorno (Some "k") (fun _ => Lanza ConnectionError))).
  { split.
    - intros sol e [= <-]. reflexivity.
    - intros sol r e [=]. }
  split; [exact H|].
  destruct (C2_generar_pregunta_devuelve _
              [entrevistador "Hola"; candidato "Soy Ana"] "Eres un entrevistador."
              None H) as (q & Hq & _).
  exists q. exact Hq.
Defined.

(** C8.  The list of messages of the request: first the system
    instruction, with the role [system]; then the turns of the
    conversation in their order, an interviewer turn with the role
    [assistant], a candidate turn, or a turn of any other role, with the
    role [user]; last one message of role [user] that asks for the next
    question alone.  They are two more than the turns.  This list is the
    one that is sent.  A network that answers only a request with exactly
    this list, and refuses any other, is answered: the method returns the
    text of its reply.  A network that asks for any other list refuses
    what the method sends, and the method falls back.  The method makes
    one request, and its answer depends on the network through the answer
    to that request only. *)
Theorem C8_mensajes_de_la_solicitud (self : LlmConversacion.OpenRouterConversacion)
    (env : LlmConversacion.entorno) (c : list mensaje) (prompt : string) :
  let ms := LlmConversacion.messages (LlmConversacion.payload self c prompt) in
  ms !! 0 = Some (LlmConversacion.MensajeApi "system" prompt)
  /\ (forall i,
        ms !! S i
        = match c !! i with
          | Some m =>
            Some (LlmConversacion.MensajeApi
                    (if String.eqb (rol m) "entrevistador" then "assistant" else "user")
                    (texto m))
          | None =>
            if i =? length c
            then Some (LlmConversacion.MensajeApi "user"
                         LlmConversacion.instruccion_final)
            else None
          end)
  /\ length ms = length c + 2
  /\ (forall t, LlmConversacion.rol_api (rol (entrevistador t)) = "assistant"
                /\ LlmConversacion.rol_api (rol (candidato t)) = "user")
  /\ ms = mensajes_esperados c prompt
  /\ (forall r x s,
        LlmConversacion.ok r = true ->
        LlmConversacion.json r = Ret x ->
        contenido_de x = Some s ->
        LlmConversacion.metodo_generar_pregunta self
          (LlmConversacion.Entorno (LlmConversacion.OPENROUTER_API_KEY env)
             (red_que_exige (mensajes_esperados c prompt) r))
          c prompt
        = Ret (Str.strip (Str.replace "Entrevistador:" EmptyString (Str.strip s))))
  /\ (forall otros r,
        otros <> mensajes_esperados c prompt ->
        LlmConversacion.metodo_generar_pregunta self
          (LlmConversacion.Entorno (LlmConversacion.OPENROUTER_API_KEY env)
             (red_que_exige otros r))
          c prompt
        = Ret LlmConversacion.respaldo_excepcion)
  /\ LlmConversacion.metodo_generar_pregunta self env c prompt
     = LlmConversacion.metodo_generar_pregunta self
         (LlmConversacion.Entorno (LlmConversacion.OPENROUTER_API_KEY env)
            (fun _ => LlmConversacion.post env (LlmConversacion.payload self c prompt)))
         c prompt.
Proof.
  intros ms. unfold ms. cbn [LlmConversacion.messages LlmConversacion.payload].
  unfold LlmConversacion.formatear_mensajes. split; [reflexivity|]. split; [|split].
  - intros i. cbn [app]. change (?x :: ?l) with ([x] ++ l) at 1.
    rewrite lookup_app_r by (cbn [length]; lia).
    cbn [length]. replace (S i - 1) with i by lia.
    destruct (c !! i) as [m|] eqn:E.
    + rewrite lookup_app_l by (rewrite length_map; eapply lookup_lt_Some, E).
      rewrite (list_lookup_fmap _ c i), E. reflexivity.
    + apply lookup_ge_None in E.
      rewrite lookup_app_r by (rewrite length_map; exact E).
      rewrite length_map. destruct (i =? length c) eqn:Hi.
      * apply Nat.eqb_eq in Hi as ->. rewrite Nat.sub_diag. reflexivity.
      * apply Nat.eqb_neq in Hi. apply lookup_ge_None. cbn [length]. lia.
  - cbn [app length]. rewrite length_app, length_map. cbn [length]. lia.
  - split; [intros t; split; reflexivity|]. split; [reflexivity|].
    split; [|split; [|reflexivity]].
    + intros r x s Hok Hj Hs.
      pose proof (LlmProps.metodo_json_ret self
                    (LlmConversacion.Entorno (LlmConversacion.OPENROUTER_API_KEY env)
                       (red_que_exige (mensajes_esperados c prompt) r))
                    c prompt r x) as H.
      rewrite Hs in H. apply H; [|exact Hok | exact Hj].
      cbn [LlmConversacion.post]. unfold red_que_exige.
      apply decide_True. reflexivity.
    + intros otros r Hn.
      apply (LlmProps.metodo_post_lanza self
               (LlmConversacion.Entorno (LlmConversacion.OPENROUTER_API_KEY env)
                  (red_que_exige otros r))
               c prompt ConnectionError).
      cbn [LlmConversacion.post]. unfold red_que_exige.
      apply decide_False. intros H. apply Hn. symmetry. exact H.
Qed.

(** * More properties: the session *)

Module SesionProps.
Import Main.

Lemma paso_todo_guardado (ses : sesion) (p p' : punto) (st st' : estado) (ev : evento) :
  (todo_guardado p = true -> guardada ses st) ->
  paso ses p st ev = Some (p', st') ->
  todo_guardado p' = true -> guardada ses st'.
Proof.
  intros Hi H Hp'.
  destruct p; destruct ev; cbn [paso en_try en_except] in H;
    try discriminate H; MainProps.casos_paso H;
    try discriminate H; injection H as <- <-;
    try discriminate Hp';
    try (unfold texto_a_voz; destruct (usar_tts ses));
    first [ exact (Hi eq_refl)
          | eexists; apply guardar_conversacion_lookup ].
Qed.

Lemma ejecutar_todo_guardado (ses : sesion) (evs : list evento) :
  forall (p p' : punto) (st st' : estado),
  (todo_guardado p = true -> guardada ses st) ->
  ejecutar ses p st evs = Some (p', st') ->
  todo_guardado p' = true -> guardada ses st'.
Proof.
  induction evs as [|ev evs IH]; intros p p' st st' Hi H.
  - injection H as <- <-. exact Hi.
  - cbn [ejecutar] in H.
    destruct (paso ses p st ev) as [[p1 st1]|] eqn:E; [|discriminate].
    eapply IH; [|exact H]. eapply paso_todo_guardado; [exact Hi | exact E].
Qed.

Lemma paso_solo_agrega (ses : sesion) (p p' : punto) (st st' : estado) (ev : evento) :
  paso ses p st ev = Some (p', st') ->
  exists mas, conversacion st' = conversacion st ++ mas /\ length mas <= 1.
Proof.
  intros H.
  destruct p; destruct ev; cbn [paso en_try en_except] in H;
    try discriminate H; MainProps.casos_paso H;
    try discriminate H; injection H as <- <-;
    try (unfold texto_a_voz; destruct (usar_tts ses));
    first [ exists []; split; [symmetry; apply app_nil_r | cbn; lia]
          | eexists [_]; split; [reflexivity | cbn; lia] ].
Qed.

Lemma paso_sin_voz (ses : sesion) (p p' : punto) (st st' : estado) (ev : evento) :
  usar_tts ses = false ->
  paso ses p st ev = Some (p', st') ->
  exists extra, traza st' = traza st ++ extra
                /\ forallb (fun a => negb (es_habla a)) extra = true.
Proof.
  intros Hv H.
  destruct p; destruct ev; cbn [paso en_try en_except] in H;
    try discriminate H; MainProps.casos_paso H;
    try discriminate H; injection H as <- <-;
    try (unfold texto_a_voz; rewrite Hv);
    first [ exists []; split; [symmetry; apply app_nil_r | reflexivity]
          | eexists [_]; split; reflexivity ].
Qed.

(** The only way from a statement of the [try] block to the handler is
    a [KeyboardInterrupt] that leaves the statement; the statement has
    then appended nothing. *)
Lemma paso_a_manejador (ses : sesion) (p : punto) (st st1 : estado) (ev : evento) :
  en_try p = true ->
  paso ses p st ev = Some (L134_print, st1) ->
  conversacion st1 = conversacion st.
Proof.
  intros Hp H.
  destruct p; try discriminate Hp; destruct ev; cbn [paso en_try en_except] in H;
    try discriminate H; MainProps.casos_paso H;
    try discriminate H; injection H as <-; reflexivity.
Qed.

(** The handler, from its first statement. *)
Lemma manejador_guarda (ses : sesion) (st1 : estado) (ahora : Datetime.t) :
  exists st',
    ejecutar ses L134_print st1 [Sigue; Reloj ahora; Sigue] = Some (Fin, st')
    /\ conversacion st' = conversacion st1
    /\ fs st' !! EntrevistaLogger.archivo_salida (logger ses)
       = Some (Json.dumps (EntrevistaLogger.datos ahora (conversacion st1))).
Proof.
  eexists. split; [reflexivity|]. split; [reflexivity|].
  cbn [fs guardar anota conversacion]. apply guardar_conversacion_lookup.
Qed.

End SesionProps.

(** X1.  When the session is over, after a closing question or after a
    Ctrl+C that the handler has caught, the file of the session holds the
    record of the whole conversation, and [cargar_conversacion] gives it
    back. *)
Theorem sesion_terminada_guardada (ses : Main.sesion) (st0 st : Main.estado)
    (evs : list Main.evento) :
  Main.ejecutar ses Main.L82_input st0 evs = Some (Main.Fin, st) ->
  (exists t,
     Main.fs st !! EntrevistaLogger.archivo_salida (Main.logger ses)
     = Some (Json.dumps (EntrevistaLogger.datos t (Main.conversacion st))))
  /\ EntrevistaLogger.cargar_conversacion (Main.logger ses) None (Main.fs st)
     = Ret (py_de_conversacion (Main.conversacion st)).
Proof.
  intros H.
  assert (Hg : guardada ses st).
  { eapply (SesionProps.ejecutar_todo_guardado ses evs Main.L82_input Main.Fin st0 st);
      [discriminate | exact H | reflexivity]. }
  split; [exact Hg|]. destruct Hg as [t Ht].
  apply (cargar_conversacion_dumps (Main.logger ses) t _ _ _ Ht).
Qed.

(** A session with one answer that a Ctrl+C ends at the call of the
    generator. *)
Lemma sesion_terminada_guardada_testigo :
  exists st,
    Main.ejecutar
      (Main.Sesion false "gpt"
         (EntrevistaLogger.init (Datetime.mk 2026 11 3 9 5 0 0) "transcripts")
         "Eres un entrevistador.")
      Main.L82_input
      (Main.Estado [entrevistador Main.pregunta_inicial] ∅ [])
      [Main.Enter; Main.Sigue; Main.Microfono (oye "Soy Ana"); Main.Sigue;
       Main.Sigue; Main.Sigue; Main.Reloj (Datetime.mk 2026 11 3 9 6 10 0);
       Main.CtrlC; Main.Sigue; Main.Reloj (Datetime.mk 2026 11 3 9 6 12 0);
       Main.Sigue]
    = Some (Main.Fin, st)
    /\ EntrevistaLogger.cargar_conversacion
         (EntrevistaLogger.init (Datetime.mk 2026 11 3 9 5 0 0) "transcripts")
         None (Main.fs st)
       = Ret (py_de_conversacion (Main.conversacion st)).
Proof.
  eexists. split; [reflexivity|].
  refine (proj2 (sesion_terminada_guardada
                   (Main.Sesion false "gpt"
                      (EntrevistaLogger.init (Datetime.mk 2026 11 3 9 5 0 0)
                         "transcripts")
                      "Eres un entrevistador.")
                   (Main.Estado [entrevistador Main.pregunta_inicial] ∅ [])
                   _
                   [Main.Enter; Main.Sigue; Main.Microfono (oye "Soy Ana");
                    Main.Sigue; Main.Sigue; Main.Sigue;
                    Main.Reloj (Datetime.mk 2026 11 3 9 6 10 0);
                    Main.CtrlC; Main.Sigue;
                    Main.Reloj (Datetime.mk 2026 11 3 9 6 12 0); Main.Sigue]
                   eq_refl)).
Defined.

(** X2.  The conversation only grows: whatever the session does, the
    turns it had are still there, in their place and unchanged, followed
    by the turns that have been appended since. *)
Theorem conversacion_solo_crece (ses : Main.sesion) (evs : list Main.evento) :
  forall (p p' : Main.punto) (st st' : Main.estado),
  Main.ejecutar ses p st evs = Some (p', st') ->
  exists mas,
    Main.conversacion st' = Main.conversacion st ++ mas
    /\ length mas <= length evs.
Proof.
  induction evs as [|ev evs IH]; intros p p' st st' H.
  - injection H as <- <-. exists []. split; [symmetry; apply app_nil_r | reflexivity].
  - cbn [Main.ejecutar] in H.
    destruct (Main.paso ses p st ev) as [[p1 st1]|] eqn:E; [|discriminate].
    destruct (SesionProps.paso_solo_agrega _ _ _ _ _ _ E) as (m1 & H1 & L1).
    destruct (IH _ _ _ _ H) as (m2 & H2 & L2).
    exists (m1 ++ m2). split.
    + rewrite H2, H1, app_assoc. reflexivity.
    + rewrite length_app. cbn [length]. lia.
Qed.

Lemma conversacion_solo_crece_testigo :
  exists mas,
    [entrevistador Main.pregunta_inicial; candidato "Soy Ana"]
    = [entrevistador Main.pregunta_inicial] ++ mas.
Proof.
  destruct (conversacion_solo_crece
              (Main.Sesion false "gpt"
                 (EntrevistaLogger.init (Datetime.mk 2026 11 3 9 5 0 0) "transcripts")
                 "Eres un entrevistador.")
              [Main.Enter; Main.Sigue; Main.Microfono (oye "Soy Ana"); Main.Sigue;
               Main.Sigue; Main.Sigue]
              Main.L82_input Main.L102_guardar
              (Main.Estado [entrevistador Main.pregunta_inicial] ∅ [])
              _ eq_refl) as (mas & H & _).
  exists mas. exact H.
Defined.

(** X3.  A [KeyboardInterrupt] that leaves a statement of the [try]
    block, from line 82 to line 130, because it is raised in the
    statement itself, or cuts a write of the logger short, or comes out
    of the recorder or of the generator, which do not always let it out:
    the handler then runs with the conversation as it was before that
    statement, writes it whole to the file of the session, and the
    session is over; loading the file gives the conversation back. *)
Theorem interrupcion_en_try_guarda (ses : Main.sesion) (p : Main.punto)
    (st st1 : Main.estado) (ev : Main.evento) (ahora : Datetime.t) :
  Main.en_try p = true ->
  Main.paso ses p st ev = Some (Main.L134_print, st1) ->
  exists st',
    Main.ejecutar ses p st [ev; Main.Sigue; Main.Reloj ahora; Main.Sigue]
      = Some (Main.Fin, st')
    /\ Main.conversacion st' = Main.conversacion st
    /\ Main.fs st' !! EntrevistaLogger.archivo_salida (Main.logger ses)
       = Some (Json.dumps (EntrevistaLogger.datos ahora (Main.conversacion st)))
    /\ EntrevistaLogger.cargar_conversacion (Main.logger ses) None (Main.fs st')
       = Ret (py_de_conversacion (Main.conversacion st)).
Proof.
  intros Hp H.
  pose proof (SesionProps.paso_a_manejador ses p st st1 ev Hp H) as Hc.
  destruct (SesionProps.manejador_guarda ses st1 ahora) as (st' & He & Hc' & Hf).
  exists st'. rewrite Hc in Hc', Hf.
  split; [|split; [exact Hc' | split; [exact Hf|]]].
  - change (Main.ejecutar ses p st (ev :: [Main.Sigue; Main.Reloj ahora; Main.Sigue]))
      with (match Main.paso ses p st ev with
            | Some (p', s') =>
              Main.ejecutar ses p' s' [Main.Sigue; Main.Reloj ahora; Main.Sigue]
            | None => None
            end).
    rewrite H. exact He.
  - apply (cargar_conversacion_dumps (Main.logger ses) ahora _ _
             (EntrevistaLogger.archivo_salida (Main.logger ses)) Hf).
Qed.

(** An interrupt that comes out of the recorder, raised while the
    directory of the recording is made. *)
Lemma interrupcion_en_try_guarda_testigo :
  exists st',
    Main.ejecutar
      (Main.Sesion false "gpt"
         (EntrevistaLogger.init (Datetime.mk 2026 11 3 9 5 0 0) "transcripts")
         "Eres un entrevistador.")
      Main.L86_grabar
      (Main.Estado [entrevistador Main.pregunta_inicial] ∅ [])
      [Main.Microfono
         (WhisperStt.Entorno (Lanza KeyboardInterrupt) (Ret tt) (Ret tt) (Ret tt)
            (Ret "Soy Ana") (Ret tt));
       Main.Sigue; Main.Reloj (Datetime.mk 2026 11 3 9 6 10 0); Main.Sigue]
    = Some (Main.Fin, st')
    /\ Main.conversacion st' = [entrevistador Main.pregunta_inicial].
Proof.
  destruct (interrupcion_en_try_guarda
              (Main.Sesion false "gpt"
                 (EntrevistaLogger.init (Datetime.mk 2026 11 3 9 5 0 0) "transcripts")
                 "Eres un entrevistador.")
              Main.L86_grabar
              (Main.Estado [entrevistador Main.pregunta_inicial] ∅ [])
              _
              (Main.Microfono
                 (WhisperStt.Entorno (Lanza KeyboardInterrupt) (Ret tt) (Ret tt) (Ret tt)
                    (Ret "Soy Ana") (Ret tt)))
              (Datetime.mk 2026 11 3 9 6 10 0) eq_refl eq_refl)
    as (st' & He & Hc & _).
  exists st'. split; [exact He | exact Hc].
Defined.

(** X4.  A [KeyboardInterrupt] that cuts one of the two writes of the
    loop short, whatever part of the record had reached the file: the
    handler writes the whole record over it, and the file can be loaded
    again. *)
Theorem escritura_cortada_reparada (ses : Main.sesion) (p : Main.punto)
    (st : Main.estado) (antes ahora : Datetime.t) (n : nat) :
  p = Main.L102_guardar \/ p = Main.L116_guardar ->
  exists st',
    Main.ejecutar ses p st
      [Main.CtrlC_al_escribir antes n; Main.Sigue; Main.Reloj ahora; Main.Sigue]
      = Some (Main.Fin, st')
    /\ Main.conversacion st' = Main.conversacion st
    /\ EntrevistaLogger.cargar_conversacion (Main.logger ses) None (Main.fs st')
       = Ret (py_de_conversacion (Main.conversacion st)).
Proof.
  intros Hp.
  destruct (MainProps.interrupcion_al_escribir ses p st antes ahora n Hp)
    as (st' & He & Hc & Hf).
  exists st'. split; [exact He|]. split; [exact Hc|].
  apply (cargar_conversacion_dumps (Main.logger ses) ahora _ _
           (EntrevistaLogger.archivo_salida (Main.logger ses))).
  rewrite Hf. apply lookup_insert_eq.
Qed.

Lemma escritura_cortada_reparada_testigo :
  exists st',
    Main.ejecutar
      (Main.Sesion false "gpt"
         (EntrevistaLogger.init (Datetime.mk 2026 11 3 9 5 0 0) "transcripts")
         "Eres un entrevistador.")
      Main.L102_guardar
      (Main.Estado [entrevistador Main.pregunta_inicial; candidato "Soy Ana"] ∅ [])
      [Main.CtrlC_al_escribir (Datetime.mk 2026 11 3 9 6 10 0) 17; Main.Sigue;
       Main.Reloj (Datetime.mk 2026 11 3 9 6 12 0); Main.Sigue]
    = Some (Main.Fin, st').
Proof.
  destruct (escritura_cortada_reparada
              (Main.Sesion false "gpt"
                 (EntrevistaLogger.init (Datetime.mk 2026 11 3 9 5 0 0) "transcripts")
                 "Eres un entrevistador.")
              Main.L102_guardar
              (Main.Estado [entrevistador Main.pregunta_inicial; candidato "Soy Ana"] ∅ [])
              (Datetime.mk 2026 11 3 9 6 10 0) (Datetime.mk 2026 11 3 9 6 12 0) 17
              (or_introl eq_refl))
    as (st' & He & _).
  exists st'. exact He.
Defined.

(** X5.  Without [--tts], [texto_a_voz] is never called. *)
Theorem sin_tts_no_habla (ses : Main.sesion) (evs : list Main.evento) :
  forall (p p' : Main.punto) (st st' : Main.estado),
  Main.usar_tts ses = false ->
  Main.ejecutar ses p st evs = Some (p', st') ->
  exists extra,
    Main.traza st' = Main.traza st ++ extra
    /\ forallb (fun a => negb (es_habla a)) extra = true.
Proof.
  induction evs as [|ev evs IH]; intros p p' st st' Hv H.
  - injection H as <- <-. exists []. split; [symmetry; apply app_nil_r | reflexivity].
  - cbn [Main.ejecutar] in H.
    destruct (Main.paso ses p st ev) as [[p1 st1]|] eqn:E; [|discriminate].
    destruct (SesionProps.paso_sin_voz _ _ _ _ _ _ Hv E) as (x1 & H1 & F1).
    destruct (IH _ _ _ _ Hv H) as (x2 & H2 & F2).
    exists (x1 ++ x2). split.
    + rewrite H2, H1, app_assoc. reflexivity.
    + rewrite forallb_app, F1, F2. reflexivity.
Qed.

Lemma sin_tts_no_habla_testigo :
  exists st' extra,
    Main.ejecutar
      (Main.Sesion false "gpt"
         (EntrevistaLogger.init (Datetime.mk 2026 11 3 9 5 0 0) "transcripts")
         "Eres un entrevistador.")
      (Main.L121_print "¿Qué lenguajes usas?")
      (Main.Estado [entrevistador Main.pregunta_inicial; candidato "Soy Ana"] ∅ [])
      [Main.Sigue; Main.Sigue; Main.Sigue]
    = Some (Main.L82_input, st')
    /\ Main.traza st' = [] ++ extra
    /\ forallb (fun a => negb (es_habla a)) extra = true.
Proof.
  eexists.
  destruct (sin_tts_no_habla
              (Main.Sesion false "gpt"
                 (EntrevistaLogger.init (Datetime.mk 2026 11 3 9 5 0 0) "transcripts")
                 "Eres un entrevistador.")
              [Main.Sigue; Main.Sigue; Main.Sigue]
              (Main.L121_print "¿Qué lenguajes usas?") Main.L82_input
              (Main.Estado [entrevistador Main.pregunta_inicial; candidato "Soy Ana"] ∅ [])
              _ eq_refl eq_refl) as (extra & Ht & Hf).
  exists extra. split; [reflexivity | split; [exact Ht | exact Hf]].
Defined.

(** X6.  A question that does not close the interview is appended to the
    conversation but not written: the session is back at the top of the
    loop without a call of the logger, so the file of the session lacks
    this last turn until the next answer is saved.  Without [--tts],
    where no audio file is made either, the files are as they were
    before the question was generated. *)
Theorem pregunta_sin_guardar (ses : Main.sesion) (st : Main.estado)
    (env : LlmConversacion.entorno) (q : string) :
  LlmConversacion.generar_pregunta env (Main.conversacion st)
    (Main.prompt_base ses) (Some (Main.modelo_llm ses)) = Ret q ->
  Main.debe_terminar q = false ->
  exists st',
    Main.ejecutar ses Main.L105_generar st
      [Main.Red env; Main.Sigue; Main.Sigue; Main.Sigue; Main.Sigue]
    = Some (Main.L82_input, st')
    /\ Main.conversacion st' = Main.conversacion st ++ [entrevistador q]
    /\ forallb (fun a => negb (es_guarda a))
         (drop (length (Main.traza st)) (Main.traza st')) = true
    /\ (Main.usar_tts ses = false -> Main.fs st' = Main.fs st).
Proof.
  intros Hg Hd. cbn [Main.ejecutar Main.paso]. rewrite Hg.
  cbn [Main.ejecutar Main.paso]. rewrite Hd.
  eexists. split; [reflexivity|].
  unfold Main.texto_a_voz. destruct (Main.usar_tts ses);
    cbn [Main.conversacion Main.fs Main.traza Main.anota Main.append];
    (split; [reflexivity|]; split; [|intros _; reflexivity]);
    rewrite <- ?app_assoc, drop_app_length; reflexivity.
Qed.

Lemma pregunta_sin_guardar_testigo :
  exists st',
    Main.ejecutar
      (Main.Sesion false "gpt"
         (EntrevistaLogger.init (Datetime.mk 2026 11 3 9 5 0 0) "transcripts")
         "Eres un entrevistador.")
      Main.L105_generar
      (Main.Estado [entrevistador Main.pregunta_inicial; candidato "Soy Ana"] ∅ [])
      [Main.Red (LlmConversacion.Entorno (Some "k") (fun _ => Lanza ConnectionError));
       Main.Sigue; Main.Sigue; Main.Sigue; Main.Sigue]
    = Some (Main.L82_input, st')
    /\ Main.fs st' = ∅.
Proof.
  destruct (pregunta_sin_guardar
              (Main.Sesion false "gpt"
                 (EntrevistaLogger.init (Datetime.mk 2026 11 3 9 5 0 0) "transcripts")
                 "Eres un entrevistador.")
              (Main.Estado [entrevistador Main.pregunta_inicial; candidato "Soy Ana"] ∅ [])
              (LlmConversacion.Entorno (Some "k") (fun _ => Lanza ConnectionError))
              LlmConversacion.respaldo_excepcion eq_refl eq_refl)
    as (st' & He & _ & _ & Hf).
  exists st'. split; [exact He | exact (Hf eq_refl)].
Defined.

(** * More properties: the logger *)

Module StrMasProps.
Import Str StrMas.

Lemma esp2_espacio (c : ascii) : esp2 c " " = false.
Proof. unfold esp2. apply andb_false_r. Qed.

Lemma esp3_espacio_2 (c1 c3 : ascii) : esp3 c1 " " c3 = false.
Proof.
  unfold esp3. change (cod " ") with 32%N. cbn [N.eqb Pos.eqb].
  rewrite !andb_false_r. reflexivity.
Qed.

Lemma esp3_espacio_3 (c1 c2 : ascii) : esp3 c1 c2 " " = false.
Proof.
  unfold esp3. change (cod " ") with 32%N.
  change (32 =? 128)%N with false. change (32 =? 159)%N with false.
  change (128 <=? 32)%N with false. change (32 =? 168)%N with false.
  change (32 =? 169)%N with false. change (32 =? 175)%N with false.
  cbn [andb orb]. rewrite !andb_false_r. reflexivity.
Qed.

Lemma cerrar_app (pal : option string) (x y : list string) :
  cerrar pal x ++ y = cerrar pal (x ++ y).
Proof. destruct pal; reflexivity. Qed.

(** A space between two texts separates their words. *)
Lemma split_go_espacio (n : nat) :
  forall (a : string), String.length a <= n ->
  forall (pal : option string) (b : string),
  split_go pal (a +:+ String " " b) = split_go pal a ++ split_go None b.
Proof.
  induction n as [|n IH]; intros a Ha pal b.
  - destruct a; [|cbn [String.length] in Ha; lia].
    rewrite append_nil_l. cbn [split_go]. change (esp1 " ") with true.
    cbv iota. rewrite cerrar_app. reflexivity.
  - destruct a as [|c1 r1].
    { rewrite append_nil_l. cbn [split_go]. change (esp1 " ") with true.
      cbv iota. rewrite cerrar_app. reflexivity. }
    cbn [String.length] in Ha. rewrite append_cons.
    cbn [split_go]. destruct (esp1 c1).
    { rewrite IH by lia. symmetry. apply cerrar_app. }
    destruct r1 as [|c2 r2].
    { rewrite append_nil_l, esp2_espacio.
      assert (E : split_go (alargar pal c1) (String " " b)
                  = split_go (alargar pal c1) EmptyString ++ split_go None b)
        by (apply (IH EmptyString); cbn; lia).
      destruct b; rewrite ?esp3_espacio_2; exact E. }
    cbn [String.length] in Ha. rewrite append_cons. destruct (esp2 c1 c2).
    { rewrite IH by lia. symmetry. apply cerrar_app. }
    destruct r2 as [|c3 r3].
    { rewrite append_nil_l, esp3_espacio_3.
      apply (IH (String c2 EmptyString)). cbn. lia. }
    cbn [String.length] in Ha. rewrite append_cons. destruct (esp3 c1 c2 c3).
    { rewrite IH by lia. symmetry. apply cerrar_app. }
    rewrite <- !append_cons. apply IH. cbn [String.length]. lia.
Qed.

Lemma split_append_espacio (a b : string) :
  split (a +:+ " " +:+ b) = split a ++ split b.
Proof. unfold split. apply (split_go_espacio (String.length a)). lia. Qed.

(** The words of texts joined by spaces are the words of the texts. *)
Lemma split_join (ts : list string) :
  split (join " " ts) = concat (map split ts).
Proof.
  induction ts as [|x [|y l] IH].
  - reflexivity.
  - cbn [join map concat]. rewrite app_nil_r. reflexivity.
  - change (join " " (x :: y :: l)) with (x +:+ " " +:+ join " " (y :: l)).
    rewrite split_append_espacio, IH. reflexivity.
Qed.

Lemma rev_app_append (a acc : string) :
  String.rev_app a acc = String.rev a +:+ acc.
Proof.
  unfold String.rev. revert acc.
  induction a as [|c a IH]; intros acc; [reflexivity|].
  cbn [String.rev_app]. rewrite IH, (IH (String c EmptyString)), append_assoc.
  reflexivity.
Qed.

Lemma rev_append (a b : string) :
  String.rev (a +:+ b) = String.rev b +:+ String.rev a.
Proof.
  induction a as [|c a IH].
  - rewrite append_nil_l, append_nil_r. reflexivity.
  - rewrite append_cons. unfold String.rev at 1 3. cbn [String.rev_app].
    rewrite !rev_app_append, IH, append_assoc. reflexivity.
Qed.

Lemma endswith_append (a p : string) : endswith (a +:+ p) p = true.
Proof. unfold endswith. rewrite rev_append. apply StrProps.prefix_append. Qed.

Lemma startswith_append (p b : string) : startswith (p +:+ b) p = true.
Proof. apply StrProps.prefix_append. Qed.

End StrMasProps.



(** X8.  [cargar_conversacion] on a file that is UTF-8 text within the
    limits of the interpreter and holds JSON which is not an object, a
    list for one: [datos.get] raises [AttributeError], which the [except]
    clause does not catch. *)
Theorem cargar_no_objeto (self : EntrevistaLogger.t) (archivo : option string)
    (fs : archivos) (contenido : string) (x : Py.valor) :
  fs !! default (EntrevistaLogger.archivo_salida self) archivo = Some contenido ->
  legible contenido ->
  Json.loads contenido = Some x ->
  (forall m, x <> Py.Dicc m) ->
  EntrevistaLogger.cargar_conversacion self archivo fs = Lanza AttributeError.
Proof.
  intros H _ Hl Hx. unfold EntrevistaLogger.cargar_conversacion. cbv zeta.
  rewrite H. cbn [mbind resultado_bind]. rewrite Hl. cbn [mbind resultado_bind].
  destruct x; try reflexivity. destruct (Hx m eq_refl).
Qed.

Lemma cargar_no_objeto_testigo :
  EntrevistaLogger.cargar_conversacion
    (EntrevistaLogger.init (Datetime.mk 2026 11 3 9 5 0 0) "transcripts")
    (Some "transcripts/lista.json") {["transcripts/lista.json" := "[]"]}
  = Lanza AttributeError.
Proof.
  apply (cargar_no_objeto _ _ _ "[]" (Py.Lista []));
    [reflexivity | | reflexivity |].
  - split; [reflexivity|]. split; apply Nat.leb_le; reflexivity.
  - intros m. discriminate.
Defined.

(** X9.  [cargar_conversacion] on a file that is UTF-8 text within the
    limits of the interpreter and holds a JSON object without the key
    [conversacion]: the empty list. *)
Theorem cargar_sin_clave (self : EntrevistaLogger.t) (archivo : option string)
    (fs : archivos) (contenido : string) (m : list (string * Py.valor)) :
  fs !! default (EntrevistaLogger.archivo_salida self) archivo = Some contenido ->
  legible contenido ->
  Json.loads contenido = Some (Py.Dicc m) ->
  Py.dicc_buscar "conversacion" m = None ->
  EntrevistaLogger.cargar_conversacion self archivo fs = Ret (Py.Lista []).
Proof.
  intros H _ Hl Hm. unfold EntrevistaLogger.cargar_conversacion. cbv zeta.
  rewrite H. cbn [mbind resultado_bind]. rewrite Hl. cbn [mbind resultado_bind].
  unfold EntrevistaLogger.get_conversacion. rewrite Hm. reflexivity.
Qed.

Lemma cargar_sin_clave_testigo :
  EntrevistaLogger.cargar_conversacion
    (EntrevistaLogger.init (Datetime.mk 2026 11 3 9 5 0 0) "transcripts")
    (Some "transcripts/otra.json") {["transcripts/otra.json" := "{}"]}
  = Ret (Py.Lista []).
Proof.
  apply (cargar_sin_clave _ _ _ "{}" []); try reflexivity.
  split; [reflexivity|]. split; apply Nat.leb_le; reflexivity.
Defined.

(** X10.  Two loggers made in the same directory within the same second
    have the same file: what the second one saves replaces the record of
    the first. *)
Theorem mismo_segundo_mismo_archivo (d1 d2 t1 t2 : Datetime.t) (directorio : string)
    (c1 c2 : list mensaje) (fs : archivos) :
  Datetime.year d1 = Datetime.year d2 ->
  Datetime.month d1 = Datetime.month d2 ->
  Datetime.day d1 = Datetime.day d2 ->
  Datetime.hour d1 = Datetime.hour d2 ->
  Datetime.minute d1 = Datetime.minute d2 ->
  Datetime.second d1 = Datetime.second d2 ->
  let l1 := EntrevistaLogger.init d1 directorio in
  let l2 := EntrevistaLogger.init d2 directorio in
  let fs1 := (EntrevistaLogger.guardar_conversacion l1 t1 c1 fs).1 in
  let fs2 := (EntrevistaLogger.guardar_conversacion l2 t2 c2 fs1).1 in
  EntrevistaLogger.archivo_salida l1 = EntrevistaLogger.archivo_salida l2
  /\ EntrevistaLogger.cargar_conversacion l1 None fs2 = Ret (py_de_conversacion c2).
Proof.
  intros Hy Hm Hd Hh Hmi Hs l1 l2 fs1 fs2.
  assert (E : EntrevistaLogger.archivo_salida l1 = EntrevistaLogger.archivo_salida l2).
  { unfold l1, l2, EntrevistaLogger.init, Datetime.strftime_Ymd_HMS.
    cbn [EntrevistaLogger.archivo_salida].
    rewrite Hy, Hm, Hd, Hh, Hmi, Hs. reflexivity. }
  split; [exact E|].
  apply (cargar_conversacion_dumps l1 t2 c2 fs2 (EntrevistaLogger.archivo_salida l1)).
  rewrite E. apply guardar_conversacion_lookup.
Qed.

Lemma mismo_segundo_mismo_archivo_testigo :
  EntrevistaLogger.archivo_salida
    (EntrevistaLogger.init (Datetime.mk 2026 11 3 9 5 0 12) "transcripts")
  = EntrevistaLogger.archivo_salida
      (EntrevistaLogger.init (Datetime.mk 2026 11 3 9 5 0 87) "transcripts").
Proof.
  refine (proj1 (mismo_segundo_mismo_archivo
                   (Datetime.mk 2026 11 3 9 5 0 12)
                   (Datetime.mk 2026 11 3 9 5 0 87)
                   (Datetime.mk 2026 11 3 9 5 1 0) (Datetime.mk 2026 11 3 9 5 2 0)
                   "transcripts" [entrevistador "Hola"] [entrevistador "Buenas"] ∅
                   eq_refl eq_refl eq_refl eq_refl eq_refl eq_refl)).
Defined.

(** X11.  [listar_entrevistas], when [os.listdir] answers: the names that
    start with [entrevista_] and end with [.json], all of them and no
    other, in ascending order. *)
Theorem listar_entrevistas_ordenada (self : EntrevistaLogger.t)
    (entradas : list string) :
  exists l,
    Resumen.listar_entrevistas self (Ret entradas) = Ret l
    /\ Sorted String.le l
    /\ l ≡ₚ filter (fun f => Is_true (StrMas.startswith f "entrevista_"
                                      && StrMas.endswith f ".json")) entradas
    /\ forall f, f ∈ l <-> f ∈ entradas
                           /\ StrMas.startswith f "entrevista_" = true
                           /\ StrMas.endswith f ".json" = true.
Proof.
  eexists. split; [reflexivity|]. split; [apply Sorted_merge_sort; apply _|].
  split; [apply merge_sort_Permutation|].
  intros f. rewrite merge_sort_Permutation, list_elem_of_filter.
  rewrite Is_true_true, andb_true_iff. tauto.
Qed.

(** X12.  [listar_entrevistas], when [os.listdir] raises an [Exception],
    a missing directory for one: the empty list. *)
Theorem listar_entrevistas_error (self : EntrevistaLogger.t) (e : excepcion) :
  es_Exception e = true ->
  Resumen.listar_entrevistas self (Lanza e) = Ret [].
Proof.
  intros He. unfold Resumen.listar_entrevistas, try_except_Exception, try_except.
  cbn [mbind resultado_bind]. rewrite He. reflexivity.
Qed.

Lemma listar_entrevistas_error_testigo :
  Resumen.listar_entrevistas
    (EntrevistaLogger.init (Datetime.mk 2026 11 3 9 5 0 0) "transcripts")
    (Lanza FileNotFoundError)
  = Ret [].
Proof. apply listar_entrevistas_error. reflexivity. Defined.

(** X13.  The file of a session is one that [listar_entrevistas] keeps:
    when [os.listdir] reports its name, the name is in the list. *)
Theorem listar_entrevistas_sesion (self : EntrevistaLogger.t) (ahora : Datetime.t)
    (directorio : string) (entradas : list string) :
  let nombre := "entrevista_" +:+ Datetime.strftime_Ymd_HMS ahora +:+ ".json" in
  nombre ∈ entradas ->
  EntrevistaLogger.archivo_salida (EntrevistaLogger.init ahora directorio)
    = path_join directorio nombre
  /\ exists l, Resumen.listar_entrevistas self (Ret entradas) = Ret l /\ nombre ∈ l.
Proof.
  intros nombre Hn. split; [reflexivity|].
  eexists. split; [reflexivity|].
  rewrite merge_sort_Permutation, list_elem_of_filter.
  split; [|exact Hn]. apply Is_true_true, andb_true_iff. split.
  - apply StrMasProps.startswith_append.
  - unfold nombre. rewrite <- append_assoc. apply StrMasProps.endswith_append.
Qed.

Lemma listar_entrevistas_sesion_testigo :
  exists l,
    Resumen.listar_entrevistas
      (EntrevistaLogger.init (Datetime.mk 2026 11 3 9 5 0 0) "transcripts")
      (Ret ["notas.txt"; "entrevista_20261103_090500.json"])
    = Ret l
    /\ "entrevista_20261103_090500.json" ∈ l.
Proof.
  refine (proj2 (listar_entrevistas_sesion
                   (EntrevistaLogger.init (Datetime.mk 2026 11 3 9 5 0 0) "transcripts")
                   (Datetime.mk 2026 11 3 9 5 0 0) "transcripts"
                   ["notas.txt"; "entrevista_20261103_090500.json"] _)).
  apply list_elem_of_further, list_elem_of_here.
Defined.

Module ResumenProps.
Import Resumen.

Lemma contar_rol_conversacion (r : string) (c : list mensaje) :
  contar_rol r (map py_de_mensaje c)
  = Ret (length (filter (fun m => rol m = r) c)).
Proof.
  induction c as [|m c IH]; [reflexivity|].
  cbn [map contar_rol].
  change (Py.indice_str (py_de_mensaje m) "rol") with (Ret (Py.Cadena (rol m))).
  cbn [mbind resultado_bind]. rewrite IH. cbn [mbind resultado_bind StrMas.igual_str].
  rewrite filter_cons. destruct (String.eqb_spec (rol m) r) as [E|E];
    destruct (decide (rol m = r)); try contradiction; reflexivity.
Qed.

Lemma texto_rol_conversacion (r : string) (c : list mensaje) :
  texto_rol r (map py_de_mensaje c)
  = Ret (StrMas.join " " (map texto (filter (fun m => rol m = r) c))).
Proof.
  unfold texto_rol.
  assert (H : textos_rol r (map py_de_mensaje c)
              = Ret (map (fun m => Py.Cadena (texto m))
                       (filter (fun m => rol m = r) c))).
  { induction c as [|m c IH]; [reflexivity|].
    cbn [map textos_rol].
    change (Py.indice_str (py_de_mensaje m) "rol") with (Ret (Py.Cadena (rol m))).
    change (Py.indice_str (py_de_mensaje m) "texto") with (Ret (Py.Cadena (texto m))).
    cbn [mbind resultado_bind StrMas.igual_str]. rewrite IH, filter_cons.
    destruct (String.eqb_spec (rol m) r) as [E|E];
      destruct (decide (rol m = r)); try contradiction; reflexivity. }
  rewrite H. cbn [mbind resultado_bind].
  assert (H2 : forall l : list mensaje,
            cadenas (map (fun m => Py.Cadena (texto m)) l) = Ret (map texto l)).
  { induction l as [|m l IH]; [reflexivity|].
    cbn [map cadenas]. rewrite IH. reflexivity. }
  rewrite H2. reflexivity.
Qed.

Lemma last_map_mensaje (c : list mensaje) :
  last (map py_de_mensaje c) = py_de_mensaje <$> last c.
Proof.
  induction c as [|m [|m' c] IH]; [reflexivity | reflexivity |].
  exact IH.
Qed.

(** The summary of a conversation of the logger. *)
Lemma resumir_conversacion (m : mensaje) (c : list mensaje) :
  let todos := m :: c in
  let de r := filter (fun x => rol x = r) todos in
  resumir (map py_de_mensaje todos)
  = Ret (Resumen
           {| turnos_totales := length todos;
              turnos_entrevistador := length (de "entrevistador");
              turnos_candidato := length (de "candidato");
              palabras_entrevistador :=
                length (concat (map StrMas.split (map texto (de "entrevistador"))));
              palabras_candidato :=
                length (concat (map StrMas.split (map texto (de "candidato"))));
              duracion_estimada_medios_minutos := length todos;
              primera_pregunta := Py.Cadena (texto m);
              ultima_interaccion := Py.Cadena (texto (List.last c m)) |}).
Proof.
  intros todos de. unfold resumir.
  rewrite !contar_rol_conversacion. cbn [mbind resultado_bind].
  rewrite !texto_rol_conversacion. cbn [mbind resultado_bind].
  rewrite !StrMasProps.split_join, last_map_mensaje, length_map.
  assert (Hl : last todos = Some (List.last c m)).
  { unfold todos. clear. revert m. induction c as [|x c IH]; intros m; [reflexivity|].
    change (last (m :: x :: c)) with (last (x :: c)). rewrite IH. f_equal.
    clear. revert x m. induction c as [|y c IH]; intros x m; [reflexivity|].
    change (List.last (x :: y :: c) m) with (List.last (y :: c) m).
    transitivity (List.last c y); [symmetry; apply IH | apply IH]. }
  rewrite Hl. reflexivity.
Qed.

Lemma generar_resumen_guardada (self : EntrevistaLogger.t) (ahora : Datetime.t)
    (m : mensaje) (c : list mensaje) (fs : archivos) :
  generar_resumen self None
    (EntrevistaLogger.guardar_conversacion self ahora (m :: c) fs).1
  = resumir (map py_de_mensaje (m :: c)).
Proof.
  unfold generar_resumen.
  assert (Hcarga : EntrevistaLogger.cargar_conversacion self None
                     (EntrevistaLogger.guardar_conversacion self ahora (m :: c) fs).1
                   = Ret (py_de_conversacion (m :: c))).
  { apply (cargar_conversacion_dumps self ahora (m :: c) _
             (EntrevistaLogger.archivo_salida self)).
    apply guardar_conversacion_lookup. }
  rewrite Hcarga. reflexivity.
Qed.

Lemma turnos_disjuntos (c : list mensaje) :
  length (filter (fun x => rol x = "entrevistador") c)
  + length (filter (fun x => rol x = "candidato") c) <= length c.
Proof.
  induction c as [|x l IH]; [cbn; lia|].
  rewrite !filter_cons. cbn [length].
  destruct (decide (rol x = "entrevistador")) as [E|E];
    destruct (decide (rol x = "candidato")) as [E'|E'];
    cbn [length]; try lia. rewrite E in E'. discriminate E'.
Qed.

Lemma turnos_alternos (c : list mensaje) :
  forall b : bool,
  alterna_desde b c = true ->
  length (filter (fun x => rol x = "entrevistador") c)
    = Nat.div2 (if b then S (length c) else length c)
  /\ length (filter (fun x => rol x = "candidato") c)
    = Nat.div2 (if b then length c else S (length c)).
Proof.
  induction c as [|m c IH]; intros b H.
  - destruct b; split; reflexivity.
  - cbn [alterna_desde] in H. apply andb_true_iff in H as [Hr H].
    apply String.eqb_eq in Hr. destruct (IH _ H) as [He Hc].
    rewrite !filter_cons, Hr.
    destruct b; cbn [negb] in He, Hc.
    + rewrite decide_True by reflexivity. rewrite decide_False by discriminate.
      cbn [length]. rewrite He, Hc. split; reflexivity.
    + rewrite decide_False by discriminate. rewrite decide_True by reflexivity.
      cbn [length]. rewrite He, Hc. split; reflexivity.
Qed.

End ResumenProps.



(** X15.  [generar_resumen] on what [guardar_conversacion] has written,
    for a conversation with at least one turn: the number of turns, the
    turns of each of the two roles, the words of each role, which are the
    words of its turns, half a minute a turn, the text of the first turn
    and the text of the last. *)
Theorem resumen_tras_guardar (self : EntrevistaLogger.t) (ahora : Datetime.t)
    (m : mensaje) (c : list mensaje) (fs : archivos) :
  let todos := m :: c in
  let de r := filter (fun x => rol x = r) todos in
  let palabras r := length (concat (map StrMas.split (map texto (de r)))) in
  exists r,
    Resumen.generar_resumen self None
      (EntrevistaLogger.guardar_conversacion self ahora todos fs).1
    = Ret (Resumen.Resumen r)
    /\ Resumen.turnos_totales r = length todos
    /\ Resumen.turnos_entrevistador r = length (de "entrevistador")
    /\ Resumen.turnos_candidato r = length (de "candidato")
    /\ Resumen.turnos_entrevistador r + Resumen.turnos_candidato r
       <= Resumen.turnos_totales r
    /\ Resumen.palabras_entrevistador r = palabras "entrevistador"
    /\ Resumen.palabras_candidato r = palabras "candidato"
    /\ Resumen.duracion_estimada_medios_minutos r = length todos
    /\ Resumen.primera_pregunta r = Py.Cadena (texto m)
    /\ Resumen.ultima_interaccion r = Py.Cadena (texto (List.last c m)).
Proof.
  intros todos de palabras. eexists. split.
  - unfold todos. rewrite ResumenProps.generar_resumen_guardada.
    apply ResumenProps.resumir_conversacion.
  - cbn [Resumen.turnos_totales Resumen.turnos_entrevistador
         Resumen.turnos_candidato Resumen.palabras_entrevistador
         Resumen.palabras_candidato Resumen.duracion_estimada_medios_minutos
         Resumen.primera_pregunta Resumen.ultima_interaccion].
    repeat split; try reflexivity.
    apply (ResumenProps.turnos_disjuntos todos).
Qed.

(** X16.  [generar_resumen] on the saved conversation of a session, whose
    turns alternate from the interviewer on: the candidate has half of
    the turns, rounded down, and the interviewer the others. *)
Theorem resumen_de_sesion (self : EntrevistaLogger.t) (ahora : Datetime.t)
    (c : list mensaje) (fs : archivos) :
  c <> [] ->
  alterna c = true ->
  exists r,
    Resumen.generar_resumen self None
      (EntrevistaLogger.guardar_conversacion self ahora c fs).1
    = Ret (Resumen.Resumen r)
    /\ Resumen.turnos_candidato r = Nat.div2 (length c)
    /\ Resumen.turnos_entrevistador r = Nat.div2 (S (length c))
    /\ Resumen.turnos_entrevistador r + Resumen.turnos_candidato r
       = Resumen.turnos_totales r.
Proof.
  intros Hc Ha. destruct c as [|m c]; [contradiction|].
  destruct (ResumenProps.turnos_alternos (m :: c) true Ha) as [H1 H2].
  eexists. split.
  { rewrite ResumenProps.generar_resumen_guardada.
    apply ResumenProps.resumir_conversacion. }
  cbn [Resumen.turnos_totales Resumen.turnos_entrevistador Resumen.turnos_candidato].
  rewrite H1, H2.
  split; [reflexivity | split; [reflexivity|]].
  generalize (length (m :: c)). clear. intros n.
  induction n as [n IH] using lt_wf_ind.
  destruct n as [|[|n]]; [reflexivity | reflexivity |].
  cbn [Nat.div2]. specialize (IH n ltac:(lia)). cbn [Nat.div2] in IH. lia.
Qed.

Lemma resumen_de_sesion_testigo :
  exists r,
    Resumen.generar_resumen
      (EntrevistaLogger.init (Datetime.mk 2026 11 3 9 5 0 0) "transcripts") None
      (EntrevistaLogger.guardar_conversacion
         (EntrevistaLogger.init (Datetime.mk 2026 11 3 9 5 0 0) "transcripts")
         (Datetime.mk 2026 11 3 9 6 0 0)
         [entrevistador "Hola"; candidato "Soy Ana"; entrevistador "Gracias"] ∅).1
    = Ret (Resumen.Resumen r)
    /\ Resumen.turnos_candidato r = 1
    /\ Resumen.turnos_entrevistador r = 2.
Proof.
  destruct (resumen_de_sesion
              (EntrevistaLogger.init (Datetime.mk 2026 11 3 9 5 0 0) "transcripts")
              (Datetime.mk 2026 11 3 9 6 0 0)
              [entrevistador "Hola"; candidato "Soy Ana"; entrevistador "Gracias"] ∅)
    as (r & Hr & Hc & He & _).
  - discriminate.
  - reflexivity.
  - exists r. split; [exact Hr | split; [exact Hc | exact He]].
Defined.

(** * More properties: the recorder and the synthesizer *)

Module AudioProps.
Section Props.

Context {muestra : Type} (silenciosa : muestra -> bool).

Lemma forallb_lookup (f : muestra -> bool) (l : list muestra) (i : nat) (y : muestra) :
  forallb f l = true -> l !! i = Some y -> f y = true.
Proof.
  revert i. induction l as [|x l IH]; intros i H Hi; [destruct i; discriminate|].
  cbn [forallb] in H. apply andb_true_iff in H as [Hx Hl].
  destruct i as [|i]; [injection Hi as <-; exact Hx | exact (IH i Hl Hi)].
Qed.

(** One turn of the loop. *)
Lemma paso_bucle (k : nat) (g : list muestra) (i c faltan : nat) :
  Audio.bucle silenciosa k g i c (S faltan)
  = let c' := if activa silenciosa g i then 0 else S c in
    if k <=? c' then Audio.hasta (Z.of_nat i - Z.of_nat k) g
    else Audio.bucle silenciosa k g (S i) c' faltan.
Proof.
  cbn [Audio.bucle]. unfold activa.
  destruct (g !! i) as [x|]; [destruct (silenciosa x)|]; reflexivity.
Qed.

Lemma bucle_prefijo (k : nat) (g : list muestra) (faltan : nat) :
  forall i c, exists n, Audio.bucle silenciosa k g i c faltan = take n g.
Proof.
  induction faltan as [|f IH]; intros i c.
  - exists (length g). symmetry. apply firstn_all.
  - rewrite paso_bucle. cbv zeta. destruct (k <=? _); [|apply IH].
    unfold Audio.hasta. destruct (_ <? 0)%Z; eexists; reflexivity.
Qed.

(** The counter [c] at the index [i] counts silent samples just before
    [i]; when every run of [k] indices holds an active one, the loop runs
    to its end. *)
Lemma bucle_entero (k : nat) (g : list muestra) (faltan : nat) :
  forall i c,
  c < k -> c <= i ->
  (forall j, i - c <= j < i -> activa silenciosa g j = false) ->
  (forall w, w + k <= i + faltan ->
     exists j, w <= j < w + k /\ activa silenciosa g j = true) ->
  Audio.bucle silenciosa k g i c faltan = g.
Proof.
  induction faltan as [|f IH]; intros i c Hc Hi Hrun Hw; [reflexivity|].
  rewrite paso_bucle. cbv zeta.
  destruct (activa silenciosa g i) eqn:Ea.
  - replace (k <=? 0) with false by (symmetry; apply Nat.leb_gt; lia).
    apply IH; [lia | lia | intros j Hj; lia | intros w H; apply Hw; lia].
  - destruct (Nat.leb_spec k (S c)) as [Hk|Hk].
    + exfalso. destruct (Hw (i - c)) as (j & Hj & Hact); [lia|].
      destruct (decide (j = i)) as [->|Hji]; [congruence|].
      rewrite Hrun in Hact by lia. discriminate.
    + apply IH; [lia | lia | | intros w H; apply Hw; lia].
      intros j Hj. destruct (decide (j = i)) as [->|Hji]; [exact Ea|].
      apply Hrun. lia.
Qed.

(** When [n] is the first index from which [k] samples in a row are
    silent, the loop stops at the last of them and cuts before [n - 1]. *)
Lemma bucle_corta (k : nat) (g : list muestra) (n : nat) :
  (forall j, n <= j < n + k -> activa silenciosa g j = false) ->
  (forall w, w < n -> exists j, w <= j < w + k /\ activa silenciosa g j = true) ->
  forall faltan i c,
  c < k -> c <= i -> i < n + k -> n + k <= i + faltan ->
  (forall j, i - c <= j < i -> activa silenciosa g j = false) ->
  (n <= i -> i - n <= c) ->
  Audio.bucle silenciosa k g i c faltan = Audio.hasta (Z.of_nat n - 1) g.
Proof.
  intros Hsil Hantes.
  induction faltan as [|f IH]; intros i c Hc Hi Hin Hf Hrun Hcn; [lia|].
  rewrite paso_bucle. cbv zeta.
  destruct (activa silenciosa g i) eqn:Ea.
  - assert (Hlt : i < n).
    { destruct (Nat.lt_ge_cases i n) as [H|H]; [exact H|].
      rewrite Hsil in Ea by lia. discriminate. }
    replace (k <=? 0) with false by (symmetry; apply Nat.leb_gt; lia).
    apply IH; [lia | lia | lia | lia | intros j Hj; lia | lia].
  - assert (Hrun' : forall j, i - c <= j < S i -> activa silenciosa g j = false).
    { intros j Hj. destruct (decide (j = i)) as [->|Hji]; [exact Ea|].
      apply Hrun. lia. }
    destruct (Nat.leb_spec k (S c)) as [Hk|Hk].
    + assert (Hfin : S i = n + k).
      { destruct (decide (S i = n + k)) as [H|H]; [exact H|]. exfalso.
        destruct (Hantes (i - c)) as (j & Hj & Hact); [lia|].
        rewrite Hrun' in Hact by lia. discriminate. }
      f_equal. lia.
    + apply IH; [lia | lia | lia | lia | intros j Hj; apply Hrun'; lia | lia].
Qed.

End Props.
End AudioProps.

(** X17.  [grabar_audio] returns samples of the recording, from its
    first one on: a prefix of what [sd.rec] has recorded. *)
Theorem grabar_audio_prefijo {muestra : Type} (silenciosa : muestra -> bool)
    (duracion_max fs : nat) (grabacion : list muestra) :
  exists n,
    Audio.grabar_audio silenciosa duracion_max fs grabacion = take n grabacion
    /\ n <= length grabacion.
Proof.
  destruct (AudioProps.bucle_prefijo silenciosa (2 * fs) grabacion
              (duracion_max * fs) 0 0) as [n Hn].
  exists (n `min` length grabacion). split; [|lia].
  unfold Audio.grabar_audio. rewrite Hn.
  destruct (Nat.le_ge_cases n (length grabacion)) as [H|H].
  - rewrite Nat.min_l by exact H. reflexivity.
  - rewrite Nat.min_r by exact H. rewrite !firstn_all2 by lia. reflexivity.
Qed.

(** X18.  [grabar_audio] when the first [duracion_max * fs] samples hold
    no two seconds of silence in a row: the whole recording is returned.
    A recording shorter than that counts as active past its end. *)
Theorem grabar_audio_sin_silencio {muestra : Type} (silenciosa : muestra -> bool)
    (duracion_max fs : nat) (grabacion : list muestra) :
  (forall w, w + 2 * fs <= duracion_max * fs ->
     exists j, w <= j < w + 2 * fs /\ activa silenciosa grabacion j = true) ->
  Audio.grabar_audio silenciosa duracion_max fs grabacion = grabacion.
Proof.
  intros Hw. unfold Audio.grabar_audio.
  destruct fs as [|fs].
  - rewrite (Nat.mul_0_r duracion_max). reflexivity.
  - apply AudioProps.bucle_entero; try lia. exact Hw.
Qed.

Lemma grabar_audio_sin_silencio_testigo :
  Audio.grabar_audio (fun b : bool => b) 3 1 [false; true; false] = [false; true; false].
Proof.
  apply grabar_audio_sin_silencio. intros w Hw.
  destruct w as [|[|w]]; [exists 0 | exists 2 | cbn in Hw; lia];
    (split; [cbn; lia | reflexivity]).
Defined.

(** X19.  [grabar_audio] when two seconds of silence follow a sample that
    is not silent: the slice [grabacion[:i - muestras_silencio]] ends one
    sample early, and the last sample before the silence is lost with
    the silence. *)
Theorem grabar_audio_pierde_muestra {muestra : Type} (silenciosa : muestra -> bool)
    (duracion_max fs : nat) (voz : list muestra) (x : muestra)
    (silencio resto : list muestra) :
  silenciosa x = false ->
  length silencio = 2 * fs ->
  forallb silenciosa silencio = true ->
  (forall w, w + 2 * fs <= length voz ->
     exists j, w <= j < w + 2 * fs /\ activa silenciosa voz j = true) ->
  length voz + 1 + 2 * fs <= duracion_max * fs ->
  Audio.grabar_audio silenciosa duracion_max fs (voz ++ [x] ++ silencio ++ resto)
  = voz.
Proof.
  intros Hx Hlen Hsil Hvoz Hd. unfold Audio.grabar_audio.
  set (k := 2 * fs) in *. set (g := voz ++ [x] ++ silencio ++ resto).
  assert (Hk : 0 < k) by (unfold k in *; nia).
  assert (Hgx : g !! length voz = Some x) by (apply list_lookup_middle; reflexivity).
  rewrite (AudioProps.bucle_corta silenciosa k g (S (length voz))); try lia.
  - replace (Z.of_nat (S (length voz)) - 1)%Z with (Z.of_nat (length voz)) by lia.
    unfold Audio.hasta. destruct (Z.ltb_spec (Z.of_nat (length voz)) 0); [lia|].
    rewrite Nat2Z.id. unfold g. apply take_app_length.
  - intros j Hj. unfold activa, g.
    rewrite lookup_app_r by lia. rewrite lookup_app_r by (cbn; lia).
    destruct (lookup_lt_is_Some_2 silencio (j - length voz - length [x])) as [y Hy];
      [cbn; lia|].
    rewrite lookup_app_l by (cbn; lia). rewrite Hy.
    rewrite (AudioProps.forallb_lookup silenciosa silencio _ y Hsil Hy). reflexivity.
  - intros w Hw. destruct (Nat.le_gt_cases (w + k) (length voz)) as [H|H].
    + destruct (Hvoz w H) as (j & Hj & Hact). exists j. split; [exact Hj|].
      unfold activa, g. rewrite lookup_app_l by lia. exact Hact.
    + exists (length voz). split; [lia|]. unfold activa. rewrite Hgx, Hx. reflexivity.
Qed.

Lemma grabar_audio_pierde_muestra_testigo :
  Audio.grabar_audio (fun b : bool => b) 6 1
    ([false; true; false] ++ [false] ++ [true; true] ++ [false])
  = [false; true; false].
Proof.
  apply (grabar_audio_pierde_muestra (fun b : bool => b) 6 1 [false; true; false]
           false [true; true] [false]);
    [reflexivity | reflexivity | reflexivity | | cbn; lia].
  intros w Hw.
  destruct w as [|[|w]]; [exists 0 | exists 2 | cbn in Hw; lia];
    (split; [cbn; lia | reflexivity]).
Defined.

(** X20.  [grabar_audio] when the recording begins with two seconds of
    silence: the index of the slice is [-1], and the recording is
    returned without its last sample, the silence included. *)
Theorem grabar_audio_silencio_inicial {muestra : Type} (silenciosa : muestra -> bool)
    (duracion_max fs : nat) (silencio resto : list muestra) :
  0 < fs ->
  2 <= duracion_max ->
  length silencio = 2 * fs ->
  forallb silenciosa silencio = true ->
  Audio.grabar_audio silenciosa duracion_max fs (silencio ++ resto)
  = removelast (silencio ++ resto).
Proof.
  intros Hfs Hd Hlen Hsil. unfold Audio.grabar_audio.
  set (k := 2 * fs) in *. set (g := silencio ++ resto).
  rewrite (AudioProps.bucle_corta silenciosa k g 0);
    [| | intros w Hw; lia | lia | lia | lia | unfold k; nia | intros j Hj; lia | lia].
  - change (Z.of_nat 0 - 1)%Z with (-1)%Z. unfold Audio.hasta.
    change (-1 <? 0)%Z with true. cbv iota.
    rewrite removelast_firstn_len. f_equal. lia.
  - intros j Hj. unfold activa, g.
    destruct (lookup_lt_is_Some_2 silencio j) as [y Hy]; [lia|].
    rewrite lookup_app_l by lia. rewrite Hy.
    rewrite (AudioProps.forallb_lookup silenciosa silencio _ y Hsil Hy). reflexivity.
Qed.

Lemma grabar_audio_silencio_inicial_testigo :
  Audio.grabar_audio (fun b : bool => b) 3 1 ([true; true] ++ [false; false])
  = [true; true; false].
Proof.
  apply (grabar_audio_silencio_inicial (fun b : bool => b) 3 1 [true; true]
           [false; false]); [lia | lia | reflexivity | reflexivity].
Defined.

(** X21.  [texto_a_voz] when the calls it makes raise nothing but an
    [Exception]: it returns, the path of the audio file when the
    directory, the synthesizer and the synthesis have succeeded, whatever
    the playback does, and [None] otherwise. *)
Theorem texto_a_voz_resultado (env : CoquiTts.entorno) (texto : string)
    (reproducir : bool) :
  sin_escape (CoquiTts.makedirs env) = true ->
  sin_escape (CoquiTts.crear_sintetizador env) = true ->
  sin_escape (CoquiTts.sintetizar env) = true ->
  sin_escape (CoquiTts.sf_read env) = true ->
  sin_escape (CoquiTts.sd_play env) = true ->
  sin_escape (CoquiTts.sd_wait env) = true ->
  CoquiTts.texto_a_voz env texto reproducir
  = Ret (if devuelve (CoquiTts.makedirs env)
            && devuelve (CoquiTts.crear_sintetizador env)
            && devuelve (CoquiTts.sintetizar env)
         then Some "temp/audio_salida.wav" else None).
Proof.
  unfold CoquiTts.texto_a_voz, try_except_Exception, try_except.
  destruct env as [m c s r p w]. cbn [CoquiTts.makedirs CoquiTts.crear_sintetizador
    CoquiTts.sintetizar CoquiTts.sf_read CoquiTts.sd_play CoquiTts.sd_wait].
  intros Hm Hc Hs Hr Hp Hw.
  destruct m as [[]|e1]; cbn [sin_escape devuelve mbind resultado_bind andb] in *;
    [|rewrite Hm; reflexivity].
  destruct c as [[]|e2]; cbn [sin_escape devuelve mbind resultado_bind andb] in *;
    [|rewrite Hc; reflexivity].
  destruct s as [[]|e3]; cbn [sin_escape devuelve mbind resultado_bind andb] in *;
    [|rewrite Hs; reflexivity].
  destruct reproducir; [|reflexivity].
  destruct r as [[]|e4]; cbn [sin_escape mbind resultado_bind] in *;
    [|rewrite Hr; reflexivity].
  destruct p as [[]|e5]; cbn [sin_escape mbind resultado_bind] in *;
    [|rewrite Hp; reflexivity].
  destruct w as [[]|e6]; cbn [sin_escape mbind resultado_bind] in *;
    [|rewrite Hw; reflexivity].
  reflexivity.
Qed.

Lemma texto_a_voz_resultado_testigo :
  CoquiTts.texto_a_voz
    (CoquiTts.Entorno (Ret tt) (Ret tt) (Ret tt) (Lanza OSError) (Ret tt) (Ret tt))
    "Hola" true
  = Ret (Some "temp/audio_salida.wav").
Proof.
  apply (texto_a_voz_resultado
           (CoquiTts.Entorno (Ret tt) (Ret tt) (Ret tt) (Lanza OSError) (Ret tt) (Ret tt))
           "Hola" true); reflexivity.
Defined.

(** X22.  What [texto_a_voz] raises is no [Exception]: only an interrupt
    or an exit that one of its calls has raised leaves it. *)
Theorem texto_a_voz_escape (env : CoquiTts.entorno) (texto : string)
    (reproducir : bool) (e : excepcion) :
  CoquiTts.texto_a_voz env texto reproducir = Lanza e ->
  es_Exception e = false
  /\ (CoquiTts.makedirs env = Lanza e
      \/ CoquiTts.crear_sintetizador env = Lanza e
      \/ CoquiTts.sintetizar env = Lanza e
      \/ reproducir = true
         /\ (CoquiTts.sf_read env = Lanza e
             \/ CoquiTts.sd_play env = Lanza e
             \/ CoquiTts.sd_wait env = Lanza e)).
Proof.
  unfold CoquiTts.texto_a_voz, try_except_Exception, try_except.
  destruct env as [m c s r p w]. cbn [CoquiTts.makedirs CoquiTts.crear_sintetizador
    CoquiTts.sintetizar CoquiTts.sf_read CoquiTts.sd_play CoquiTts.sd_wait].
  destruct m as [[]|e1]; cbn [mbind resultado_bind].
  2:{ destruct (es_Exception e1) eqn:E; [discriminate|].
      intros [= <-]. split; [exact E | left; reflexivity]. }
  destruct c as [[]|e2]; cbn [mbind resultado_bind].
  2:{ destruct (es_Exception e2) eqn:E; [discriminate|].
      intros [= <-]. split; [exact E | right; left; reflexivity]. }
  destruct s as [[]|e3]; cbn [mbind resultado_bind].
  2:{ destruct (es_Exception e3) eqn:E; [discriminate|].
      intros [= <-]. split; [exact E | right; right; left; reflexivity]. }
  destruct reproducir; [|discriminate].
  destruct r as [[]|e4]; cbn [mbind resultado_bind].
  2:{ destruct (es_Exception e4) eqn:E; [discriminate|]. cbn [mbind resultado_bind].
      rewrite E. intros [= <-]. split; [exact E|]. do 3 right. split; [reflexivity|].
      left; reflexivity. }
  destruct p as [[]|e5]; cbn [mbind resultado_bind].
  2:{ destruct (es_Exception e5) eqn:E; [discriminate|]. cbn [mbind resultado_bind].
      rewrite E. intros [= <-]. split; [exact E|]. do 3 right. split; [reflexivity|].
      right; left; reflexivity. }
  destruct w as [[]|e6]; cbn [mbind resultado_bind]; [discriminate|].
  destruct (es_Exception e6) eqn:E; [discriminate|]. cbn [mbind resultado_bind].
  rewrite E. intros [= <-]. split; [exact E|]. do 3 right. split; [reflexivity|].
  right; right; reflexivity.
Qed.

Lemma texto_a_voz_escape_testigo :
  CoquiTts.texto_a_voz
    (CoquiTts.Entorno (Ret tt) (Ret tt) (Ret tt) (Ret tt)
       (Lanza KeyboardInterrupt) (Ret tt))
    "Hola" true
  = Lanza KeyboardInterrupt
  /\ es_Exception KeyboardInterrupt = false.
Proof.
  split; [reflexivity|].
  refine (proj1 (texto_a_voz_escape
                   (CoquiTts.Entorno (Ret tt) (Ret tt) (Ret tt) (Ret tt)
                      (Lanza KeyboardInterrupt) (Ret tt))
                   "Hola" true KeyboardInterrupt eq_refl)).
Defined.

(** * More properties: the generator, the transcription, the start *)

(** X23.  [generar_pregunta] when the reply has a success status and the
    expected shape: the answer of the model, without the white space
    around it and without the prefix of the interviewer. *)
Theorem generar_pregunta_exito (env : LlmConversacion.entorno) (c : list mensaje)
    (prompt : string) (nombre : option string)
    (self : LlmConversacion.OpenRouterConversacion)
    (r : LlmConversacion.respuesta_http) (x : Py.valor) (s : string) :
  LlmConversacion.init env (LlmConversacion.modelo_especifico nombre) = Ret self ->
  LlmConversacion.post env (LlmConversacion.payload self c prompt) = Ret r ->
  LlmConversacion.ok r = true ->
  LlmConversacion.json r = Ret x ->
  contenido_de x = Some s ->
  LlmConversacion.generar_pregunta env c prompt nombre
  = Ret (Str.strip (Str.replace "Entrevistador:" EmptyString (Str.strip s))).
Proof.
  intros Hi Hp Hok Hj Hc.
  apply (LlmProps.generar_pregunta_con_cliente env c prompt nombre self _ Hi).
  pose proof (LlmProps.metodo_json_ret self env c prompt r x Hp Hok Hj) as H.
  rewrite Hc in H. exact H.
Qed.

Lemma generar_pregunta_exito_testigo :
  LlmConversacion.generar_pregunta
    (LlmConversacion.Entorno (Some "clave")
       (fun _ =>
          Ret (LlmConversacion.RespuestaHttp 200
                 (Ret (Py.Dicc
                         [("choices",
                           Py.Lista
                             [Py.Dicc
                                [("message",
                                  Py.Dicc
                                    [("content",
                                      Py.Cadena " Entrevistador: Sigamos. ")])]])])))))
    [entrevistador "Hola"; candidato "Soy Ana"] "Eres un entrevistador." (Some "gpt")
  = Ret "Sigamos.".
Proof.
  eapply (generar_pregunta_exito _ _ _ _ _ _ _ " Entrevistador: Sigamos. ");
    reflexivity.
Defined.

(** X24.  An interrupt or an exit raised by the request, or by the
    decoding of a reply with a success status, passes through both
    [except Exception] clauses of the generator; in the session a
    [KeyboardInterrupt] then enters the handler of line 132, and a
    [SystemExit] ends the program. *)
Theorem interrupcion_en_la_red (ses : Main.sesion) (st : Main.estado)
    (env : LlmConversacion.entorno)
    (self : LlmConversacion.OpenRouterConversacion) (e : excepcion) :
  let sol := LlmConversacion.payload self (Main.conversacion st)
               (Main.prompt_base ses) in
  LlmConversacion.init env
    (LlmConversacion.modelo_especifico (Some (Main.modelo_llm ses))) = Ret self ->
  LlmConversacion.post env sol = Lanza e
  \/ (exists r, LlmConversacion.post env sol = Ret r
                /\ LlmConversacion.ok r = true
                /\ LlmConversacion.json r = Lanza e) ->
  es_Exception e = false ->
  LlmConversacion.generar_pregunta env (Main.conversacion st)
    (Main.prompt_base ses) (Some (Main.modelo_llm ses)) = Lanza e
  /\ Main.paso ses Main.L105_generar st (Main.Red env)
     = Some (Main.lanzada e, Main.anota (Main.Genera (Main.conversacion st)) st)
  /\ (e = KeyboardInterrupt -> Main.lanzada e = Main.L134_print)
  /\ (e = SystemExit -> Main.lanzada e = Main.NoCapturada SystemExit).
Proof.
  intros sol Hi Hp He.
  assert (Hm : LlmConversacion.metodo_generar_pregunta self env (Main.conversacion st)
                 (Main.prompt_base ses) = Lanza e).
  { destruct Hp as [Hp | (r & Hp & Hok & Hj)].
    - rewrite (LlmProps.metodo_post_lanza self env _ _ e Hp), He. reflexivity.
    - rewrite (LlmProps.metodo_json_lanza self env _ _ r e Hp Hok Hj), He.
      reflexivity. }
  assert (Hg : LlmConversacion.generar_pregunta env (Main.conversacion st)
                 (Main.prompt_base ses) (Some (Main.modelo_llm ses)) = Lanza e).
  { unfold LlmConversacion.generar_pregunta. rewrite Hi.
    cbn [mbind resultado_bind]. rewrite Hm.
    unfold try_except_Exception, try_except. rewrite He. reflexivity. }
  split; [exact Hg|]. split.
  - cbn [Main.paso]. rewrite Hg. reflexivity.
  - split; intros ->; reflexivity.
Qed.

Lemma interrupcion_en_la_red_testigo :
  Main.paso
    (Main.Sesion false "gpt"
       (EntrevistaLogger.init (Datetime.mk 2026 11 3 9 5 0 0) "transcripts")
       "Eres un entrevistador.")
    Main.L105_generar
    (Main.Estado [entrevistador "Hola"; candidato "Soy Ana"] ∅ [])
    (Main.Red (LlmConversacion.Entorno (Some "clave")
                 (fun _ => Lanza KeyboardInterrupt)))
  = Some (Main.L134_print,
          Main.anota (Main.Genera [entrevistador "Hola"; candidato "Soy Ana"])
            (Main.Estado [entrevistador "Hola"; candidato "Soy Ana"] ∅ [])).
Proof.
  refine (proj1 (proj2
            (interrupcion_en_la_red
               (Main.Sesion false "gpt"
                  (EntrevistaLogger.init (Datetime.mk 2026 11 3 9 5 0 0) "transcripts")
                  "Eres un entrevistador.")
               (Main.Estado [entrevistador "Hola"; candidato "Soy Ana"] ∅ [])
               (LlmConversacion.Entorno (Some "clave")
                  (fun _ => Lanza KeyboardInterrupt))
               (LlmConversacion.mk "clave" "gpt"
                  "https://openrouter.ai/api/v1/chat/completions"
                  [("Content-Type", "application/json");
                   ("Authorization", "Bearer clave");
                   ("HTTP-Referer", "https://entrevistador-app.com");
                   ("X-Title", "Entrevistador-LLM")])
               KeyboardInterrupt eq_refl (or_introl eq_refl) eq_refl))).
Defined.

(** X25.  The model of the request is the name that was given; no name,
    the empty name and the short name [meta-llama] give the default one.
    The short name itself is never sent. *)
Theorem modelo_de_la_solicitud (env : LlmConversacion.entorno)
    (nombre : option string) (self : LlmConversacion.OpenRouterConversacion)
    (c : list mensaje) (prompt : string) :
  LlmConversacion.init env (LlmConversacion.modelo_especifico nombre) = Ret self ->
  LlmConversacion.model (LlmConversacion.payload self c prompt)
  = match nombre with
    | None | Some EmptyString => LlmConversacion.modelo_por_defecto
    | Some n =>
      if String.eqb n "meta-llama" then LlmConversacion.modelo_por_defecto else n
    end
  /\ LlmConversacion.model (LlmConversacion.payload self c prompt) <> "meta-llama".
Proof.
  unfold LlmConversacion.init.
  destruct (LlmConversacion.OPENROUTER_API_KEY env) as [[|a k]|]; try discriminate.
  intros [= <-].
  cbn [LlmConversacion.payload LlmConversacion.model LlmConversacion.modelo].
  unfold LlmConversacion.modelo_especifico.
  assert (Hd : LlmConversacion.modelo_mapping LlmConversacion.modelo_por_defecto
               = LlmConversacion.modelo_por_defecto) by reflexivity.
  assert (Hn : LlmConversacion.modelo_por_defecto <> "meta-llama") by discriminate.
  assert (Hmm : forall n,
            LlmConversacion.modelo_mapping (LlmConversacion.modelo_mapping n)
            = if String.eqb n "meta-llama"
              then LlmConversacion.modelo_por_defecto else n).
  { intros n. unfold LlmConversacion.modelo_mapping at 2.
    destruct (String.eqb n "meta-llama") eqn:E; [exact Hd|].
    unfold LlmConversacion.modelo_mapping. rewrite E. reflexivity. }
  destruct nombre as [[|b n]|]; rewrite ?Hd; try (split; [reflexivity | exact Hn]).
  rewrite Hmm. split; [reflexivity|].
  destruct (String.eqb_spec (String b n) "meta-llama") as [E|E]; assumption.
Qed.

Lemma modelo_de_la_solicitud_testigo :
  LlmConversacion.model
    (LlmConversacion.payload
       (LlmConversacion.mk "clave" LlmConversacion.modelo_por_defecto
          "https://openrouter.ai/api/v1/chat/completions"
          [("Content-Type", "application/json");
           ("Authorization", "Bearer clave");
           ("HTTP-Referer", "https://entrevistador-app.com");
           ("X-Title", "Entrevistador-LLM")])
       [entrevistador "Hola"] "Eres un entrevistador.")
  = LlmConversacion.modelo_por_defecto.
Proof.
  apply (modelo_de_la_solicitud
           (LlmConversacion.Entorno (Some "clave") (fun _ => Lanza OSError))
           (Some "meta-llama")).
  reflexivity.
Defined.

(** X26.  [grabar_y_transcribir] returns a text exactly when its five
    calls before the removal of the temporary file return, and the text
    is the transcription: whether [os.remove] returns, fails or is
    interrupted makes no difference. *)
Theorem transcripcion_sin_limpieza (m g w c : resultado unit) (t : resultado string)
    (r : resultado unit) (texto : string) :
  WhisperStt.grabar_y_transcribir (WhisperStt.Entorno m g w c t r) = Ret texto
  <-> m = Ret tt /\ g = Ret tt /\ w = Ret tt /\ c = Ret tt /\ t = Ret texto.
Proof.
  unfold WhisperStt.grabar_y_transcribir.
  cbn [WhisperStt.makedirs WhisperStt.grabar_audio WhisperStt.write
       WhisperStt.cargar_modelo WhisperStt.transcribir_archivo WhisperStt.remove].
  split.
  - destruct m as [[]|]; [|discriminate]. destruct g as [[]|]; [|discriminate].
    destruct w as [[]|]; [|discriminate]. destruct c as [[]|]; [|discriminate].
    destruct t as [s|]; [|discriminate]. cbn [mbind resultado_bind].
    destruct r as [[]|e]; intros [= <-]; repeat split.
  - intros (-> & -> & -> & -> & ->). destruct r as [[]|e]; reflexivity.
Qed.

(** X27.  A failure of one of the five calls before the removal leaves
    [grabar_y_transcribir] as it is, an [Exception] included: the
    function catches nothing of them, and the temporary file is not
    removed. *)
Theorem transcripcion_fallida (env : WhisperStt.entorno) (e : excepcion) :
  WhisperStt.grabar_y_transcribir env = Lanza e ->
  WhisperStt.makedirs env = Lanza e
  \/ WhisperStt.grabar_audio env = Lanza e
  \/ WhisperStt.write env = Lanza e
  \/ WhisperStt.cargar_modelo env = Lanza e
  \/ WhisperStt.transcribir_archivo env = Lanza e.
Proof.
  unfold WhisperStt.grabar_y_transcribir. destruct env as [m g w c t r].
  cbn [WhisperStt.makedirs WhisperStt.grabar_audio WhisperStt.write
       WhisperStt.cargar_modelo WhisperStt.transcribir_archivo WhisperStt.remove].
  destruct m as [[]|]; [|intros [= <-]; tauto].
  destruct g as [[]|]; [|intros [= <-]; tauto].
  destruct w as [[]|]; [|intros [= <-]; tauto].
  destruct c as [[]|]; [|intros [= <-]; tauto].
  destruct t as [s|]; [|intros [= <-]; tauto].
  destruct r as [[]|]; discriminate.
Qed.

Lemma transcripcion_fallida_testigo :
  WhisperStt.makedirs
    (WhisperStt.Entorno (Ret tt) (Ret tt) (Lanza OSError) (Ret tt) (Ret "Hola") (Ret tt))
  = Lanza OSError
  \/ WhisperStt.grabar_audio
       (WhisperStt.Entorno (Ret tt) (Ret tt) (Lanza OSError) (Ret tt) (Ret "Hola") (Ret tt))
     = Lanza OSError
  \/ WhisperStt.write
       (WhisperStt.Entorno (Ret tt) (Ret tt) (Lanza OSError) (Ret tt) (Ret "Hola") (Ret tt))
     = Lanza OSError
  \/ WhisperStt.cargar_modelo
       (WhisperStt.Entorno (Ret tt) (Ret tt) (Lanza OSError) (Ret tt) (Ret "Hola") (Ret tt))
     = Lanza OSError
  \/ WhisperStt.transcribir_archivo
       (WhisperStt.Entorno (Ret tt) (Ret tt) (Lanza OSError) (Ret tt) (Ret "Hola") (Ret tt))
     = Lanza OSError.
Proof.
  apply (transcripcion_fallida
           (WhisperStt.Entorno (Ret tt) (Ret tt) (Lanza OSError) (Ret tt) (Ret "Hola")
              (Ret tt)) OSError).
  reflexivity.
Defined.

(** * More properties: the name of the file *)

Module FechaProps.
Import Str StrMas.

Lemma append_cancel_l (a b c : string) : a +:+ b = a +:+ c -> b = c.
Proof.
  induction a as [|x a IH]; [rewrite !append_nil_l; auto|].
  rewrite !append_cons. intros [= H]. exact (IH H).
Qed.

Lemma append_inj_length (a c b d : string) :
  String.length a = String.length c -> a +:+ b = c +:+ d -> a = c /\ b = d.
Proof.
  revert c. induction a as [|x a IH]; intros [|y c] Hl; try discriminate Hl.
  - rewrite !append_nil_l. auto.
  - rewrite !append_cons. intros [= -> H]. injection Hl as Hl.
    destruct (IH c Hl H) as [-> ->]. auto.
Qed.

Lemma digito_valor (n : nat) : nat_of_ascii (digito n) - 48 = n mod 10.
Proof.
  unfold digito. pose proof (Nat.mod_upper_bound n 10 ltac:(lia)) as Hm.
  rewrite nat_ascii_embedding by lia. lia.
Qed.

(** Reading the digits that [decimal_go] has written gives the number
    back. *)
Lemma entero_decimal_go (comb : nat) :
  forall (n : nat) (acc : string),
  n < comb -> entero_go 0 (decimal_go comb n acc) = entero_go n acc.
Proof.
  induction comb as [|k IH]; intros n acc Hn; [lia|].
  cbn [decimal_go]. destruct (Nat.ltb_spec n 10) as [H|H].
  - cbn [entero_go]. rewrite digito_valor, Nat.mod_small by exact H. reflexivity.
  - pose proof (Nat.div_mod_eq n 10) as Hd.
    pose proof (Nat.mod_upper_bound n 10 ltac:(lia)) as Hm.
    rewrite IH by lia. cbn [entero_go]. rewrite digito_valor. f_equal. lia.
Qed.

Lemma entero_ceros (k : nat) (s : string) :
  entero_go 0 (ceros k +:+ s) = entero_go 0 s.
Proof.
  induction k as [|k IH]; cbn [ceros]; [rewrite append_nil_l; reflexivity|].
  rewrite append_cons. cbn [entero_go]. exact IH.
Qed.

Lemma entero_rellena (ancho n : nat) : entero_go 0 (rellena ancho n) = n.
Proof.
  unfold rellena, decimal. cbv zeta. rewrite entero_ceros.
  rewrite entero_decimal_go by lia. reflexivity.
Qed.

Lemma rellena_inj (ancho a b : nat) : rellena ancho a = rellena ancho b -> a = b.
Proof.
  intros H. apply (f_equal (entero_go 0)) in H. rewrite !entero_rellena in H.
  exact H.
Qed.

Lemma length_decimal_go (comb : nat) :
  forall (w n : nat) (acc : string),
  0 < w -> n < 10 ^ w ->
  String.length (decimal_go comb n acc) <= w + String.length acc.
Proof.
  induction comb as [|k IH]; intros w n acc Hw Hn; [cbn [decimal_go]; lia|].
  cbn [decimal_go]. destruct (Nat.ltb_spec n 10) as [H|H].
  - cbn [String.length]. lia.
  - destruct w as [|[|w]]; [lia | change (10 ^ 1) with 10 in Hn; lia |].
    rewrite Nat.pow_succ_r' in Hn.
    assert (Hq : n / 10 < 10 ^ S w) by (apply Nat.Div0.div_lt_upper_bound; exact Hn).
    pose proof (IH (S w) (n / 10) (String (digito n) acc) ltac:(lia) Hq) as Hl.
    cbn [String.length] in Hl. lia.
Qed.

Lemma length_ceros (k : nat) : String.length (ceros k) = k.
Proof. induction k as [|k IH]; cbn [ceros String.length]; [reflexivity | rewrite IH; reflexivity]. Qed.

Lemma length_rellena (w n : nat) :
  0 < w -> n < 10 ^ w -> String.length (rellena w n) = w.
Proof.
  intros Hw Hn. unfold rellena. cbv zeta.
  pose proof (length_decimal_go (S n) w n EmptyString Hw Hn) as H.
  unfold decimal. cbn [String.length] in H.
  rewrite length_append, length_ceros. lia.
Qed.

(** The stamp of a valid date keeps its six fields apart. *)
Lemma strftime_inj (d1 d2 : Datetime.t) (r1 r2 : string) :
  fecha_valida d1 -> fecha_valida d2 ->
  Datetime.strftime_Ymd_HMS d1 +:+ r1 = Datetime.strftime_Ymd_HMS d2 +:+ r2 ->
  Datetime.year d1 = Datetime.year d2
  /\ Datetime.month d1 = Datetime.month d2
  /\ Datetime.day d1 = Datetime.day d2
  /\ Datetime.hour d1 = Datetime.hour d2
  /\ Datetime.minute d1 = Datetime.minute d2
  /\ Datetime.second d1 = Datetime.second d2
  /\ r1 = r2.
Proof.
  intros (Hy1 & Hm1 & Hd1 & Hh1 & Hmi1 & Hs1) (Hy2 & Hm2 & Hd2 & Hh2 & Hmi2 & Hs2).
  unfold Datetime.strftime_Ymd_HMS. rewrite !append_assoc. intros H.
  assert (L2 : forall n, n < 60 \/ n <= 31 -> String.length (rellena 2 n) = 2).
  { intros n Hn. apply length_rellena; [lia|]. change (10 ^ 2) with 100. lia. }
  apply append_inj_length in H as [Hy H];
    [|rewrite !length_rellena by lia; reflexivity].
  apply append_inj_length in H as [Hm H]; [|rewrite !L2 by lia; reflexivity].
  apply append_inj_length in H as [Hd H]; [|rewrite !L2 by lia; reflexivity].
  apply append_cancel_l in H.
  apply append_inj_length in H as [Hh H]; [|rewrite !L2 by lia; reflexivity].
  apply append_inj_length in H as [Hmi H]; [|rewrite !L2 by lia; reflexivity].
  apply append_inj_length in H as [Hs H]; [|rewrite !L2 by lia; reflexivity].
  apply rellena_inj in Hy, Hm, Hd, Hh, Hmi, Hs. auto 10.
Qed.

Lemma path_join_inj (a x y : string) :
  path_join a ("entrevista_" +:+ x) = path_join a ("entrevista_" +:+ y) -> x = y.
Proof.
  unfold path_join. rewrite !(append_cons "e").
  cbn [String.prefix]. destruct (ascii_dec "/" "e") as [E|_]; [discriminate E|].
  destruct (vacia a || String.prefix "/" (String.rev a)); intros H;
    repeat apply append_cancel_l in H;
    apply (append_cancel_l "e") in H; apply (append_cancel_l "ntrevista_") in H;
    exact H.
Qed.

End FechaProps.

(** X28.  Two loggers made in the same directory have the same file only
    when they were made in the same second: the converse of the
    collision within a second.  The dates are those for which [%Y] has
    four digits. *)
Theorem archivo_de_cada_segundo (d1 d2 : Datetime.t) (directorio : string) :
  fecha_valida d1 ->
  fecha_valida d2 ->
  EntrevistaLogger.archivo_salida (EntrevistaLogger.init d1 directorio)
  = EntrevistaLogger.archivo_salida (EntrevistaLogger.init d2 directorio) ->
  Datetime.year d1 = Datetime.year d2
  /\ Datetime.month d1 = Datetime.month d2
  /\ Datetime.day d1 = Datetime.day d2
  /\ Datetime.hour d1 = Datetime.hour d2
  /\ Datetime.minute d1 = Datetime.minute d2
  /\ Datetime.second d1 = Datetime.second d2.
Proof.
  intros H1 H2 H. cbn [EntrevistaLogger.init EntrevistaLogger.archivo_salida] in H.
  apply FechaProps.path_join_inj in H.
  destruct (FechaProps.strftime_inj d1 d2 _ _ H1 H2 H)
    as (Hy & Hm & Hd & Hh & Hmi & Hs & _).
  auto 10.
Qed.

Lemma archivo_de_cada_segundo_testigo :
  Datetime.second (Datetime.mk 2026 11 3 9 5 0 12)
  = Datetime.second (Datetime.mk 2026 11 3 9 5 0 87).
Proof.
  refine (proj2 (proj2 (proj2 (proj2 (proj2
            (archivo_de_cada_segundo
               (Datetime.mk 2026 11 3 9 5 0 12) (Datetime.mk 2026 11 3 9 5 0 87)
               "transcripts" _ _ eq_refl)))))).
  - unfold fecha_valida. cbn [Datetime.year Datetime.month Datetime.day
      Datetime.hour Datetime.minute Datetime.second].
    change (10 ^ 4) with (100 * 100). lia.
  - unfold fecha_valida. cbn [Datetime.year Datetime.month Datetime.day
      Datetime.hour Datetime.minute Datetime.second].
    change (10 ^ 4) with (100 * 100). lia.
Defined.
